(** * Thorlabs motion control: device abstraction and session layer

    A shallow embedding of the registry ([controllers.py], [stages.py]),
    the configuration store and controller factory ([device_manager.py]),
    the controller hierarchy ([base.py]) with its Kinesis and APT
    implementations ([kinesis/kdc101.py], [kinesis/kim101.py],
    [apt/motor.py]) and the stage auto-detection of [gui.py].

    Conventions of the embedding:
    - Python exceptions are values of [Py.exc]; a call that may raise
      returns a [Py.outcome].  Methods of a controller object are state
      transformers [Py.M S A := S -> Py.outcome A * S]: a method that
      raises keeps the mutations made before the raise, as in Python.
    - Python [float] quantities (distances, step sizes, positions) are
      idealised as rationals [Q].
    - Wall-clock time is counted in polling periods of 0.1 s (the argument
      of every [time.sleep] in a wait loop); a timeout is a number of such
      periods.
    - The vendor runtimes are opaque: a backend is a record of operations
      over an abstract device state, each of which may raise. *)

From Stdlib Require Import ZArith QArith Qround Qabs Lia Lqa List Ascii String.
From stdpp Require Import base numbers gmap strings list pretty sorting.

Local Open Scope Z_scope.

(** ** Python runtime fragments *)

Module Py.

(** The exception classes that occur in the modelled code.  The first
    four are the taxonomy of [base.py]; [BackendError] stands for any
    [Exception] thrown by a vendor runtime. *)
Inductive exc : Type :=
| ConnectionError
| CommunicationError
| MovementError
| ConfigurationError
| TypeError
| ValueError
| KeyError
| AttributeError
| ZeroDivisionError
| RuntimeError
| IOError
| BackendError.

Inductive outcome (A : Type) : Type :=
| Return (a : A)
| Raise (e : exc).
Arguments Return {A} a.
Arguments Raise {A} e.

Definition obind {A B} (o : outcome A) (k : A -> outcome B) : outcome B :=
  match o with
  | Return a => k a
  | Raise e => Raise e
  end.

(** State-and-exception monad of a method body. *)
Definition M (S A : Type) : Type := S -> outcome A * S.

Definition ret {S A} (a : A) : M S A := fun s => (Return a, s).
Definition raise {S A} (e : exc) : M S A := fun s => (Raise e, s).
Definition bind {S A B} (m : M S A) (k : A -> M S B) : M S B :=
  fun s =>
    match m s with
    | (Return a, s') => k a s'
    | (Raise e, s') => (Raise e, s')
    end.
Definition gets {S A} (f : S -> A) : M S A := fun s => (Return (f s), s).
Definition modify {S} (f : S -> S) : M S unit := fun s => (Return tt, f s).

(** [try: body except Exception as e: handler e]. *)
Definition try_except {S A} (body : M S A) (handler : exc -> M S A) : M S A :=
  fun s =>
    match body s with
    | (Return a, s') => (Return a, s')
    | (Raise e, s') => handler e s'
    end.

Definition lift {S A} (o : outcome A) : M S A := fun s => (o, s).

(** [str(n)] for an [int]. *)
Definition str (n : Z) : string := pretty n.

(** [s[:2]]. *)
Definition slice2 (s : string) : string := String.substring 0 2 s.

Definition digit_value (c : ascii) : option Z :=
  let n := Z.of_N (N_of_ascii c) in
  if (48 <=? n) && (n <=? 57) then Some (n - 48) else None.

Fixpoint parse_digits (acc : Z) (s : string) : option Z :=
  match s with
  | EmptyString => Some acc
  | String c rest =>
      match digit_value c with
      | Some d => parse_digits (10 * acc + d) rest
      | None => None
      end
  end.

(** [int(s)] on a decimal literal with an optional sign; anything else
    is a [ValueError]. *)
Definition int (s : string) : outcome Z :=
  match s with
  | EmptyString => Raise ValueError
  | String c rest =>
      if Ascii.eqb c "-"%char then
        match rest with
        | EmptyString => Raise ValueError
        | _ => match parse_digits 0 rest with
               | Some v => Return (- v)
               | None => Raise ValueError
               end
        end
      else
        match parse_digits 0 s with
        | Some v => Return v
        | None => Raise ValueError
        end
  end.

(** [sep.join(parts)]. *)
Fixpoint join (sep : string) (parts : list string) : string :=
  match parts with
  | [] => EmptyString
  | [p] => p
  | p :: rest => p +:+ sep +:+ join sep rest
  end.

(** [s.upper()] on ASCII text. *)
Definition upper_char (c : ascii) : ascii :=
  let n := N_of_ascii c in
  if ((97 <=? n) && (n <=? 122))%N then ascii_of_N (n - 32) else c.

Fixpoint upper (s : string) : string :=
  match s with
  | EmptyString => EmptyString
  | String c rest => String (upper_char c) (upper rest)
  end.

(** [s.replace(old, new)] for a non-empty [old]: [skip] characters of a
    match just replaced are still to be dropped. *)
Fixpoint replace_from (old new : string) (skip : nat) (s : string) : string :=
  match s with
  | EmptyString => EmptyString
  | String c rest =>
      match skip with
      | S skip' => replace_from old new skip' rest
      | O =>
          if String.prefix old s
          then new +:+ replace_from old new (String.length old - 1) rest
          else String c (replace_from old new 0 rest)
      end
  end.

Definition replace (old new s : string) : string := replace_from old new 0 s.

End Py.

Declare Scope py_scope.
Delimit Scope py_scope with py.
Notation "'let*' x ':=' m 'in' k" := (Py.bind m (fun x => k))
  (at level 10, x name, m at level 100, k at level 200) : py_scope.
Notation "m ';;' k" := (Py.bind m (fun _ => k))
  (at level 100, k at level 200, right associativity) : py_scope.

(** ** controllers.py: the controller registry *)

Module Controllers.

Record ControllerInfo : Type := {
  prefix : Z;
  channels : Z;
  motor_type : string;
  description : string;
  kinesis_dll : string;
  kinesis_class : string;
  apt_hw_type : option Z;
  apt_progid : option string;
  supports_homing : bool;
  supports_position : bool;
}.

(** The items of the [CONTROLLERS] dict literal, in source order. *)
Definition CONTROLLERS_items : list (string * ControllerInfo) :=
  [ ("KDC101",
     {| prefix := 27; channels := 1; motor_type := "dc_servo";
        description := "K-Cube DC Servo Motor Driver";
        kinesis_dll := "Thorlabs.MotionControl.KCube.DCServoCLI";
        kinesis_class := "KCubeDCServo";
        apt_hw_type := Some 42; apt_progid := Some "MGMOTOR.MGMotorCtrl.1";
        supports_homing := true; supports_position := true |});
    ("KBD101",
     {| prefix := 28; channels := 1; motor_type := "brushless";
        description := "K-Cube Brushless DC Motor Driver";
        kinesis_dll := "Thorlabs.MotionControl.KCube.BrushlessMotorCLI";
        kinesis_class := "KCubeBrushlessMotor";
        apt_hw_type := None; apt_progid := None;
        supports_homing := true; supports_position := true |});
    ("TDC001",
     {| prefix := 83; channels := 1; motor_type := "dc_servo";
        description := "T-Cube DC Servo Motor Driver (Legacy)";
        kinesis_dll := "Thorlabs.MotionControl.TCube.DCServoCLI";
        kinesis_class := "TCubeDCServo";
        apt_hw_type := Some 27; apt_progid := Some "MGMOTOR.MGMotorCtrl.1";
        supports_homing := true; supports_position := true |});
    ("KIM101",
     {| prefix := 97; channels := 4; motor_type := "inertial";
        description := "K-Cube Inertial Motor Driver (4-channel)";
        kinesis_dll := "Thorlabs.MotionControl.KCube.InertialMotorCLI";
        kinesis_class := "KCubeInertialMotor";
        apt_hw_type := None; apt_progid := None;
        supports_homing := false; supports_position := false |});
    ("KPZ101",
     {| prefix := 29; channels := 1; motor_type := "piezo";
        description := "K-Cube Piezo Driver";
        kinesis_dll := "Thorlabs.MotionControl.KCube.PiezoCLI";
        kinesis_class := "KCubePiezo";
        apt_hw_type := Some 29; apt_progid := Some "APTPZMOTOR.APTPZMotorCtrl.1";
        supports_homing := false; supports_position := true |});
    ("TPZ001",
     {| prefix := 81; channels := 1; motor_type := "piezo";
        description := "T-Cube Piezo Driver (Legacy)";
        kinesis_dll := "Thorlabs.MotionControl.TCube.PiezoCLI";
        kinesis_class := "TCubePiezo";
        apt_hw_type := Some 81; apt_progid := Some "APTPZMOTOR.APTPZMotorCtrl.1";
        supports_homing := false; supports_position := true |}) ].

Definition CONTROLLERS : gmap string ControllerInfo :=
  list_to_map CONTROLLERS_items.

(** [{info["prefix"]: name for name, info in CONTROLLERS.items()}]: a later
    item overwrites an earlier one with the same prefix. *)
Definition _PREFIX_TO_CONTROLLER : gmap Z string :=
  foldl (fun m item => <[prefix item.2 := item.1]> m) ∅ CONTROLLERS_items.

(** [int(str(serial_number)[:2])]. *)
Definition serial_prefix (serial_number : Z) : Py.outcome Z :=
  Py.int (Py.slice2 (Py.str serial_number)).

(** The result is [Optional[str]]: [None] is the "unknown type" answer. *)
Definition get_controller_type (serial_number : Z) : Py.outcome (option string) :=
  Py.obind (serial_prefix serial_number)
           (fun prefix => Py.Return (_PREFIX_TO_CONTROLLER !! prefix)).

Definition get_controller_info (controller_type : string) : option ControllerInfo :=
  CONTROLLERS !! controller_type.

Definition supports_apt (controller_type : string) : bool :=
  match CONTROLLERS !! controller_type with
  | Some info => bool_decide (apt_hw_type info <> None)
  | None => false
  end.

Definition get_channel_count (controller_type : string) : Z :=
  match CONTROLLERS !! controller_type with
  | Some info => channels info
  | None => 1
  end.

(** The two leading decimal digits of a serial number, arithmetically:
    [p] is a two-digit number and [serial] lies in the decade block
    [p * 10^k .. (p+1) * 10^k - 1]. *)
Definition leading_two_digits (serial p : Z) : Prop :=
  10 <= p <= 99 /\ exists k : nat, p * 10 ^ Z.of_nat k <= serial < (p + 1) * 10 ^ Z.of_nat k.

Definition registered_prefixes : list Z := [27; 28; 83; 97; 29; 81].

End Controllers.

(** ** stages.py: the stage database *)

Module Stages.

Record StageInfo : Type := {
  compatible_controllers : list string;
  units : string;
  travel : option Q;
  step_size : option Q;
  jog_step_default : Q;
}.

Definition servo_stage (u : string) (t jog : Q) : StageInfo :=
  {| compatible_controllers := ["KDC101"; "TDC001"]; units := u;
     travel := Some t; step_size := None; jog_step_default := jog |}.

Definition brushless_stage (t : Q) : StageInfo :=
  {| compatible_controllers := ["KBD101"]; units := "mm";
     travel := Some t; step_size := None; jog_step_default := 1 |}.

Definition inertial_stage (u : string) (t : option Q) : StageInfo :=
  {| compatible_controllers := ["KIM101"]; units := u;
     travel := t; step_size := Some (2 # 100000)%Q; jog_step_default := 100 |}.

Definition piezo_stage (u : string) (t : option Q) (jog : Q) : StageInfo :=
  {| compatible_controllers := ["KPZ101"; "TPZ001"]; units := u;
     travel := t; step_size := None; jog_step_default := jog |}.

(** The items of the [STAGES] dict literal, in source order (the order in
    which [for known_stage in STAGES] visits them). *)
Definition STAGES_items : list (string * StageInfo) :=
  [ ("PRM1Z8", servo_stage "deg" 360 1);
    ("PRM1/MZ8", servo_stage "deg" 360 1);
    ("HDR50", servo_stage "deg" 360 1);
    ("K10CR1", servo_stage "deg" 360 1);
    ("DDR25", servo_stage "deg" 360 1);
    ("DDR100", servo_stage "deg" 360 1);
    ("Z825B", servo_stage "mm" 25 (1 # 10)%Q);
    ("Z812B", servo_stage "mm" 12 (1 # 10)%Q);
    ("Z612B", servo_stage "mm" 6 (5 # 100)%Q);
    ("MTS25-Z8", servo_stage "mm" 25 (1 # 10)%Q);
    ("MTS50-Z8", servo_stage "mm" 50 (1 # 10)%Q);
    ("LTS150", servo_stage "mm" 150 1);
    ("LTS300", servo_stage "mm" 300 1);
    ("PT1-Z8", servo_stage "mm" 25 (1 # 10)%Q);
    ("DDS100", brushless_stage 100);
    ("DDSM100", brushless_stage 100);
    ("DDS220", brushless_stage 220);
    ("DDS300", brushless_stage 300);
    ("DDS600", brushless_stage 600);
    ("PIA13", inertial_stage "mm" (Some 13%Q));
    ("PIA25", inertial_stage "mm" (Some 25%Q));
    ("PIA50", inertial_stage "mm" (Some 50%Q));
    ("PIAK10", inertial_stage "steps" None);
    ("PIAK25", inertial_stage "steps" None);
    ("PK4FA7P1", piezo_stage "mm" (Some (7 # 1000)%Q) (1 # 1000)%Q);
    ("PAZ005", piezo_stage "mm" (Some (5 # 1000)%Q) (5 # 10000)%Q);
    ("PAZ015", piezo_stage "mm" (Some (15 # 1000)%Q) (1 # 1000)%Q);
    ("POLARIS-K1PZ", piezo_stage "V" None 1) ].

Definition STAGES : gmap string StageInfo := list_to_map STAGES_items.

Definition STAGES_names : list string := STAGES_items.*1.

Definition get_stage_info (stage_name : string) : option StageInfo :=
  STAGES !! stage_name.

Definition get_compatible_stages (controller_type : string) : list string :=
  (filter (fun item => controller_type ∈ compatible_controllers item.2)
          STAGES_items).*1.

End Stages.

(** ** The [json] module and Python containers

    Documents of the configuration store are JSON values.  A Python [dict]
    is an association list with unique keys in insertion order.  The codec
    covers the values the store handles: [null], booleans, integers,
    strings, arrays and objects. *)

Module Json.

#[local] Set Warnings "-register-all".

Inductive t : Type :=
| Null
| Bool (b : bool)
| Int (n : Z)
| Str (s : string)
| List (l : list t)
| Dict (kvs : list (string * t)).

(** *** Container operations *)

Fixpoint assoc_get (kvs : list (string * t)) (k : string) : option t :=
  match kvs with
  | [] => None
  | (k', v) :: rest => if String.eqb k' k then Some v else assoc_get rest k
  end.

(** [d[k] = v]: overwrite in place, or append a new key. *)
Fixpoint assoc_set (kvs : list (string * t)) (k : string) (v : t) : list (string * t) :=
  match kvs with
  | [] => [(k, v)]
  | (k', v') :: rest =>
      if String.eqb k' k then (k', v) :: rest else (k', v') :: assoc_set rest k v
  end.

(** Truth value of a JSON-decoded Python object. *)
Definition truthy (j : t) : bool :=
  match j with
  | Null => false
  | Bool b => b
  | Int n => negb (n =? 0)
  | Str s => negb (String.eqb s EmptyString)
  | List l => match l with [] => false | _ => true end
  | Dict kvs => match kvs with [] => false | _ => true end
  end.

(** [small in big] on [str]. *)
Fixpoint contains (big small : string) : bool :=
  String.prefix small big ||
  match big with
  | EmptyString => false
  | String _ rest => contains rest small
  end.

Definition eqb_str (j : t) (k : string) : bool :=
  match j with
  | Str s => String.eqb s k
  | _ => false
  end.

(** [j.get(k, default)]. *)
Definition get (j : t) (k : string) (dflt : t) : Py.outcome t :=
  match j with
  | Dict kvs => Py.Return (default dflt (assoc_get kvs k))
  | _ => Py.Raise Py.AttributeError
  end.

(** [j[k]] with a string key. *)
Definition getitem (j : t) (k : string) : Py.outcome t :=
  match j with
  | Dict kvs =>
      match assoc_get kvs k with
      | Some v => Py.Return v
      | None => Py.Raise Py.KeyError
      end
  | _ => Py.Raise Py.TypeError
  end.

(** [k in j] with a string [k]. *)
Definition contains_key (k : string) (j : t) : Py.outcome bool :=
  match j with
  | Dict kvs => Py.Return (bool_decide (is_Some (assoc_get kvs k)))
  | List l => Py.Return (existsb (fun x => eqb_str x k) l)
  | Str s => Py.Return (contains s k)
  | _ => Py.Raise Py.TypeError
  end.

(** [j[k] = v] with a string key. *)
Definition setitem (j : t) (k : string) (v : t) : Py.outcome t :=
  match j with
  | Dict kvs => Py.Return (Dict (assoc_set kvs k v))
  | _ => Py.Raise Py.TypeError
  end.

(** *** [json.dump(obj, f, indent=4)] *)

Definition dquote : ascii := "034"%char.
Definition backslash : ascii := "092"%char.
Definition newline : ascii := "010"%char.

(** String bodies: only the quote and the backslash are escaped. *)
Fixpoint escape (s : string) : string :=
  match s with
  | EmptyString => EmptyString
  | String c rest =>
      if Ascii.eqb c dquote || Ascii.eqb c backslash
      then String backslash (String c (escape rest))
      else String c (escape rest)
  end.

Definition quote (s : string) : string :=
  String dquote (escape s +:+ String dquote EmptyString).

Fixpoint spaces (n : nat) : string :=
  match n with
  | O => EmptyString
  | S n' => String " "%char (spaces n')
  end.

Definition break (level : nat) : string := String newline (spaces (4 * level)).

Fixpoint dump (level : nat) (j : t) : string :=
  match j with
  | Null => "null"
  | Bool true => "true"
  | Bool false => "false"
  | Int n => pretty n
  | Str s => quote s
  | List [] => "[]"
  | List l =>
      "[" +:+ break (S level)
          +:+ Py.join ("," +:+ break (S level)) (map (dump (S level)) l)
          +:+ break level +:+ "]"
  | Dict [] => "{}"
  | Dict kvs =>
      "{" +:+ break (S level)
          +:+ Py.join ("," +:+ break (S level))
                (map (fun kv => quote kv.1 +:+ ": " +:+ dump (S level) kv.2) kvs)
          +:+ break level +:+ "}"
  end.

Definition dumps (j : t) : string := dump 0 j.

(** *** [json.load(f)] *)

Definition is_ws (c : ascii) : bool :=
  Ascii.eqb c " "%char || Ascii.eqb c newline
  || Ascii.eqb c "009"%char || Ascii.eqb c "013"%char.

Fixpoint skip_ws (s : string) : string :=
  match s with
  | String c rest => if is_ws c then skip_ws rest else s
  | EmptyString => s
  end.

(** The body of a string literal, after the opening quote: the decoded
    text and the input after the closing quote. *)
Fixpoint parse_string_body (s : string) : option (string * string) :=
  match s with
  | EmptyString => None
  | String c rest =>
      if Ascii.eqb c dquote then Some (EmptyString, rest)
      else if Ascii.eqb c backslash then
        match rest with
        | String e rest' =>
            if Ascii.eqb e dquote || Ascii.eqb e backslash then
              match parse_string_body rest' with
              | Some (body, r) => Some (String e body, r)
              | None => None
              end
            else None
        | EmptyString => None
        end
      else
        match parse_string_body rest with
        | Some (body, r) => Some (String c body, r)
        | None => None
        end
  end.

Fixpoint span_digits (s : string) : string * string :=
  match s with
  | String c rest =>
      match Py.digit_value c with
      | Some _ => let '(ds, r) := span_digits rest in (String c ds, r)
      | None => (EmptyString, s)
      end
  | EmptyString => (EmptyString, s)
  end.

Definition parse_int (s : string) : option (t * string) :=
  let '(neg, body) :=
    match s with
    | String c rest => if Ascii.eqb c "-"%char then (true, rest) else (false, s)
    | EmptyString => (false, s)
    end in
  let '(ds, r) := span_digits body in
  match ds with
  | EmptyString => None
  | _ => match Py.parse_digits 0 ds with
         | Some v => Some (Int (if neg : bool then - v else v), r)
         | None => None
         end
  end.

Definition literal (word : string) (v : t) (s : string) : option (t * string) :=
  if String.prefix word s
  then Some (v, String.substring (String.length word) (String.length s - String.length word) s)
  else None.

Fixpoint parse_value (fuel : nat) (s : string) : option (t * string) :=
  match fuel with
  | O => None
  | S fuel' =>
      match skip_ws s with
      | EmptyString => None
      | String c rest =>
          if Ascii.eqb c dquote then
            match parse_string_body rest with
            | Some (body, r) => Some (Str body, r)
            | None => None
            end
          else if Ascii.eqb c "["%char then
            match skip_ws rest with
            | String c' r =>
                if Ascii.eqb c' "]"%char then Some (List [], r)
                else match parse_elements fuel' rest with
                     | Some (l, r') => Some (List l, r')
                     | None => None
                     end
            | EmptyString => None
            end
          else if Ascii.eqb c "{"%char then
            match skip_ws rest with
            | String c' r =>
                if Ascii.eqb c' "}"%char then Some (Dict [], r)
                else match parse_members fuel' rest with
                     | Some (kvs, r') => Some (Dict kvs, r')
                     | None => None
                     end
            | EmptyString => None
            end
          else if Ascii.eqb c "n"%char then literal "null" Null (String c rest)
          else if Ascii.eqb c "t"%char then literal "true" (Bool true) (String c rest)
          else if Ascii.eqb c "f"%char then literal "false" (Bool false) (String c rest)
          else parse_int (String c rest)
      end
  end
with parse_elements (fuel : nat) (s : string) : option (list t * string) :=
  match fuel with
  | O => None
  | S fuel' =>
      match parse_value fuel' s with
      | Some (v, r) =>
          match skip_ws r with
          | String c r' =>
              if Ascii.eqb c ","%char then
                match parse_elements fuel' r' with
                | Some (l, r'') => Some (v :: l, r'')
                | None => None
                end
              else if Ascii.eqb c "]"%char then Some ([v], r')
              else None
          | EmptyString => None
          end
      | None => None
      end
  end
with parse_members (fuel : nat) (s : string) : option (list (string * t) * string) :=
  match fuel with
  | O => None
  | S fuel' =>
      match skip_ws s with
      | String q r0 =>
          if Ascii.eqb q dquote then
            match parse_string_body r0 with
            | Some (k, r1) =>
                match skip_ws r1 with
                | String c r2 =>
                    if Ascii.eqb c ":"%char then
                      match parse_value fuel' r2 with
                      | Some (v, r3) =>
                          match skip_ws r3 with
                          | String c' r4 =>
                              if Ascii.eqb c' ","%char then
                                match parse_members fuel' r4 with
                                | Some (kvs, r5) => Some ((k, v) :: kvs, r5)
                                | None => None
                                end
                              else if Ascii.eqb c' "}"%char then Some ([(k, v)], r4)
                              else None
                          | EmptyString => None
                          end
                      | None => None
                      end
                    else None
                | EmptyString => None
                end
            | None => None
            end
          else None
      | EmptyString => None
      end
  end.

(** A decoded object keeps the last value of a repeated key. *)
Fixpoint normalize (j : t) : t :=
  match j with
  | List l => List (map normalize l)
  | Dict kvs =>
      Dict (fold_left (fun acc kv => assoc_set acc kv.1 (normalize kv.2)) kvs [])
  | _ => j
  end.

(** [None] is [json.JSONDecodeError]. *)
Definition loads (s : string) : option t :=
  match parse_value (2 * String.length s + 2) s with
  | Some (v, r) =>
      match skip_ws r with
      | EmptyString => Some (normalize v)
      | _ => None
      end
  | None => None
  end.

End Json.

(** ** device_manager.py: configuration store, validation, factory *)

Module DeviceManager.
Import Controllers Stages.

(** What can go wrong while [save_device_config] writes: creating the
    directory or opening the file fails, or the medium accepts only the
    first [k] characters of the document. *)
Inductive write_fault : Type :=
| WriteOk
| MkdirFails
| OpenFails
| DiskFullAfter (k : nat).

(** The environment of the process: the results of the two backend
    probes and the behaviour of the file system. *)
Record Env : Type := {
  kinesis_available : bool;
  apt_available : bool;
  read_fails : bool;
  write : write_fault;
}.

(** The content of [devices.json]; [None] when the file does not exist. *)
Definition File : Type := option string.

Definition default_config : Json.t :=
  Json.Dict [("_version", Json.Str "1.0"); ("controllers", Json.Dict [])].

Definition get_available_backend (env : Env) : Py.outcome string :=
  if kinesis_available env then Py.Return "kinesis"
  else if apt_available env then Py.Return "apt"
  else Py.Raise Py.RuntimeError.

Definition load_device_config (env : Env) (f : File) : Json.t :=
  match f with
  | None => default_config
  | Some text =>
      if read_fails env then default_config
      else match Json.loads text with
           | Some j => j
           | None => default_config
           end
  end.

(** [open(DEVICES_JSON, "w")] truncates the file; [json.dump] then writes
    into it; an [IOError] on the way is caught and reported by [False]. *)
Definition save_device_config (env : Env) (config : Json.t) (f : File) : bool * File :=
  match write env with
  | MkdirFails => (false, f)
  | OpenFails => (false, f)
  | DiskFullAfter k =>
      let text := Json.dumps config in
      if (String.length text <=? k)%nat then (true, Some text)
      else (false, Some (String.substring 0 k text))
  | WriteOk => (true, Some (Json.dumps config))
  end.

(** The result is [Optional[Dict]]: Python [None] is [Json.Null]. *)
Definition get_device_channel_config (env : Env) (f : File)
    (serial_number channel : Z) : Py.outcome Json.t :=
  let config := load_device_config env f in
  Py.obind (Json.get config "controllers" (Json.Dict [])) (fun controllers =>
  Py.obind (Json.get controllers (Py.str serial_number) (Json.Dict [])) (fun device_config =>
  Py.obind (Json.get device_config "channels" (Json.Dict [])) (fun channels =>
  Json.get channels (Py.str channel) Json.Null))).

Definition set_device_channel_config (env : Env) (f : File)
    (serial_number channel : Z) (stage role linked_group : Json.t)
  : Py.outcome (bool * File) :=
  let config := load_device_config env f in
  let serial_str := Py.str serial_number in
  Py.obind (Json.get config "controllers" (Json.Dict [])) (fun controllers0 =>
  Py.obind (Json.contains_key serial_str controllers0) (fun present =>
  Py.obind
    (if present then Py.Return config
     else
       (* config.setdefault("controllers", {})[serial_str] = {"channels": {}} *)
       Py.obind (Json.setitem controllers0 serial_str
                   (Json.Dict [("channels", Json.Dict [])])) (fun controllers1 =>
       Json.setitem config "controllers" controllers1)) (fun config1 =>
  Py.obind (Json.getitem config1 "controllers") (fun controllers =>
  Py.obind (Json.getitem controllers serial_str) (fun device_config =>
  Py.obind (Json.getitem device_config "channels") (fun channels =>
  Py.obind (Json.setitem channels (Py.str channel)
              (Json.Dict [("stage", stage); ("role", role);
                          ("linked_group", linked_group)])) (fun channels' =>
  Py.obind (Json.setitem device_config "channels" channels') (fun device_config' =>
  Py.obind (Json.setitem controllers serial_str device_config') (fun controllers' =>
  Py.obind (Json.setitem config1 "controllers" controllers') (fun config' =>
  Py.Return (save_device_config env config' f))))))))))).

Definition validate_stage_compatibility (stage_name controller_type : string)
  : bool * string :=
  match get_stage_info stage_name with
  | None => (false, "Unknown stage: " +:+ stage_name)
  | Some stage_info =>
      let compatible := compatible_controllers stage_info in
      if bool_decide (controller_type ∈ compatible)
      then (true, stage_name +:+ " is compatible with " +:+ controller_type)
      else
        let compatible_str := Py.join " or " compatible in
        (false, stage_name +:+ " requires " +:+ compatible_str
                  +:+ ", but controller is " +:+ controller_type)
  end.

(** The objects the factory can return, with the stage configuration
    bound by [configure_stage]. *)
Inductive controller_class : Type :=
| KDC101Controller
| KBD101Controller
| TDC001Controller
| KIM101Controller
| KPZ101Controller
| APTMotorAdapter (hw_type : option Z)
| APTPiezoAdapter.

Record Controller : Type := {
  cls : controller_class;
  ctl_serial_number : Z;
  ctl_channel : Z;
  ctl_stage_config : option StageInfo;
}.

Definition new_controller (c : controller_class) (serial_number channel : Z) : Controller :=
  {| cls := c; ctl_serial_number := serial_number; ctl_channel := channel;
     ctl_stage_config := None |}.

Definition configure_stage (stage_config : StageInfo) (c : Controller) : Controller :=
  {| cls := cls c; ctl_serial_number := ctl_serial_number c;
     ctl_channel := ctl_channel c; ctl_stage_config := Some stage_config |}.

Definition _create_kinesis_controller (serial_number channel : Z)
    (controller_type : string) (info : option ControllerInfo) : Py.outcome Controller :=
  if String.eqb controller_type "KDC101" then
    Py.Return (new_controller KDC101Controller serial_number channel)
  else if String.eqb controller_type "KBD101" then
    Py.Return (new_controller KBD101Controller serial_number channel)
  else if String.eqb controller_type "TDC001" then
    Py.Return (new_controller TDC001Controller serial_number channel)
  else if String.eqb controller_type "KIM101" then
    (* KIM101Controller.__init__ validates the channel *)
    if bool_decide (channel ∈ [1; 2; 3; 4])
    then Py.Return (new_controller KIM101Controller serial_number channel)
    else Py.Raise Py.ValueError
  else if String.eqb controller_type "KPZ101" || String.eqb controller_type "TPZ001" then
    Py.Return (new_controller KPZ101Controller serial_number channel)
  else Py.Raise Py.ConfigurationError.

Definition _create_apt_controller (serial_number channel : Z)
    (controller_type : string) (info : option ControllerInfo) : Py.outcome Controller :=
  if negb (supports_apt controller_type) then Py.Raise Py.ConfigurationError
  else
    match info with
    | None => Py.Raise Py.TypeError
    | Some info =>
        let motor_type := motor_type info in
        if String.eqb motor_type "dc_servo" || String.eqb motor_type "brushless" then
          Py.Return (new_controller (APTMotorAdapter (apt_hw_type info))
                                    serial_number channel)
        else if String.eqb motor_type "piezo" then
          Py.Return (new_controller APTPiezoAdapter serial_number channel)
        else Py.Raise Py.ConfigurationError
    end.

(** [STAGES.get(key)] with a key read from the configuration. *)
Definition get_stage_info_of (key : Json.t) : Py.outcome (option StageInfo) :=
  match key with
  | Json.Str s => Py.Return (get_stage_info s)
  | Json.List _ | Json.Dict _ => Py.Raise Py.TypeError
  | _ => Py.Return None
  end.

(** What the factory prints after validating the configured stage; a
    key that is not a string (and is hashable) names no stage. *)
Definition stage_warning (key : Json.t) (controller_type : string) : list string :=
  match key with
  | Json.Str s =>
      let '(is_valid, msg) := validate_stage_compatibility s controller_type in
      if is_valid then [] else ["Warning: " +:+ msg]
  | Json.Int n => ["Warning: Unknown stage: " +:+ Py.str n]
  | Json.Bool b => ["Warning: Unknown stage: " +:+ (if b then "True" else "False")]
  | _ => ["Warning: Unknown stage: "]
  end.

(** The factory; the second component of the result is what it printed. *)
Definition create_controller (env : Env) (f : File)
    (serial_number channel : Z) (backend : option string)
  : Py.outcome (Controller * list string) :=
  Py.obind (get_controller_type serial_number) (fun controller_type =>
  match controller_type with
  | None => Py.Raise Py.ConfigurationError
  | Some controller_type =>
      let info := get_controller_info controller_type in
      Py.obind (match backend with
                | None => get_available_backend env
                | Some b => Py.Return b
                end) (fun backend =>
      Py.obind (get_device_channel_config env f serial_number channel) (fun channel_config =>
      Py.obind
        (if Json.truthy channel_config then
           Py.obind (Json.get channel_config "stage" Json.Null) (fun stage =>
           if Json.truthy stage then
             Py.obind (get_stage_info_of stage) (fun stage_config =>
             Py.Return (stage_config, stage_warning stage controller_type))
           else Py.Return (None, []))
         else Py.Return (None, [])) (fun '(stage_config, warnings) =>
      Py.obind
        (if String.eqb backend "kinesis"
         then _create_kinesis_controller serial_number channel controller_type info
         else _create_apt_controller serial_number channel controller_type info)
        (fun controller =>
      Py.Return (match stage_config with
                 | Some sc => configure_stage sc controller
                 | None => controller
                 end, warnings)))))
  end).

End DeviceManager.

(** ** base.py: controller states and the abstract controllers *)

Module Base.
Import Stages.

Inductive ControllerState : Type :=
| DISCONNECTED
| CONNECTING
| CONNECTED
| HOMING
| MOVING
| ERROR.

(** An observer registered with [set_callbacks]: called inline with the
    new state, it either returns ([None]) or raises. *)
Definition Observer : Type := ControllerState -> option Py.exc.

(** The attributes of a motor controller object.  [D] is the state of the
    backend device behind the handle ([_device] in the Kinesis classes,
    [_motor] in the APT adapter).  [notified] is a ghost field: the
    states handed to the observer so far, latest first. *)
Record Session (D : Type) : Type := {
  serial_number : Z;
  channel : Z;
  state : ControllerState;
  _stage_config : option StageInfo;
  _on_state_change : option Observer;
  notified : list ControllerState;
  _device : option D;
  _step_count : Z;
}.
Arguments serial_number {D} _.
Arguments channel {D} _.
Arguments state {D} _.
Arguments _stage_config {D} _.
Arguments _on_state_change {D} _.
Arguments notified {D} _.
Arguments _device {D} _.
Arguments _step_count {D} _.

Section Attributes.
Context {D : Type}.

(** [MotorController.__init__] (and [InertialController.__init__]). *)
Definition init (serial channel : Z) : Session D :=
  {| serial_number := serial; channel := channel; state := DISCONNECTED;
     _stage_config := None; _on_state_change := None; notified := [];
     _device := None; _step_count := 0 |}.

Definition with_state (st : ControllerState) (s : Session D) : Session D :=
  {| serial_number := serial_number s; channel := channel s; state := st;
     _stage_config := _stage_config s; _on_state_change := _on_state_change s;
     notified := notified s; _device := _device s; _step_count := _step_count s |}.

Definition with_notified (st : ControllerState) (s : Session D) : Session D :=
  {| serial_number := serial_number s; channel := channel s; state := state s;
     _stage_config := _stage_config s; _on_state_change := _on_state_change s;
     notified := st :: notified s; _device := _device s;
     _step_count := _step_count s |}.

Definition with_device (d : option D) (s : Session D) : Session D :=
  {| serial_number := serial_number s; channel := channel s; state := state s;
     _stage_config := _stage_config s; _on_state_change := _on_state_change s;
     notified := notified s; _device := d; _step_count := _step_count s |}.

Definition with_step_count (n : Z) (s : Session D) : Session D :=
  {| serial_number := serial_number s; channel := channel s; state := state s;
     _stage_config := _stage_config s; _on_state_change := _on_state_change s;
     notified := notified s; _device := _device s; _step_count := n |}.

Definition configure_stage (stage_config : StageInfo) (s : Session D) : Session D :=
  {| serial_number := serial_number s; channel := channel s; state := state s;
     _stage_config := Some stage_config; _on_state_change := _on_state_change s;
     notified := notified s; _device := _device s; _step_count := _step_count s |}.

Definition set_callbacks (on_state_change : option Observer) (s : Session D)
  : Session D :=
  {| serial_number := serial_number s; channel := channel s; state := state s;
     _stage_config := _stage_config s; _on_state_change := on_state_change;
     notified := notified s; _device := _device s; _step_count := _step_count s |}.

(** [self.state = new_state], then the observer, if any. *)
Definition _set_state (new_state : ControllerState) : Py.M (Session D) unit :=
  fun s =>
    let s' := with_state new_state s in
    match _on_state_change s' with
    | Some observer =>
        (match observer new_state with
         | None => Py.Return tt
         | Some e => Py.Raise e
         end, with_notified new_state s')
    | None => (Py.Return tt, s')
    end.

(** A call on the backend object behind the handle. *)
Definition call {A} (op : Py.M D A) : Py.M (Session D) A :=
  fun s =>
    match _device s with
    | Some d => let '(r, d') := op d in (r, with_device (Some d') s)
    | None => (Py.Raise Py.AttributeError, s)
    end.

Definition has_device : Py.M (Session D) bool :=
  Py.gets (fun s => bool_decide (is_Some (_device s))).

End Attributes.

(** [MotorController.is_connected]. *)
Definition MotorController_is_connected (st : ControllerState) : bool :=
  match st with
  | CONNECTED | HOMING | MOVING => true
  | _ => false
  end.

(** [MotorController.is_moving]. *)
Definition MotorController_is_moving (st : ControllerState) : bool :=
  match st with
  | MOVING => true
  | _ => false
  end.

(** [PiezoController.is_connected]: [self.state != DISCONNECTED]. *)
Definition PiezoController_is_connected (st : ControllerState) : bool :=
  match st with
  | DISCONNECTED => false
  | _ => true
  end.

(** *** Calls with positional arguments

    A bound method called with a list of positional arguments; binding
    fails with [TypeError] when their number does not fit the [def]. *)
Definition method (S A : Type) : Type := list Z -> Py.M S A.

(** [def m(self, a)]. *)
Definition def1 {S A} (body : Z -> Py.M S A) : method S A :=
  fun args =>
    match args with
    | [a] => body a
    | _ => Py.raise Py.TypeError
    end.

(** [def m(self, a, b=dflt)]. *)
Definition def2 {S A} (dflt : Z) (body : Z -> Z -> Py.M S A) : method S A :=
  fun args =>
    match args with
    | [a] => body a dflt
    | [a; b] => body a b
    | _ => Py.raise Py.TypeError
    end.

(** [int(x)] on a float: truncation toward zero. *)
Definition int_of_float (x : Q) : Z :=
  if Qle_bool 0 x then Qfloor x else Qceiling x.

Definition default_step_size : Q := (2 # 100000)%Q.

Section InertialController.
Context {D : Type}.

(** The abstract method [jog(self, direction, steps=1)], as the
    subclass at hand defines it. *)
Variable jog : method (Session D) bool.

(** [InertialController.home]. *)
Definition InertialController_home (wait : bool) (timeout : nat)
  : Py.M (Session D) bool :=
  Py.ret false.

(** [InertialController.get_position]. *)
Definition InertialController_get_position : Py.M (Session D) Q :=
  Py.gets (fun s =>
    match _stage_config s with
    | Some cfg =>
        (inject_Z (_step_count s) * default default_step_size (step_size cfg))%Q
    | None => inject_Z (_step_count s)
    end).

Definition step_size_of (s : Session D) : Q :=
  match _stage_config s with
  | Some cfg => default default_step_size (step_size cfg)
  | None => default_step_size
  end.

(** [InertialController.move_relative]. *)
Definition InertialController_move_relative (distance : Q) (wait : bool)
    (timeout : nat) : Py.M (Session D) bool :=
  (let* step_size := Py.gets step_size_of in
   if Qeq_bool step_size 0 then Py.raise Py.ZeroDivisionError
   else
     let steps := int_of_float (Qabs distance / step_size) in
     let direction := if Qlt_le_dec 0 distance then 1 else -1 in
     jog [direction; steps])%py.

(** [InertialController.move_absolute]. *)
Definition InertialController_move_absolute (position : Q) (wait : bool)
    (timeout : nat) : Py.M (Session D) bool :=
  (let* current := InertialController_get_position in
   let distance := (position - current)%Q in
   InertialController_move_relative distance wait timeout)%py.

End InertialController.

End Base.

(** ** kinesis/kdc101.py *)

Module KDC101.
Import Base.

Inductive MotorDirection : Type := Forward | Backward.

(** The part of the vendor class [KCubeDCServo] the controller uses.
    [sleep] is the device one polling period later. *)
Class KCubeDCServo (D : Type) : Type := {
  StopPolling : Py.M D unit;
  Disconnect : Py.M D unit;
  MoveRelative : MotorDirection -> Q -> Z -> Py.M D unit;
  Stop : Z -> Py.M D unit;
  Status_IsMoving : Py.M D bool;
  Position : Py.M D Q;
  sleep : D -> D;
}.

Section Controller.
Context {D : Type} `{KCubeDCServo D}.

(** [time.sleep(0.1)]. *)
Definition time_sleep : Py.M (Session D) unit :=
  Py.modify (fun s => with_device (sleep <$> _device s) s).

(** [while self._device.Status.IsMoving:] with the timeout check; at
    most [remaining] more sleeps fit before the deadline. *)
Fixpoint wait_while_moving (remaining : nat) : Py.M (Session D) unit :=
  (let* moving := call Status_IsMoving in
   if moving : bool then
     match remaining with
     | O => Py.raise Py.MovementError
     | S remaining' => (time_sleep ;; wait_while_moving remaining')
     end
   else Py.ret tt)%py.

Definition disconnect : Py.M (Session D) unit :=
  (let* present := has_device in
   (if present : bool then
      (Py.try_except (call StopPolling ;; call Disconnect)
                     (fun _ => Py.ret tt) ;;
       Py.modify (with_device None))
    else Py.ret tt) ;;
   _set_state DISCONNECTED)%py.

Definition move_relative (distance : Q) (wait : bool) (timeout : nat)
  : Py.M (Session D) bool :=
  (let* present := has_device in
   if negb present then Py.ret false
   else
     Py.try_except
       (_set_state MOVING ;;
        let direction := if Qlt_le_dec 0 distance then Forward else Backward in
        call (MoveRelative direction (Qabs distance)
                (if wait then 100 * Z.of_nat timeout else 0)) ;;
        (if wait then wait_while_moving (S timeout) else Py.ret tt) ;;
        _set_state CONNECTED ;;
        Py.ret true)
       (fun _ => (_set_state ERROR ;; Py.raise Py.MovementError)))%py.

Definition stop : Py.M (Session D) unit :=
  (let* present := has_device in
   if present : bool then (call (Stop 0) ;; _set_state CONNECTED)
   else Py.ret tt)%py.

Definition get_position : Py.M (Session D) Q :=
  (let* present := has_device in
   if present : bool then call Position else Py.ret 0%Q)%py.

End Controller.

End KDC101.

(** ** kinesis/kim101.py *)

Module KIM101.
Import Base.

Inductive InertialMotorJogDirection : Type := Increase | Decrease.

(** The part of the vendor class [KCubeInertialMotor] the controller
    uses; channels are passed by number. *)
Class KCubeInertialMotor (D : Type) : Type := {
  StopPolling : Py.M D unit;
  Disconnect : Py.M D unit;
  Jog : Z -> InertialMotorJogDirection -> Py.M D unit;
  Stop : Z -> Py.M D unit;
  sleep : D -> D;
}.

Section Controller.
Context {D : Type} `{KCubeInertialMotor D}.

(** [KIM101Controller.__init__]. *)
Definition init (serial channel : Z) : Py.outcome (Session D) :=
  if bool_decide (channel ∈ [1; 2; 3; 4])
  then Py.Return (Base.init serial channel)
  else Py.Raise Py.ValueError.

(** [channel_map[self.channel]]. *)
Definition _get_channel_enum : Py.M (Session D) Z :=
  fun s =>
    if bool_decide (channel s ∈ [1; 2; 3; 4])
    then (Py.Return (channel s), s)
    else (Py.Raise Py.KeyError, s).

Definition time_sleep : Py.M (Session D) unit :=
  Py.modify (fun s => with_device (sleep <$> _device s) s).

Definition disconnect : Py.M (Session D) unit :=
  (let* present := has_device in
   (if present : bool then
      (Py.try_except (call StopPolling ;; call Disconnect)
                     (fun _ => Py.ret tt) ;;
       Py.modify (with_device None))
    else Py.ret tt) ;;
   _set_state DISCONNECTED)%py.

Definition stop : Py.M (Session D) unit :=
  (let* present := has_device in
   if present : bool then
     (Py.try_except
        (let* channel_enum := _get_channel_enum in call (Stop channel_enum))
        (fun _ => Py.ret tt) ;;
      _set_state CONNECTED)
   else Py.ret tt)%py.

(** [def jog(self, direction)]: one jog of the configured size. *)
Definition jog (direction : Z) : Py.M (Session D) bool :=
  (let* present := has_device in
   if negb present then Py.ret false
   else
     Py.try_except
       (let* channel_enum := _get_channel_enum in
        let jog_dir := if 0 <? direction then Increase else Decrease in
        call (Jog channel_enum jog_dir) ;;
        Py.ret true)
       (fun _ => Py.ret false))%py.

Definition jog_continuous (direction : Z) : Py.M (Session D) bool :=
  (let* present := has_device in
   if negb present then Py.ret false
   else
     Py.try_except
       (let* channel_enum := _get_channel_enum in
        let jog_dir := if 0 <? direction then Increase else Decrease in
        call (Jog channel_enum jog_dir) ;;
        Py.ret true)
       (fun _ => Py.ret false))%py.

(** [while time.time() - start < timeout: time.sleep(0.1)]. *)
Fixpoint sleep_until (timeout : nat) : Py.M (Session D) unit :=
  match timeout with
  | O => Py.ret tt
  | S timeout' => (time_sleep ;; sleep_until timeout')%py
  end.

Definition move_to_limit (direction : Z) (timeout : nat) : Py.M (Session D) bool :=
  (let* present := has_device in
   if negb present then Py.ret false
   else
     Py.try_except
       (_set_state MOVING ;;
        jog_continuous direction ;;
        sleep_until timeout ;;
        stop ;;
        _set_state CONNECTED ;;
        Py.modify (with_step_count 0) ;;
        Py.ret true)
       (fun _ => (stop ;; _set_state ERROR ;; Py.raise Py.MovementError)))%py.

(** Inherited from [InertialController]; [self.jog] is the override
    above, which takes one positional argument. *)
Definition home : bool -> nat -> Py.M (Session D) bool :=
  InertialController_home.

Definition get_position : Py.M (Session D) Q :=
  InertialController_get_position.

Definition move_relative : Q -> bool -> nat -> Py.M (Session D) bool :=
  InertialController_move_relative (def1 jog).

Definition move_absolute : Q -> bool -> nat -> Py.M (Session D) bool :=
  InertialController_move_absolute (def1 jog).

End Controller.

End KIM101.

(** ** apt/motor.py *)

Module APT.
Import Base.

(** The part of the wrapper class [APTMotor] the adapter uses. *)
Class APTMotor (D : Type) : Type := {
  stop_ctrl : Py.M D unit;
  motor_move_relative : Q -> bool -> nat -> Py.M D unit;
  motor_get_position : Py.M D Q;
}.

Section Adapter.
Context {D : Type} `{APTMotor D}.

Definition disconnect : Py.M (Session D) unit :=
  (let* present := has_device in
   (if present : bool then
      (Py.try_except (call stop_ctrl) (fun _ => Py.ret tt) ;;
       Py.modify (with_device None))
    else Py.ret tt) ;;
   _set_state DISCONNECTED)%py.

Definition move_relative (distance : Q) (wait : bool) (timeout : nat)
  : Py.M (Session D) bool :=
  (let* present := has_device in
   if negb present then Py.ret false
   else
     Py.try_except
       (_set_state MOVING ;;
        call (motor_move_relative distance wait timeout) ;;
        _set_state CONNECTED ;;
        Py.ret true)
       (fun _ => (_set_state ERROR ;; Py.raise Py.MovementError)))%py.

Definition get_position : Py.M (Session D) Q :=
  (let* present := has_device in
   if present : bool then call motor_get_position else Py.ret 0%Q)%py.

End Adapter.

End APT.

(** ** gui.py: stage auto-detection *)

Module Gui.
Import Stages DeviceManager.

(** What the Kinesis device object of a connected controller answers to
    the three queries of the detection; an empty string stands for a
    missing or empty attribute, [Raise] for a query that throws. *)
Record KinesisDevice : Type := {
  GetDeviceInfo : Py.outcome bool;
  DeviceSettingsName : Py.outcome string;
  Notes : Py.outcome string;
  Name : Py.outcome string;
}.

Record ControllerRef : Type := {
  has_device_attr : bool;
  _device : option KinesisDevice;
  channel : Z;
}.

(** [DeviceInfo]; [config] is [Optional[Dict]] with [Json.Null] for [None]. *)
Record DeviceInfo : Type := {
  serial : Z;
  config : Json.t;
  controller : option ControllerRef;
}.

Definition or_empty (o : Py.outcome string) : string :=
  match o with
  | Py.Return s => s
  | Py.Raise _ => EmptyString
  end.

Definition nonempty (s : string) : bool := negb (String.eqb s EmptyString).

(** Methods 1 to 3, each tried only while the name is still empty. *)
Definition settings_name_of (kd : KinesisDevice) : string :=
  let m1 := or_empty (DeviceSettingsName kd) in
  if nonempty m1 then m1
  else
    let m2 := or_empty (Notes kd) in
    if nonempty m2 then m2 else or_empty (Name kd).

(** Exact match first, then the first stage of [STAGES] that contains, or
    is contained in, the reported name. *)
Definition match_stage (settings_name : string) : option string :=
  if bool_decide (is_Some (STAGES !! settings_name)) then Some settings_name
  else
    let settings_upper :=
      Py.replace "-M" EmptyString
        (Py.replace "/M" EmptyString (Py.upper settings_name)) in
    find (fun known_stage =>
            Json.contains settings_upper (Py.upper known_stage)
            || Json.contains (Py.upper known_stage) settings_upper)
         STAGES_names.

(** The state the detection works on: [device.config] and the file. *)
Definition World : Type := (Json.t * File)%type.

Definition get_config : Py.M World Json.t := Py.gets fst.
Definition set_config (cfg : Json.t) : Py.M World unit :=
  Py.modify (fun w => (cfg, w.2)).

(** [if not device.config: device.config = {"channels": {}}]. *)
Definition ensure_config : Py.M World unit :=
  (let* cfg := get_config in
   if Json.truthy cfg then Py.ret tt
   else set_config (Json.Dict [("channels", Json.Dict [])]))%py.

(** [if "channels" not in device.config: device.config["channels"] = {}]. *)
Definition ensure_channels : Py.M World unit :=
  (let* cfg := get_config in
   let* present := Py.lift (Json.contains_key "channels" cfg) in
   if present : bool then Py.ret tt
   else
     let* cfg' := Py.lift (Json.setitem cfg "channels" (Json.Dict [])) in
     set_config cfg')%py.

(** [if channel_key not in device.config["channels"]: ... = {}]. *)
Definition ensure_entry (channel_key : string) : Py.M World unit :=
  (let* cfg := get_config in
   let* chans := Py.lift (Json.getitem cfg "channels") in
   let* present := Py.lift (Json.contains_key channel_key chans) in
   if present : bool then Py.ret tt
   else
     let* chans' := Py.lift (Json.setitem chans channel_key (Json.Dict [])) in
     let* cfg' := Py.lift (Json.setitem cfg "channels" chans') in
     set_config cfg')%py.

(** [device.config["channels"][channel_key].get("stage", default)] with
    the empty string as default. *)
Definition current_stage (channel_key : string) : Py.M World Json.t :=
  (let* cfg := get_config in
   let* chans := Py.lift (Json.getitem cfg "channels") in
   let* entry := Py.lift (Json.getitem chans channel_key) in
   Py.lift (Json.get entry "stage" (Json.Str EmptyString)))%py.

(** [device.config["channels"][channel_key]["stage"] = stage_name]. *)
Definition assign_stage (channel_key stage_name : string) : Py.M World unit :=
  (let* cfg := get_config in
   let* chans := Py.lift (Json.getitem cfg "channels") in
   let* entry := Py.lift (Json.getitem chans channel_key) in
   let* entry' := Py.lift (Json.setitem entry "stage" (Json.Str stage_name)) in
   let* chans' := Py.lift (Json.setitem chans channel_key entry') in
   let* cfg' := Py.lift (Json.setitem cfg "channels" chans') in
   set_config cfg')%py.

(** The save at the end of the detection: the device's whole entry of the
    file is replaced by [device.config]. *)
Definition save_detected (env : Env) (serial : Z) : Py.M World unit :=
  fun w =>
    let full_config := load_device_config env w.2 in
    match
      Py.obind (Json.contains_key "controllers" full_config) (fun present =>
      Py.obind (if present : bool then Py.Return full_config
                else Json.setitem full_config "controllers" (Json.Dict []))
               (fun full1 =>
      Py.obind (Json.getitem full1 "controllers") (fun controllers =>
      Py.obind (Json.setitem controllers (Py.str serial) w.1) (fun controllers' =>
      Json.setitem full1 "controllers" controllers'))))
    with
    | Py.Return full2 => (Py.Return tt, (w.1, (save_device_config env full2 w.2).2))
    | Py.Raise e => (Py.Raise e, w)
    end.

(** The body under [if stage_name:]. *)
Definition record_detected (env : Env) (serial channel : Z) (stage_name : string)
  : Py.M World unit :=
  (let channel_key := Py.str channel in
   ensure_config ;;
   ensure_channels ;;
   ensure_entry channel_key ;;
   let* current := current_stage channel_key in
   if Json.truthy current then Py.ret tt
   else (assign_stage channel_key stage_name ;; save_detected env serial))%py.

(** [MainWindow._try_auto_detect_stage]: the new [device.config] and the
    new content of the file.  Any exception is caught and printed; what
    was mutated before it stays mutated. *)
Definition _try_auto_detect_stage (env : Env) (device : DeviceInfo) (f : File)
  : World :=
  let unchanged := (config device, f) in
  match controller device with
  | None => unchanged
  | Some c =>
      if negb (has_device_attr c) then unchanged
      else
        match _device c with
        | None => unchanged
        | Some kinesis_device =>
            match GetDeviceInfo kinesis_device with
            | Py.Return true =>
                let settings_name := settings_name_of kinesis_device in
                if nonempty settings_name then
                  match match_stage settings_name with
                  | Some stage_name =>
                      (record_detected env (serial device) (channel c)
                                       stage_name unchanged).2
                  | None => unchanged
                  end
                else unchanged
            | _ => unchanged
            end
        end
  end.

(** The stage the GUI reads for a channel of [device.config], when the
    path to it exists. *)
Definition stage_at (cfg : Json.t) (channel_key : string) : option Json.t :=
  match cfg with
  | Json.Dict kvs =>
      match Json.assoc_get kvs "channels" with
      | Some (Json.Dict chans) =>
          match Json.assoc_get chans channel_key with
          | Some (Json.Dict entry) => Json.assoc_get entry "stage"
          | _ => None
          end
      | _ => None
      end
  | _ => None
  end.

(** A channel has an assigned stage when that value is truthy (a
    non-empty name). *)
Definition has_assigned_stage (cfg : Json.t) (channel_key : string) : bool :=
  match stage_at cfg channel_key with
  | Some v => Json.truthy v
  | None => false
  end.

End Gui.

(** ** Simulated backends

    Concrete devices on which the controllers can be run: a servo stage
    that may refuse commands, may throw during teardown and keeps
    reporting [IsMoving] for [lag] polling periods after a move; an
    inertial driver that records the commands it receives; an APT motor. *)

Module Sim.
Import Base.

Record Servo : Type := {
  pos : Q;
  busy : nat;
  lag : nat;
  refuses_moves : bool;
  teardown_throws : bool;
}.

Definition servo_teardown : Py.M Servo unit :=
  fun d => if teardown_throws d then (Py.Raise Py.BackendError, d) else (Py.Return tt, d).

Definition servo_move (direction : KDC101.MotorDirection) (dist : Q) (timeout_ms : Z)
  : Py.M Servo unit :=
  fun d =>
    if refuses_moves d then (Py.Raise Py.BackendError, d)
    else
      let delta := match direction with
                   | KDC101.Forward => dist
                   | KDC101.Backward => (- dist)%Q
                   end in
      (Py.Return tt,
       {| pos := (pos d + delta)%Q; busy := lag d; lag := lag d;
          refuses_moves := refuses_moves d; teardown_throws := teardown_throws d |}).

Definition servo_sleep (d : Servo) : Servo :=
  {| pos := pos d; busy := Nat.pred (busy d); lag := lag d;
     refuses_moves := refuses_moves d; teardown_throws := teardown_throws d |}.

#[export] Instance servo_kdc101 : KDC101.KCubeDCServo Servo := {
  KDC101.StopPolling := servo_teardown;
  KDC101.Disconnect := servo_teardown;
  KDC101.MoveRelative := servo_move;
  KDC101.Stop := fun _ d => (Py.Return tt, d);
  KDC101.Status_IsMoving := fun d => (Py.Return (negb (Nat.eqb (busy d) 0)), d);
  KDC101.Position := fun d => (Py.Return (pos d), d);
  KDC101.sleep := servo_sleep;
}.

#[export] Instance servo_apt : APT.APTMotor Servo := {
  APT.stop_ctrl := servo_teardown;
  APT.motor_move_relative := fun dist _ _ d =>
    if refuses_moves d then (Py.Raise Py.BackendError, d)
    else (Py.Return tt,
          {| pos := (pos d + dist)%Q; busy := 0; lag := lag d;
             refuses_moves := refuses_moves d;
             teardown_throws := teardown_throws d |});
  APT.motor_get_position := fun d => (Py.Return (pos d), d);
}.

Definition faulty_servo : Servo :=
  {| pos := 0; busy := 0; lag := 0; refuses_moves := true;
     teardown_throws := true |}.

(** A commands log for the inertial driver. *)
Inductive command : Type :=
| CmdJog (channel : Z) (dir : KIM101.InertialMotorJogDirection)
| CmdStop (channel : Z)
| CmdStopPolling
| CmdDisconnect.

Definition Inertial : Type := list command.

#[export] Instance inertial_kim101 : KIM101.KCubeInertialMotor Inertial := {
  KIM101.StopPolling := fun d => (Py.Return tt, CmdStopPolling :: d);
  KIM101.Disconnect := fun d => (Py.Return tt, CmdDisconnect :: d);
  KIM101.Jog := fun ch dir d => (Py.Return tt, CmdJog ch dir :: d);
  KIM101.Stop := fun ch d => (Py.Return tt, CmdStop ch :: d);
  KIM101.sleep := fun d => d;
}.

(** A session as [connect()] leaves it: handle bound, state CONNECTED. *)
Definition connected {D} (serial channel : Z) (d : D) : Session D :=
  with_state CONNECTED (with_device (Some d) (init serial channel)).

End Sim.

(** * Further code of the repository *)

(** ** controllers.py and stages.py: the remaining helpers *)

Module Registry.
Import Controllers Stages.

(** [get_all_controller_types]. *)
Definition get_all_controller_types : list string := CONTROLLERS_items.*1.

(** [get_controllers_by_motor_type]. *)
Definition get_controllers_by_motor_type (motor_type : string) : list string :=
  (filter (fun item => Controllers.motor_type item.2 = motor_type)
          CONTROLLERS_items).*1.

(** [get_all_stage_names]. *)
Definition get_all_stage_names : list string := STAGES_items.*1.

(** [get_stages_by_units]. *)
Definition get_stages_by_units (units : string) : list string :=
  (filter (fun item => Stages.units item.2 = units) STAGES_items).*1.

(** [is_rotation_stage]. *)
Definition is_rotation_stage (stage_name : string) : bool :=
  match STAGES !! stage_name with
  | Some info => String.eqb (Stages.units info) "deg"
  | None => false
  end.

(** [is_inertial_stage]. *)
Definition is_inertial_stage (stage_name : string) : bool :=
  match STAGES !! stage_name with
  | Some info => bool_decide ("KIM101" ∈ compatible_controllers info)
  | None => false
  end.

(** [get_default_jog_step]. *)
Definition get_default_jog_step (stage_name : string) : Q :=
  match STAGES !! stage_name with
  | Some info => jog_step_default info
  | None => 1
  end.

(** [get_stage_travel]. *)
Definition get_stage_travel (stage_name : string) : option Q :=
  match STAGES !! stage_name with
  | Some info => travel info
  | None => None
  end.

End Registry.

(** ** device_manager.py: the rest of the configuration store *)

Module Store.
Import Controllers Stages DeviceManager.

(** [d.values()] and [d.items()]. *)
Definition values (j : Json.t) : Py.outcome (list Json.t) :=
  match j with
  | Json.Dict kvs => Py.Return kvs.*2
  | _ => Py.Raise Py.AttributeError
  end.

Definition items (j : Json.t) : Py.outcome (list (string * Json.t)) :=
  match j with
  | Json.Dict kvs => Py.Return kvs
  | _ => Py.Raise Py.AttributeError
  end.

(** [sorted(result)] on integers. *)
Definition sorted (result : list Z) : list Z := merge_sort Z.le result.

Definition empty_channel : Json.t :=
  Json.Dict [("stage", Json.Null); ("role", Json.Null); ("linked_group", Json.Null)].

(** [for ch in range(1, num_channels + 1): channels[str(ch)] = {...}]. *)
Definition empty_channels (num_channels : Z) : list (string * Json.t) :=
  foldl (fun channels ch => Json.assoc_set channels (Py.str ch) empty_channel)
        [] (seqZ 1 num_channels).

Definition add_unconfigured_device (env : Env) (f : File) (serial_number : Z)
  : Py.outcome (bool * File) :=
  Py.obind (get_controller_type serial_number) (fun controller_type =>
  match controller_type with
  | None => Py.Return (false, f)
  | Some controller_type =>
      if String.eqb controller_type EmptyString then Py.Return (false, f)
      else
        let num_channels := get_channel_count controller_type in
        let config := load_device_config env f in
        let serial_str := Py.str serial_number in
        Py.obind (Json.get config "controllers" (Json.Dict [])) (fun controllers0 =>
        Py.obind (Json.contains_key serial_str controllers0) (fun present =>
        if present then Py.Return (true, f)
        else
          let channels := empty_channels num_channels in
          (* config.setdefault("controllers", {})[serial_str] = {"channels": channels} *)
          Py.obind (Json.setitem controllers0 serial_str
                      (Json.Dict [("channels", Json.Dict channels)])) (fun controllers1 =>
          Py.obind (Json.setitem config "controllers" controllers1) (fun config' =>
          Py.Return (save_device_config env config' f)))))
  end).

(** The loop of [is_device_configured] over [channels.values()]. *)
Fixpoint any_stage (ch_configs : list Json.t) : Py.outcome bool :=
  match ch_configs with
  | [] => Py.Return false
  | ch_config :: rest =>
      if Json.truthy ch_config then
        Py.obind (Json.get ch_config "stage" Json.Null) (fun stage =>
        if Json.truthy stage then Py.Return true else any_stage rest)
      else any_stage rest
  end.

Definition is_device_configured (env : Env) (f : File) (serial_number : Z)
  : Py.outcome bool :=
  let config := load_device_config env f in
  Py.obind (Json.get config "controllers" (Json.Dict [])) (fun controllers =>
  Py.obind (Json.get controllers (Py.str serial_number) (Json.Dict [])) (fun device_config =>
  Py.obind (Json.get device_config "channels" (Json.Dict [])) (fun channels =>
  Py.obind (values channels) any_stage))).

(** The loop of [get_linked_channels] over [channels.items()]. *)
Fixpoint linked_loop (linked_group : string) (ch_items : list (string * Json.t))
    (result : list Z) : Py.outcome (list Z) :=
  match ch_items with
  | [] => Py.Return result
  | (ch_str, ch_config) :: rest =>
      if Json.truthy ch_config then
        Py.obind (Json.get ch_config "linked_group" Json.Null) (fun group =>
        if Json.eqb_str group linked_group then
          Py.obind (Py.int ch_str) (fun ch =>
          linked_loop linked_group rest (result ++ [ch]))
        else linked_loop linked_group rest result)
      else linked_loop linked_group rest result
  end.

Definition get_linked_channels (env : Env) (f : File) (serial_number : Z)
    (linked_group : string) : Py.outcome (list Z) :=
  let config := load_device_config env f in
  Py.obind (Json.get config "controllers" (Json.Dict [])) (fun controllers =>
  Py.obind (Json.get controllers (Py.str serial_number) (Json.Dict [])) (fun device_config =>
  Py.obind (Json.get device_config "channels" (Json.Dict [])) (fun channels =>
  Py.obind (items channels) (fun ch_items =>
  Py.obind (linked_loop linked_group ch_items []) (fun result =>
  Py.Return (sorted result)))))).

End Store.

(** ** device_manager.py: discovery *)

Module Discovery.
Import Controllers Stages DeviceManager.

(** One entry of the list [discover_devices] returns. *)
Record Device : Type := {
  serial : Z;
  controller_type : string;
  dev_channels : Z;
  dev_description : string;
  configured : bool;
}.

(** [set(config.get("controllers", {}).keys())]. *)
Definition configured_serials (config : Json.t) : Py.outcome (list string) :=
  Py.obind (Json.get config "controllers" (Json.Dict [])) (fun controllers =>
  match controllers with
  | Json.Dict kvs => Py.Return kvs.*1
  | _ => Py.Raise Py.AttributeError
  end).

(** The dict appended for one device; [info["channels"]] on [None] is a
    [TypeError]. *)
Definition summary (serial : Z) (controller_type : string)
    (configured_serials : list string) : Py.outcome Device :=
  match get_controller_info controller_type with
  | None => Py.Raise Py.TypeError
  | Some info =>
      Py.Return {| serial := serial; controller_type := controller_type;
                   dev_channels := channels info; dev_description := description info;
                   configured := bool_decide (Py.str serial ∈ configured_serials) |}
  end.

(** The loop of [_discover_kinesis] over the device list: an exception
    leaves it, and the devices appended so far are what is returned. *)
Fixpoint kinesis_loop (configured_serials : list string) (device_list : list string)
    (devices : list Device) : list Device :=
  match device_list with
  | [] => devices
  | serial_str :: rest =>
      match Py.int serial_str with
      | Py.Raise _ => devices
      | Py.Return serial =>
          match get_controller_type serial with
          | Py.Raise _ => devices
          | Py.Return None => kinesis_loop configured_serials rest devices
          | Py.Return (Some controller_type) =>
              if String.eqb controller_type EmptyString
              then kinesis_loop configured_serials rest devices
              else
                match summary serial controller_type configured_serials with
                | Py.Raise _ => devices
                | Py.Return dev =>
                    kinesis_loop configured_serials rest (devices ++ [dev])
                end
          end
      end
  end.

(** [GetDeviceList] answers with serial numbers as text, or loading the
    assembly or building the list raises. *)
Definition _discover_kinesis (env : Env) (f : File)
    (GetDeviceList : Py.outcome (list string)) : list Device :=
  match GetDeviceList with
  | Py.Raise _ => []
  | Py.Return device_list =>
      match configured_serials (load_device_config env f) with
      | Py.Raise _ => []
      | Py.Return keys => kinesis_loop keys device_list []
      end
  end.

(** The APT system control: creating and starting it, the number of
    units of a hardware type, the serial number of a unit, stopping. *)
Record MG17System : Type := {
  StartCtrl : option Py.exc;
  GetNumHWUnitsEx : Z -> Py.outcome Z;
  GetHWSerialNumEx : Z -> Z -> Py.outcome Z;
}.

Definition hw_types : list (Z * string) :=
  [(27, "TDC001"); (29, "KPZ101"); (42, "KDC101"); (81, "TPZ001")].

(** [for i in range(count)] of one hardware type; an exception ends the
    scan of this type and keeps what was appended. *)
Fixpoint apt_units (system : MG17System) (keys : list string) (hw_type : Z)
    (controller_type : string) (indices : list Z) (devices : list Device) : list Device :=
  match indices with
  | [] => devices
  | i :: rest =>
      match GetHWSerialNumEx system hw_type i with
      | Py.Raise _ => devices
      | Py.Return serial =>
          match summary serial controller_type keys with
          | Py.Raise _ => devices
          | Py.Return dev =>
              apt_units system keys hw_type controller_type rest (devices ++ [dev])
          end
      end
  end.

Definition apt_scan (system : MG17System) (keys : list string)
    (devices : list Device) (item : Z * string) : list Device :=
  match GetNumHWUnitsEx system item.1 with
  | Py.Raise _ => devices
  | Py.Return count => apt_units system keys item.1 item.2 (seqZ 0 count) devices
  end.

(** Whatever [StopCtrl] does at the end, the devices are returned. *)
Definition _discover_apt (env : Env) (f : File) (system : MG17System) : list Device :=
  match StartCtrl system with
  | Some _ => []
  | None =>
      match configured_serials (load_device_config env f) with
      | Py.Raise _ => []
      | Py.Return keys => foldl (apt_scan system keys) [] hw_types
      end
  end.

Definition discover_devices (env : Env) (f : File)
    (GetDeviceList : Py.outcome (list string)) (system : MG17System)
  : Py.outcome (list Device) :=
  Py.obind (get_available_backend env) (fun backend =>
  if String.eqb backend "kinesis"
  then Py.Return (_discover_kinesis env f GetDeviceList)
  else Py.Return (_discover_apt env f system)).

(** What the motor EEPROM reports. *)
Record StageDefinition : Type := {
  part_number : string;
  stage_serial_number : option string;
  stage_id : option Z;
}.

(** [_get_stage_info_kinesis] is the query of the device; here it is a
    parameter: a definition, [None], or an exception. *)
Definition StageQuery : Type := Z -> string -> Py.outcome (option StageDefinition).

Definition get_connected_stage_info (env : Env) (_get_stage_info_kinesis : StageQuery)
    (serial_number : Z) (controller_type : string)
  : Py.outcome (option StageDefinition) :=
  Py.obind (get_available_backend env) (fun backend =>
  if negb (String.eqb backend "kinesis") then Py.Return None
  else if negb (bool_decide (controller_type ∈ ["KDC101"; "KBD101"; "TDC001"]))
  then Py.Return None
  else
    match _get_stage_info_kinesis serial_number controller_type with
    | Py.Return r => Py.Return r
    | Py.Raise _ => Py.Return None
    end).

(** A device entry with the two keys [discover_devices_with_stages] adds. *)
Record DeviceWithStage : Type := {
  device : Device;
  stage : option StageDefinition;
  stage_params : option StageInfo;
}.

Definition with_stage (env : Env) (query : StageQuery) (dev : Device)
  : Py.outcome DeviceWithStage :=
  if bool_decide (controller_type dev ∈ ["KDC101"; "KBD101"; "TDC001"]) then
    Py.obind (get_connected_stage_info env query (serial dev) (controller_type dev))
      (fun stage_info =>
    Py.Return
      {| device := dev; stage := stage_info;
         stage_params :=
           match stage_info with
           | Some def =>
               if negb (String.eqb (part_number def) EmptyString)
               then get_stage_info (part_number def) else None
           | None => None
           end |})
  else Py.Return {| device := dev; stage := None; stage_params := None |}.

Fixpoint with_stages (env : Env) (query : StageQuery) (devices : list Device)
  : Py.outcome (list DeviceWithStage) :=
  match devices with
  | [] => Py.Return []
  | dev :: rest =>
      Py.obind (with_stage env query dev) (fun d =>
      Py.obind (with_stages env query rest) (fun ds => Py.Return (d :: ds)))
  end.

Definition discover_devices_with_stages (env : Env) (f : File)
    (GetDeviceList : Py.outcome (list string)) (system : MG17System)
    (query : StageQuery) : Py.outcome (list DeviceWithStage) :=
  Py.obind (discover_devices env f GetDeviceList system) (with_stages env query).

End Discovery.

(** ** base.py: the step counter of the inertial variant *)

Module Inertial.
Import Base.

(** [InertialController.reset_step_count]. *)
Definition reset_step_count {D} : Py.M (Session D) unit :=
  Py.modify (with_step_count 0).

End Inertial.

(** ** base.py, kinesis/kpz101.py, apt/piezo.py: the piezo variant *)

Module Piezo.

(** [max(a, b)] and [min(a, b)] on floats: the first argument unless the
    second is strictly beyond it. *)
Definition py_max (a b : Q) : Q := if Qlt_le_dec a b then b else a.
Definition py_min (a b : Q) : Q := if Qlt_le_dec b a then b else a.

(** An observer registered as [on_voltage_change]. *)
Definition VoltageObserver : Type := Q -> option Py.exc.

(** The attributes of a piezo controller object; [_device] is [_piezo]
    in the APT adapter.  [voltages] is a ghost field: the values handed to
    the voltage observer so far, latest first. *)
Record Session (D : Type) : Type := {
  serial_number : Z;
  channel : Z;
  state : Base.ControllerState;
  _voltage_range : Q * Q;
  _on_state_change : option Base.Observer;
  _on_voltage_change : option VoltageObserver;
  voltages : list Q;
  _device : option D;
  _is_initialized : bool;
}.
Arguments serial_number {D} _.
Arguments channel {D} _.
Arguments state {D} _.
Arguments _voltage_range {D} _.
Arguments _on_state_change {D} _.
Arguments _on_voltage_change {D} _.
Arguments voltages {D} _.
Arguments _device {D} _.
Arguments _is_initialized {D} _.

Section Attributes.
Context {D : Type}.

(** [PiezoController.__init__] and the subclass constructors. *)
Definition init (serial channel : Z) : Session D :=
  {| serial_number := serial; channel := channel; state := Base.DISCONNECTED;
     _voltage_range := (0, 75)%Q; _on_state_change := None;
     _on_voltage_change := None; voltages := []; _device := None;
     _is_initialized := false |}.

Definition with_state (st : Base.ControllerState) (s : Session D) : Session D :=
  {| serial_number := serial_number s; channel := channel s; state := st;
     _voltage_range := _voltage_range s; _on_state_change := _on_state_change s;
     _on_voltage_change := _on_voltage_change s; voltages := voltages s;
     _device := _device s; _is_initialized := _is_initialized s |}.

Definition with_voltage_range (r : Q * Q) (s : Session D) : Session D :=
  {| serial_number := serial_number s; channel := channel s; state := state s;
     _voltage_range := r; _on_state_change := _on_state_change s;
     _on_voltage_change := _on_voltage_change s; voltages := voltages s;
     _device := _device s; _is_initialized := _is_initialized s |}.

Definition with_voltage (v : Q) (s : Session D) : Session D :=
  {| serial_number := serial_number s; channel := channel s; state := state s;
     _voltage_range := _voltage_range s; _on_state_change := _on_state_change s;
     _on_voltage_change := _on_voltage_change s; voltages := v :: voltages s;
     _device := _device s; _is_initialized := _is_initialized s |}.

Definition with_device (d : option D) (s : Session D) : Session D :=
  {| serial_number := serial_number s; channel := channel s; state := state s;
     _voltage_range := _voltage_range s; _on_state_change := _on_state_change s;
     _on_voltage_change := _on_voltage_change s; voltages := voltages s;
     _device := d; _is_initialized := _is_initialized s |}.

Definition with_initialized (b : bool) (s : Session D) : Session D :=
  {| serial_number := serial_number s; channel := channel s; state := state s;
     _voltage_range := _voltage_range s; _on_state_change := _on_state_change s;
     _on_voltage_change := _on_voltage_change s; voltages := voltages s;
     _device := _device s; _is_initialized := b |}.

Definition set_callbacks (on_state_change : option Base.Observer)
    (on_voltage_change : option VoltageObserver) (s : Session D) : Session D :=
  {| serial_number := serial_number s; channel := channel s; state := state s;
     _voltage_range := _voltage_range s; _on_state_change := on_state_change;
     _on_voltage_change := on_voltage_change; voltages := voltages s;
     _device := _device s; _is_initialized := _is_initialized s |}.

Definition voltage_min (s : Session D) : Q := (_voltage_range s).1.
Definition voltage_max (s : Session D) : Q := (_voltage_range s).2.

Definition is_connected (s : Session D) : bool :=
  Base.PiezoController_is_connected (state s).

(** [configure_stage]: the argument is the [voltage_range] entry of the
    stage dict, if it has one. *)
Definition configure_stage (voltage_range : option (Q * Q)) (s : Session D) : Session D :=
  match voltage_range with
  | Some r => with_voltage_range r s
  | None => s
  end.

Definition _set_state (new_state : Base.ControllerState) : Py.M (Session D) unit :=
  fun s =>
    let s' := with_state new_state s in
    match _on_state_change s' with
    | Some observer =>
        (match observer new_state with
         | None => Py.Return tt
         | Some e => Py.Raise e
         end, s')
    | None => (Py.Return tt, s')
    end.

(** [if self._on_voltage_change: self._on_voltage_change(voltage)]. *)
Definition notify_voltage (voltage : Q) : Py.M (Session D) unit :=
  fun s =>
    match _on_voltage_change s with
    | Some observer =>
        (match observer voltage with
         | None => Py.Return tt
         | Some e => Py.Raise e
         end, with_voltage voltage s)
    | None => (Py.Return tt, s)
    end.

Definition call {A} (op : Py.M D A) : Py.M (Session D) A :=
  fun s =>
    match _device s with
    | Some d => let '(r, d') := op d in (r, with_device (Some d') s)
    | None => (Py.Raise Py.AttributeError, s)
    end.

Definition has_device : Py.M (Session D) bool :=
  Py.gets (fun s => bool_decide (is_Some (_device s))).

(** [max(self.voltage_min, min(self.voltage_max, voltage))]. *)
Definition clamp (s : Session D) (voltage : Q) : Q :=
  py_max (voltage_min s) (py_min (voltage_max s) voltage).

(** [PiezoController.set_voltage_safe] and [zero], over the subclass's
    [set_voltage]. *)
Definition set_voltage_safe (set_voltage : Q -> Py.M (Session D) bool) (voltage : Q)
  : Py.M (Session D) bool :=
  fun s => set_voltage (clamp s voltage) s.

Definition zero (set_voltage : Q -> Py.M (Session D) bool) : Py.M (Session D) bool :=
  set_voltage 0%Q.

End Attributes.

(** *** kinesis/kpz101.py *)

(** The part of the vendor class [KCubePiezo] the controller uses. *)
Class KCubePiezo (D : Type) : Type := {
  Connect : Z -> Py.M D unit;
  IsSettingsInitialized : Py.M D bool;
  WaitForSettingsInitialized : Z -> Py.M D unit;
  StartPolling : Z -> Py.M D unit;
  GetMaxOutputVoltage : Py.M D Q;
  StopPolling : Py.M D unit;
  Disconnect : Py.M D unit;
  SetOutputVoltage : Q -> Py.M D unit;
  GetOutputVoltage : Py.M D Q;
  SetPosition : Q -> Py.M D unit;
  GetPosition : Py.M D Q;
  sleep : D -> D;
}.

(** What lies outside the object: whether [clr] and the assemblies load,
    whether the vendor modules import, the device manager's list and
    factory. *)
Record Kinesis (D : Type) : Type := {
  assemblies_load : bool;
  modules_import : option Py.exc;
  BuildDeviceList : option Py.exc;
  CreateKCubePiezo : Z -> Py.outcome (option D);
}.
Arguments assemblies_load {D} _.
Arguments modules_import {D} _.
Arguments BuildDeviceList {D} _.
Arguments CreateKCubePiezo {D} _.

Definition attempt {S} (failure : option Py.exc) : Py.M S unit :=
  match failure with
  | Some e => Py.raise e
  | None => Py.ret tt
  end.

Module KPZ101.
Section Controller.
Context {D : Type} `{KCubePiezo D}.

Definition _load_assemblies (host : Kinesis D) : Py.M (Session D) bool :=
  (let* initialized := Py.gets _is_initialized in
   if initialized : bool then Py.ret true
   else if assemblies_load host
        then (Py.modify (with_initialized true) ;; Py.ret true)
        else Py.ret false)%py.

(** [time.sleep(0.5)]: five polling periods. *)
Definition time_sleep : Py.M (Session D) unit :=
  Py.modify (fun s => with_device (Nat.iter 5 sleep <$> _device s) s).

Definition connect (host : Kinesis D) : Py.M (Session D) bool :=
  (let* loaded := _load_assemblies host in
   if negb loaded then Py.raise Py.ConnectionError
   else
     Py.try_except
       (attempt (modules_import host) ;;
        _set_state Base.CONNECTING ;;
        attempt (BuildDeviceList host) ;;
        let* serial := Py.gets serial_number in
        let* device := Py.lift (CreateKCubePiezo host serial) in
        Py.modify (with_device device) ;;
        match device with
        | None => Py.raise Py.ConnectionError
        | Some _ =>
            call (Connect serial) ;;
            let* settled := call IsSettingsInitialized in
            (if negb settled then call (WaitForSettingsInitialized 5000)
             else Py.ret tt) ;;
            call (StartPolling 250) ;;
            time_sleep ;;
            let* max_voltage := call GetMaxOutputVoltage in
            Py.modify (with_voltage_range (0%Q, max_voltage)) ;;
            _set_state Base.CONNECTED ;;
            Py.ret true
        end)
       (fun _ => (_set_state Base.ERROR ;; Py.raise Py.ConnectionError)))%py.

Definition disconnect : Py.M (Session D) unit :=
  (let* present := has_device in
   (if present : bool then
      (Py.try_except (call StopPolling ;; call Disconnect)
                     (fun _ => Py.ret tt) ;;
       Py.modify (with_device None))
    else Py.ret tt) ;;
   _set_state Base.DISCONNECTED)%py.

Definition set_voltage (voltage : Q) : Py.M (Session D) bool :=
  (let* present := has_device in
   if negb present then Py.ret false
   else
     Py.try_except
       (let* voltage := Py.gets (fun s => clamp s voltage) in
        call (SetOutputVoltage voltage) ;;
        notify_voltage voltage ;;
        Py.ret true)
       (fun _ => Py.ret false))%py.

Definition get_voltage : Py.M (Session D) Q :=
  (let* present := has_device in
   if negb present then Py.ret 0%Q
   else Py.try_except (call GetOutputVoltage) (fun _ => Py.ret 0%Q))%py.

Definition set_position (position : Q) : Py.M (Session D) bool :=
  (let* present := has_device in
   if negb present then Py.ret false
   else
     Py.try_except (call (SetPosition position) ;; Py.ret true)
                   (fun _ => Py.ret false))%py.

Definition get_position : Py.M (Session D) Q :=
  (let* present := has_device in
   if negb present then Py.ret 0%Q
   else Py.try_except (call GetPosition) (fun _ => Py.ret 0%Q))%py.

Definition get_max_voltage : Py.M (Session D) Q :=
  (let* present := has_device in
   if negb present then Py.ret 75%Q
   else Py.try_except (call GetMaxOutputVoltage) (fun _ => Py.ret 75%Q))%py.

End Controller.
End KPZ101.

(** *** apt/piezo.py *)

(** The part of the wrapper class [APTPiezo] the adapter uses. *)
Class APTPiezo (D : Type) : Type := {
  start : Py.M D unit;
  stop_ctrl : Py.M D unit;
  piezo_set_voltage : Q -> Py.M D unit;
  piezo_get_voltage : Py.M D Q;
}.

Module APT.
Section Adapter.
Context {D : Type} `{APTPiezo D}.

(** [new_piezo] is [APTPiezo(serial_number=...)], the import of the
    wrapper included. *)
Definition connect (new_piezo : Z -> Py.outcome D) : Py.M (Session D) bool :=
  Py.try_except
    (_set_state Base.CONNECTING ;;
     let* serial := Py.gets serial_number in
     let* piezo := Py.lift (new_piezo serial) in
     Py.modify (with_device (Some piezo)) ;;
     call start ;;
     _set_state Base.CONNECTED ;;
     Py.ret true)%py
    (fun _ => (_set_state Base.ERROR ;; Py.raise Py.ConnectionError)%py).

Definition disconnect : Py.M (Session D) unit :=
  (let* present := has_device in
   (if present : bool then
      (Py.try_except (call stop_ctrl) (fun _ => Py.ret tt) ;;
       Py.modify (with_device None))
    else Py.ret tt) ;;
   _set_state Base.DISCONNECTED)%py.

Definition set_voltage (voltage : Q) : Py.M (Session D) bool :=
  (let* present := has_device in
   if negb present then Py.ret false
   else
     Py.try_except
       (let* voltage := Py.gets (fun s => clamp s voltage) in
        call (piezo_set_voltage voltage) ;;
        notify_voltage voltage ;;
        Py.ret true)
       (fun _ => Py.ret false))%py.

Definition get_voltage : Py.M (Session D) Q :=
  (let* present := has_device in
   if negb present then Py.ret 0%Q
   else Py.try_except (call piezo_get_voltage) (fun _ => Py.ret 0%Q))%py.

End Adapter.
End APT.

End Piezo.

(** ** kinesis/kdc101.py, apt/motor.py: homing, absolute moves, connecting *)

Module Motion.
Import Base.

(** The further part of the vendor class [KCubeDCServo] that [connect],
    [home], [move_absolute] and [is_homed] use. *)
Class KCubeDCServoMotion (D : Type) : Type := {
  Connect : Z -> Py.M D unit;
  IsSettingsInitialized : Py.M D bool;
  WaitForSettingsInitialized : Z -> Py.M D unit;
  StartPolling : Z -> Py.M D unit;
  EnableDevice : Py.M D unit;
  LoadMotorConfiguration : Z -> Py.M D unit;
  Home : Z -> Py.M D unit;
  MoveTo : Q -> Z -> Py.M D unit;
  Status_IsHoming : Py.M D bool;
  Status_IsHomed : Py.M D bool;
}.

(** What lies outside the object: whether [clr] and the assemblies load,
    whether the vendor modules import, the device manager's list and
    factory. *)
Record Kinesis (D : Type) : Type := {
  assemblies_load : bool;
  modules_import : option Py.exc;
  BuildDeviceList : option Py.exc;
  CreateKCubeDCServo : Z -> Py.outcome (option D);
}.
Arguments assemblies_load {D} _.
Arguments modules_import {D} _.
Arguments BuildDeviceList {D} _.
Arguments CreateKCubeDCServo {D} _.

(** A KDC101 controller object: the attributes of the base class and the
    flag of [_load_assemblies]. *)
Record Object (D : Type) : Type := {
  session : Session D;
  _is_initialized : bool;
}.
Arguments session {D} _.
Arguments _is_initialized {D} _.

(** A method body that works on the base attributes only. *)
Definition on_session {D A} (m : Py.M (Session D) A) : Py.M (Object D) A :=
  fun o =>
    let '(r, s') := m (session o) in
    (r, {| session := s'; _is_initialized := _is_initialized o |}).

Definition attempt {S} (failure : option Py.exc) : Py.M S unit :=
  match failure with
  | Some e => Py.raise e
  | None => Py.ret tt
  end.

Module Servo.
Section Controller.
Context {D : Type} `{KDC101.KCubeDCServo D} `{KCubeDCServoMotion D}.

(** [KDC101Controller.__init__]. *)
Definition init (serial channel : Z) : Object D :=
  {| session := Base.init serial channel; _is_initialized := false |}.

Definition _load_assemblies (host : Kinesis D) : Py.M (Object D) bool :=
  fun o =>
    if _is_initialized o then (Py.Return true, o)
    else if assemblies_load host
         then (Py.Return true, {| session := session o; _is_initialized := true |})
         else (Py.Return false, o).

(** [time.sleep(0.5)]: five polling periods. *)
Definition settle : Py.M (Session D) unit :=
  Py.modify (fun s => with_device (Nat.iter 5 KDC101.sleep <$> _device s) s).

(** The [try] block of [connect] and its handler. *)
Definition connect_guarded (host : Kinesis D) : Py.M (Session D) bool :=
  Py.try_except
    (attempt (modules_import host) ;;
     _set_state CONNECTING ;;
     attempt (BuildDeviceList host) ;;
     let* serial := Py.gets serial_number in
     let* device := Py.lift (CreateKCubeDCServo host serial) in
     Py.modify (with_device device) ;;
     match device with
     | None => Py.raise Py.ConnectionError
     | Some _ =>
         call (Connect serial) ;;
         let* settled := call IsSettingsInitialized in
         (if negb settled then call (WaitForSettingsInitialized 5000)
          else Py.ret tt) ;;
         call (StartPolling 250) ;;
         settle ;;
         call EnableDevice ;;
         settle ;;
         call (LoadMotorConfiguration serial) ;;
         _set_state CONNECTED ;;
         Py.ret true
     end)%py
    (fun _ => (_set_state ERROR ;; Py.raise Py.ConnectionError)%py).

Definition connect (host : Kinesis D) : Py.M (Object D) bool :=
  (let* loaded := _load_assemblies host in
   if negb loaded then Py.raise Py.ConnectionError
   else on_session (connect_guarded host))%py.

(** [while self._device.Status.IsHoming:] with the timeout check. *)
Fixpoint wait_while_homing (remaining : nat) : Py.M (Session D) unit :=
  (let* homing := call Status_IsHoming in
   if homing : bool then
     match remaining with
     | O => Py.raise Py.MovementError
     | S remaining' => (KDC101.time_sleep ;; wait_while_homing remaining')
     end
   else Py.ret tt)%py.

Definition home (wait : bool) (timeout : nat) : Py.M (Session D) bool :=
  (let* present := has_device in
   if negb present then Py.ret false
   else
     Py.try_except
       (_set_state HOMING ;;
        call (Home (if wait then 100 * Z.of_nat timeout else 0)) ;;
        (if wait then wait_while_homing (S timeout) else Py.ret tt) ;;
        _set_state CONNECTED ;;
        Py.ret true)
       (fun _ => (_set_state ERROR ;; Py.raise Py.MovementError)))%py.

Definition move_absolute (position : Q) (wait : bool) (timeout : nat)
  : Py.M (Session D) bool :=
  (let* present := has_device in
   if negb present then Py.ret false
   else
     Py.try_except
       (_set_state MOVING ;;
        call (MoveTo position (if wait then 100 * Z.of_nat timeout else 0)) ;;
        (if wait then KDC101.wait_while_moving (S timeout) else Py.ret tt) ;;
        _set_state CONNECTED ;;
        Py.ret true)
       (fun _ => (_set_state ERROR ;; Py.raise Py.MovementError)))%py.

Definition is_homed : Py.M (Session D) bool :=
  (let* present := has_device in
   if negb present then Py.ret false else call Status_IsHomed)%py.

End Controller.
End Servo.

(** The further part of the wrapper class [APTMotor] the adapter uses. *)
Class APTMotorMotion (D : Type) : Type := {
  start : Py.M D unit;
  motor_home : bool -> nat -> Py.M D unit;
  motor_move_absolute : Q -> bool -> nat -> Py.M D unit;
  stop_move : Py.M D unit;
  get_status_bits : Py.M D Z;
}.

Module Adapter.
Section Methods.
Context {D : Type} `{APTMotorMotion D}.

(** [new_motor] is [APTMotor(serial_number=..., hw_type=...)], the import
    of the wrapper included. *)
Definition connect (new_motor : Z -> Py.outcome D) : Py.M (Session D) bool :=
  Py.try_except
    (_set_state CONNECTING ;;
     let* serial := Py.gets serial_number in
     let* motor := Py.lift (new_motor serial) in
     Py.modify (with_device (Some motor)) ;;
     call start ;;
     _set_state CONNECTED ;;
     Py.ret true)%py
    (fun _ => (_set_state ERROR ;; Py.raise Py.ConnectionError)%py).

Definition home (wait : bool) (timeout : nat) : Py.M (Session D) bool :=
  (let* present := has_device in
   if negb present then Py.ret false
   else
     Py.try_except
       (_set_state HOMING ;;
        call (motor_home wait timeout) ;;
        _set_state CONNECTED ;;
        Py.ret true)
       (fun _ => (_set_state ERROR ;; Py.raise Py.MovementError)))%py.

Definition move_absolute (position : Q) (wait : bool) (timeout : nat)
  : Py.M (Session D) bool :=
  (let* present := has_device in
   if negb present then Py.ret false
   else
     Py.try_except
       (_set_state MOVING ;;
        call (motor_move_absolute position wait timeout) ;;
        _set_state CONNECTED ;;
        Py.ret true)
       (fun _ => (_set_state ERROR ;; Py.raise Py.MovementError)))%py.

Definition stop : Py.M (Session D) unit :=
  (let* present := has_device in
   if present : bool then (call stop_move ;; _set_state CONNECTED)
   else Py.ret tt)%py.

(** [bool(bits & 0x0400)], [False] when the query raises. *)
Definition is_homed : Py.M (Session D) bool :=
  (let* present := has_device in
   if negb present then Py.ret false
   else
     Py.try_except
       (let* bits := call get_status_bits in
        Py.ret (negb (Z.land bits 1024 =? 0)))
       (fun _ => Py.ret false))%py.

End Methods.
End Adapter.

End Motion.

(** ** device_manager.py: all linked groups *)

Module Groups.
Import DeviceManager.

(** The [groups] dict: group keys in insertion order, each with its list
    of [(serial, channel)] tuples. *)
Definition t : Type := list (Json.t * list (Z * Z)).

(** Whether a JSON-decoded object can be a dict key. *)
Definition hashable (j : Json.t) : bool :=
  match j with
  | Json.List _ | Json.Dict _ => false
  | _ => true
  end.

(** [a == b] on hashable JSON-decoded objects: [True] is [1] and [False]
    is [0]. *)
Definition key_eqb (a b : Json.t) : bool :=
  match a, b with
  | Json.Null, Json.Null => true
  | Json.Str s, Json.Str s' => String.eqb s s'
  | Json.Bool x, Json.Bool y => Bool.eqb x y
  | Json.Int n, Json.Int m => n =? m
  | Json.Bool x, Json.Int m => (if x then 1 else 0) =? m
  | Json.Int n, Json.Bool y => n =? (if y then 1 else 0)
  | _, _ => false
  end.

(** [groups.setdefault(group, []).append(member)]. *)
Fixpoint setdefault_append (groups : t) (group : Json.t) (member : Z * Z) : t :=
  match groups with
  | [] => [(group, [member])]
  | (k, members) :: rest =>
      if key_eqb k group then (k, members ++ [member]) :: rest
      else (k, members) :: setdefault_append rest group member
  end.

(** The inner loop, over [channels.items()]. *)
Fixpoint channels_loop (serial : Z) (ch_items : list (string * Json.t)) (groups : t)
  : Py.outcome t :=
  match ch_items with
  | [] => Py.Return groups
  | (ch_str, ch_config) :: rest =>
      if Json.truthy ch_config then
        Py.obind (Json.get ch_config "linked_group" Json.Null) (fun group =>
        if Json.truthy group then
          if hashable group then
            Py.obind (Py.int ch_str) (fun ch =>
            channels_loop serial rest (setdefault_append groups group (serial, ch)))
          else Py.Raise Py.TypeError
        else channels_loop serial rest groups)
      else channels_loop serial rest groups
  end.

(** The outer loop, over [config.get("controllers", {}).items()]. *)
Fixpoint devices_loop (items : list (string * Json.t)) (groups : t) : Py.outcome t :=
  match items with
  | [] => Py.Return groups
  | (serial_str, device_config) :: rest =>
      Py.obind (Py.int serial_str) (fun serial =>
      Py.obind (Json.get device_config "channels" (Json.Dict [])) (fun channels =>
      Py.obind (Store.items channels) (fun ch_items =>
      Py.obind (channels_loop serial ch_items groups) (fun groups' =>
      devices_loop rest groups'))))
  end.

Definition get_all_linked_groups (env : Env) (f : File) : Py.outcome t :=
  let config := load_device_config env f in
  Py.obind (Json.get config "controllers" (Json.Dict [])) (fun controllers =>
  Py.obind (Store.items controllers) (fun items =>
  devices_loop items [])).

End Groups.

(** * Properties *)

Import Sim.

(** ** Monad laws used by the proofs *)

Section MonadFacts.
Context {S : Type}.

Lemma bind_Return {A B} (m : Py.M S A) (k : A -> Py.M S B) s a s' :
  m s = (Py.Return a, s') -> Py.bind m k s = k a s'.
Proof. intros Hm. unfold Py.bind. now rewrite Hm. Qed.

Lemma try_except_Return {A} (body : Py.M S A) handler s a s' :
  body s = (Py.Return a, s') -> Py.try_except body handler s = (Py.Return a, s').
Proof. intros Hb. unfold Py.try_except. now rewrite Hb. Qed.

End MonadFacts.

(** ** The connectivity predicates (base.py) *)

#[local] Instance ControllerState_eq_dec : EqDecision Base.ControllerState.
Proof. solve_decision. Defined.

(** C10. [MotorController.is_connected] (inherited unchanged by the
    inertial variant) is true exactly in the states Connected, Homing and
    Moving, whereas [PiezoController.is_connected] is true exactly when the
    state is not Disconnected; the two disagree in the states Error and
    Connecting. *)
Theorem is_connected_families_disagree :
  forall st : Base.ControllerState,
    Base.MotorController_is_connected st
      = bool_decide (st = Base.CONNECTED \/ st = Base.HOMING \/ st = Base.MOVING)
    /\ Base.PiezoController_is_connected st = bool_decide (st <> Base.DISCONNECTED)
    /\ (Base.MotorController_is_connected st <> Base.PiezoController_is_connected st
        <-> (st = Base.ERROR \/ st = Base.CONNECTING)).
Proof.
  intros st. destruct st; cbn; repeat split; try reflexivity;
    intros; try congruence; try tauto;
    match goal with
    | H : _ \/ _ |- _ => destruct H; discriminate
    | |- _ => idtac
    end.
Qed.

(** ** The inertial variant: [home] (base.py, kinesis/kim101.py) *)

Section InertialHome.
Context {D : Type} `{KIM101.KCubeInertialMotor D}.

Lemma sleep_until_spec (timeout : nat) (s : Base.Session D) :
  KIM101.sleep_until timeout s
  = (Py.Return tt,
     Base.with_device (Nat.iter timeout KIM101.sleep <$> Base._device s) s).
Proof.
  revert s. induction timeout as [|t IH]; intros s.
  - cbn. destruct s as [? ? ? ? ? ? [d|] ?]; reflexivity.
  - cbn [KIM101.sleep_until]. unfold Py.bind at 1. cbn [KIM101.time_sleep Py.modify].
    rewrite IH. destruct s as [? ? ? ? ? ? [d|] ?]; cbn; [|reflexivity].
    now rewrite <- Nat.iter_succ_r.
Qed.

End InertialHome.

(** C9. For the inertial controller [home] returns [False] whatever its
    arguments and whatever the session (connected or not), and it touches
    neither the session nor the backend; seeking the hardware limit is the
    separate operation [move_to_limit], which on a connected channel does
    drive the backend (a jog, then a stop). *)
Theorem inertial_home_always_false :
  (forall (D : Type) (backend : KIM101.KCubeInertialMotor D)
          (wait : bool) (timeout : nat) (s : Base.Session D),
      KIM101.home wait timeout s = (Py.Return false, s))
  /\ (forall (serial : Z) (wait : bool) (timeout : nat) (log : Sim.Inertial),
         let s := Sim.connected serial 1 log in
         Base._device (KIM101.home wait timeout s).2 = Some log
         /\ (KIM101.move_to_limit 1 timeout s).1 = Py.Return true
         /\ Base._device (KIM101.move_to_limit 1 timeout s).2
            = Some (Sim.CmdStop 1 :: Sim.CmdJog 1 KIM101.Increase :: log)).
Proof.
  split.
  - intros. reflexivity.
  - intros serial wait timeout log s. split; [reflexivity|].
    assert (Hloop : forall s0 : Base.Session Sim.Inertial,
               KIM101.sleep_until timeout s0 = (Py.Return tt, s0)).
    { intros s0. rewrite sleep_until_spec.
      destruct s0 as [? ? ? ? ? ? [d|] ?]; cbn; [|reflexivity].
      do 3 f_equal. induction timeout as [|t IHt]; [reflexivity|]. cbn. exact IHt. }
    unfold KIM101.move_to_limit, s.
    erewrite bind_Return by (vm_compute; reflexivity).
    cbn [negb].
    erewrite try_except_Return; cycle 1.
    { erewrite bind_Return by (vm_compute; reflexivity).
      erewrite bind_Return by (vm_compute; reflexivity).
      erewrite bind_Return by (apply Hloop).
      vm_compute. reflexivity. }
    split; reflexivity.
Qed.

(** ** Stage compatibility (device_manager.py) *)

Lemma string_app_assoc (a b c : string) : (a +:+ b) +:+ c = a +:+ (b +:+ c).
Proof.
  induction a as [|x a IH]; [reflexivity|].
  change (String x ((a +:+ b) +:+ c) = String x (a +:+ b +:+ c)). now rewrite IH.
Qed.

Lemma string_app_nil_r (a : string) : a +:+ EmptyString = a.
Proof.
  induction a as [|x a IH]; [reflexivity|].
  change (String x (a +:+ EmptyString) = String x a). now rewrite IH.
Qed.

(** [part] occurs in [msg]. *)
Definition names (msg part : string) : Prop :=
  exists pre post, msg = pre +:+ part +:+ post.

Lemma names_app_l msg part pre : names msg part -> names (pre +:+ msg) part.
Proof.
  intros (p & q & ->). exists (pre +:+ p), q. now rewrite string_app_assoc.
Qed.

Lemma names_app_r msg part post : names msg part -> names (msg +:+ post) part.
Proof.
  intros (p & q & ->). exists p, (q +:+ post). now rewrite !string_app_assoc.
Qed.

Lemma join_names (sep : string) (parts : list string) (c : string) :
  c ∈ parts -> names (Py.join sep parts) c.
Proof.
  induction parts as [|p rest IH]; intros Hin.
  - now apply elem_of_nil in Hin.
  - apply elem_of_cons in Hin. destruct rest as [|q rest'].
    + destruct Hin as [->|Hin]; [|now apply elem_of_nil in Hin].
      exists EmptyString, EmptyString. cbn. now rewrite string_app_nil_r.
    + change (Py.join sep (p :: q :: rest'))
        with (p +:+ sep +:+ Py.join sep (q :: rest')).
      destruct Hin as [->|Hin].
      * exists EmptyString, (sep +:+ Py.join sep (q :: rest')). reflexivity.
      * apply names_app_l, names_app_l, IH, Hin.
Qed.

(** C7. For a known stage the validator answers [True] exactly when the
    controller type is in the stage's [compatible_controllers]; when it is
    not, it answers [False] with a message in which every compatible
    controller type occurs (and so do the stage and the offending type). *)
Theorem validate_stage_compatibility_membership :
  forall (stage_name controller_type : string) (info : Stages.StageInfo),
    Stages.get_stage_info stage_name = Some info ->
    let result := DeviceManager.validate_stage_compatibility stage_name controller_type in
    (result.1 = true <-> controller_type ∈ Stages.compatible_controllers info)
    /\ (controller_type ∉ Stages.compatible_controllers info ->
        result.1 = false
        /\ (forall c, c ∈ Stages.compatible_controllers info -> names result.2 c)
        /\ names result.2 stage_name
        /\ names result.2 controller_type).
Proof.
  intros stage_name controller_type info Hinfo result. subst result.
  unfold DeviceManager.validate_stage_compatibility. rewrite Hinfo.
  case_bool_decide as Hmem; cbn [fst snd].
  - split; [tauto|]. intros Hnot. contradiction.
  - split; [split; [discriminate|contradiction]|]. intros _.
    split; [reflexivity|]. split; [|split].
    + intros c Hc. apply names_app_l, names_app_l, names_app_r.
      now apply join_names.
    + exists EmptyString. eexists. reflexivity.
    + exists (stage_name +:+ " requires "
              +:+ Py.join " or " (Stages.compatible_controllers info)
              +:+ ", but controller is "), EmptyString.
      now rewrite string_app_nil_r, !string_app_assoc.
Qed.

Lemma validate_stage_compatibility_membership_witness :
  let result := DeviceManager.validate_stage_compatibility "PRM1Z8" "KIM101" in
  result = (false, "PRM1Z8 requires KDC101 or TDC001, but controller is KIM101")
  /\ names result.2 "KDC101" /\ names result.2 "TDC001".
Proof.
  pose proof (validate_stage_compatibility_membership
                "PRM1Z8" "KIM101" (Stages.servo_stage "deg" 360 1)
                ltac:(vm_compute; reflexivity)) as [_ Hmsg].
  assert (Hnot : "KIM101" ∉ Stages.compatible_controllers (Stages.servo_stage "deg" 360 1)).
  { cbn. intros Hin. repeat (apply elem_of_cons in Hin as [Hin|Hin]; [discriminate|]).
    now apply elem_of_nil in Hin. }
  destruct (Hmsg Hnot) as (_ & Hall & _).
  split; [vm_compute; reflexivity|]. split; apply Hall; cbn.
  - apply elem_of_cons. now left.
  - apply elem_of_cons. right. apply elem_of_cons. now left.
Defined.

Example validate_stage_compatibility_doc :
  DeviceManager.validate_stage_compatibility "PRM1Z8" "KDC101"
  = (true, "PRM1Z8 is compatible with KDC101").
Proof. vm_compute. reflexivity. Qed.

(** ** The controller factory on the legacy backend (device_manager.py) *)

(** A channel configuration as the store writes it: absent, or an object
    whose [stage] is absent, [null] or a name. *)
Definition well_formed_channel_config (cc : Json.t) : bool :=
  match cc with
  | Json.Null => true
  | Json.Dict kvs =>
      match Json.assoc_get kvs "stage" with
      | None | Some Json.Null | Some (Json.Str _) => true
      | Some _ => false
      end
  | _ => false
  end.

Lemma supports_apt_brushless_inertial :
  Controllers.supports_apt "KBD101" = false /\ Controllers.supports_apt "KIM101" = false.
Proof. split; vm_compute; reflexivity. Qed.

Lemma _create_apt_controller_unsupported (serial channel : Z) (ty : string) info :
  Controllers.supports_apt ty = false ->
  DeviceManager._create_apt_controller serial channel ty info
  = Py.Raise Py.ConfigurationError.
Proof. intros Hs. unfold DeviceManager._create_apt_controller. now rewrite Hs. Qed.

(** C6. For a serial whose type resolves to KBD101 (brushless) or KIM101
    (inertial), [supports_apt] is false, [_create_apt_controller] raises
    [ConfigurationError], and so does [create_controller] once the backend
    is resolved to the legacy one, be it passed explicitly or found by the
    probe, for any well-formed channel configuration in the store. *)
Theorem apt_backend_rejects_brushless_and_inertial :
  forall (env : DeviceManager.Env) (f : DeviceManager.File) (serial channel : Z)
         (backend : option string) (ty : string) (cc : Json.t),
    Controllers.get_controller_type serial = Py.Return (Some ty) ->
    ty = "KBD101" \/ ty = "KIM101" ->
    match backend with
    | None => DeviceManager.get_available_backend env
    | Some b => Py.Return b
    end = Py.Return "apt" ->
    DeviceManager.get_device_channel_config env f serial channel = Py.Return cc ->
    well_formed_channel_config cc = true ->
    Controllers.supports_apt ty = false
    /\ DeviceManager._create_apt_controller serial channel ty
         (Controllers.get_controller_info ty) = Py.Raise Py.ConfigurationError
    /\ DeviceManager.create_controller env f serial channel backend
       = Py.Raise Py.ConfigurationError.
Proof.
  intros env f serial channel backend ty cc Hty Hkind Hbackend Hcc Hwf.
  assert (Hs : Controllers.supports_apt ty = false).
  { destruct Hkind as [-> | ->]; apply supports_apt_brushless_inertial. }
  split; [exact Hs|]. split; [now apply _create_apt_controller_unsupported|].
  unfold DeviceManager.create_controller. rewrite Hty. cbn [Py.obind].
  rewrite Hbackend. cbn [Py.obind]. rewrite Hcc. cbn [Py.obind].
  rewrite (_create_apt_controller_unsupported _ _ _ _ Hs).
  change (String.eqb "apt" "kinesis") with false. cbn iota.
  destruct cc as [| b | n | s | l | kvs]; try discriminate Hwf; cbn.
  - reflexivity.
  - destruct kvs as [|kv kvs']; [reflexivity|]. cbn in Hwf |- *.
    destruct kv as [k v]. cbn in Hwf |- *.
    destruct (if String.eqb k "stage" then Some v else Json.assoc_get kvs' "stage")
      as [[| b | n | s | l | kvs'']|]; try discriminate Hwf; cbn; try reflexivity.
    destruct (negb (String.eqb s EmptyString)); reflexivity.
Qed.

(** Whatever the store holds, the factory never hands out a controller
    for these types on the legacy backend: it always raises. *)
Lemma create_controller_apt_never_returns (env : DeviceManager.Env)
    (f : DeviceManager.File) (serial channel : Z) (backend : option string)
    (ty : string) :
  Controllers.get_controller_type serial = Py.Return (Some ty) ->
  ty = "KBD101" \/ ty = "KIM101" ->
  match backend with
  | None => DeviceManager.get_available_backend env
  | Some b => Py.Return b
  end = Py.Return "apt" ->
  exists e, DeviceManager.create_controller env f serial channel backend = Py.Raise e.
Proof.
  intros Hty Hkind Hbackend.
  assert (Hs : Controllers.supports_apt ty = false).
  { destruct Hkind as [-> | ->]; apply supports_apt_brushless_inertial. }
  unfold DeviceManager.create_controller. rewrite Hty. cbn [Py.obind].
  rewrite Hbackend. cbn [Py.obind].
  destruct (DeviceManager.get_device_channel_config env f serial channel) as [cc|e];
    cbn [Py.obind]; [|now exists e].
  match goal with
  | |- exists e, Py.obind ?stage _ = _ => destruct stage as [[sc w]|e]
  end; cbn [Py.obind]; [|now exists e].
  rewrite (_create_apt_controller_unsupported _ _ _ _ Hs).
  change (String.eqb "apt" "kinesis") with false. cbn. now eexists.
Qed.

Lemma apt_backend_rejects_brushless_and_inertial_witness :
  DeviceManager.create_controller
    {| DeviceManager.kinesis_available := false; DeviceManager.apt_available := true;
       DeviceManager.read_fails := false; DeviceManager.write := DeviceManager.WriteOk |}
    None 97000001 1 None
  = Py.Raise Py.ConfigurationError.
Proof.
  refine (proj2 (proj2 (apt_backend_rejects_brushless_and_inertial
                          _ None 97000001 1 None "KIM101" Json.Null _ _ _ _ _))).
  - vm_compute. reflexivity.
  - right. reflexivity.
  - reflexivity.
  - vm_compute. reflexivity.
  - reflexivity.
Defined.

Example create_controller_kinesis_inertial :
  exists c,
    DeviceManager.create_controller
      {| DeviceManager.kinesis_available := true; DeviceManager.apt_available := false;
         DeviceManager.read_fails := false; DeviceManager.write := DeviceManager.WriteOk |}
      None 97000001 2 None
    = Py.Return (c, []) /\ DeviceManager.cls c = DeviceManager.KIM101Controller.
Proof. eexists. split; [vm_compute; reflexivity|reflexivity]. Qed.

(** ** The serial-number prefix (controllers.py) *)

Section DecimalPrefix.
Local Open Scope N_scope.

Lemma pretty_N_go_app (x : N) (s : string) :
  pretty_N_go x s = pretty_N_go x EmptyString +:+ s.
Proof.
  revert s. induction (N.lt_wf_0 x) as [x _ IH]; intros s.
  destruct (N.eq_dec x 0) as [->|Hx].
  - now rewrite !pretty_N_go_0.
  - rewrite !(pretty_N_go_step x) by lia.
    rewrite (IH (x `div` 10)) by (apply N.div_lt; lia).
    rewrite (IH (x `div` 10) ltac:(apply N.div_lt; lia) (String _ EmptyString)).
    now rewrite string_app_assoc.
Qed.

Lemma pretty_N_go_digit (d : N) :
  0 < d < 10 ->
  pretty_N_go d EmptyString = String (pretty_N_char d) EmptyString.
Proof.
  intros Hd. rewrite pretty_N_go_step by lia.
  rewrite N.div_small, N.mod_small by lia. apply pretty_N_go_0.
Qed.

Lemma pretty_N_go_two_digits (p : N) :
  10 <= p <= 99 ->
  pretty_N_go p EmptyString
  = String (pretty_N_char (p `div` 10))
           (String (pretty_N_char (p `mod` 10)) EmptyString).
Proof.
  intros Hp. rewrite pretty_N_go_step by lia. rewrite pretty_N_go_app.
  assert (0 < p `div` 10 < 10).
  { split; [apply N.div_str_pos; lia|apply N.Div0.div_lt_upper_bound; lia]. }
  now rewrite pretty_N_go_digit.
Qed.

(** The decimal text of a number in the block of [p] starts with the
    two digits of [p]. *)
Lemma pretty_N_go_leading (k : nat) :
  forall p r : N,
    10 <= p <= 99 -> r < 10 ^ N.of_nat k ->
    exists rest,
      pretty_N_go (p * 10 ^ N.of_nat k + r) EmptyString
      = String (pretty_N_char (p `div` 10))
               (String (pretty_N_char (p `mod` 10)) rest).
Proof.
  induction k as [|k IH]; intros p r Hp Hr.
  - cbn in Hr. assert (r = 0) as -> by lia.
    exists EmptyString. rewrite N.mul_1_r, N.add_0_r.
    now apply pretty_N_go_two_digits.
  - rewrite Nat2N.inj_succ, N.pow_succ_r' in *.
    set (x := p * (10 * 10 ^ N.of_nat k) + r).
    assert (Hdiv : x `div` 10 = p * 10 ^ N.of_nat k + r `div` 10).
    { unfold x. replace (p * (10 * 10 ^ N.of_nat k) + r)
        with (r + (p * 10 ^ N.of_nat k) * 10) by lia.
      rewrite N.div_add by lia. lia. }
    assert (Hpos : 0 < x) by (unfold x; nia).
    rewrite pretty_N_go_step by exact Hpos. rewrite pretty_N_go_app, Hdiv.
    destruct (IH p (r `div` 10) Hp) as [rest Hrest].
    { apply N.Div0.div_lt_upper_bound. lia. }
    rewrite Hrest. eexists. reflexivity.
Qed.

End DecimalPrefix.

Lemma digit_value_pretty_N_char (d : N) :
  (d < 10)%N ->
  Py.digit_value (pretty_N_char d) = Some (Z.of_N d)
  /\ Ascii.eqb (pretty_N_char d) "-"%char = false.
Proof.
  intros Hd.
  assert (d = 0 \/ d = 1 \/ d = 2 \/ d = 3 \/ d = 4 \/ d = 5 \/ d = 6
          \/ d = 7 \/ d = 8 \/ d = 9)%N as Hcases by lia.
  repeat (destruct Hcases as [->|Hcases]; [split; reflexivity|]).
  subst d. split; reflexivity.
Qed.

Lemma int_two_digits (hi lo : N) (rest : string) :
  (hi < 10)%N -> (lo < 10)%N ->
  Py.int (Py.slice2 (String (pretty_N_char hi) (String (pretty_N_char lo) rest)))
  = Py.Return (10 * Z.of_N hi + Z.of_N lo).
Proof.
  intros Hhi Hlo.
  destruct (digit_value_pretty_N_char hi Hhi) as [Hd1 Hm1].
  destruct (digit_value_pretty_N_char lo Hlo) as [Hd2 _].
  assert (Hslice : Py.slice2 (String (pretty_N_char hi) (String (pretty_N_char lo) rest))
                   = String (pretty_N_char hi) (String (pretty_N_char lo) EmptyString)).
  { unfold Py.slice2. cbn. destruct rest; reflexivity. }
  rewrite Hslice. unfold Py.int. rewrite Hm1.
  cbn [Py.parse_digits]. rewrite Hd1. cbn [Py.parse_digits]. rewrite Hd2.
  cbn [Py.parse_digits]. f_equal; lia.
Qed.

Lemma serial_prefix_leading (serial p : Z) :
  Controllers.leading_two_digits serial p ->
  Controllers.serial_prefix serial = Py.Return p.
Proof.
  intros [Hp [k [Hlo Hhi]]].
  assert (Hk : 0 < 10 ^ Z.of_nat k) by (apply Z.pow_pos_nonneg; lia).
  assert (Hpos : 0 < serial) by nia.
  destruct serial as [|q|q]; try lia.
  set (r := Z.pos q - p * 10 ^ Z.of_nat k).
  destruct (pretty_N_go_leading k (Z.to_N p) (Z.to_N r)) as [rest Hrest].
  { lia. }
  { unfold r. apply N2Z.inj_lt. rewrite Z2N.id by lia.
    rewrite N2Z.inj_pow, nat_N_Z. cbn [Z.of_N]. lia. }
  assert (Harg : (Z.to_N p * 10 ^ N.of_nat k + Z.to_N r)%N = N.pos q).
  { apply N2Z.inj. rewrite N2Z.inj_add, N2Z.inj_mul, N2Z.inj_pow, nat_N_Z.
    rewrite !Z2N.id by (unfold r; lia). cbn [Z.of_N]. unfold r. lia. }
  rewrite Harg in Hrest.
  unfold Controllers.serial_prefix, Py.str.
  change (pretty (Z.pos q)) with (pretty_N_go (N.pos q) EmptyString).
  rewrite Hrest, int_two_digits.
  - f_equal. rewrite <- (Z2N.id p) at 3 by lia.
    rewrite (N.div_mod (Z.to_N p) 10) at 3 by lia.
    rewrite N2Z.inj_add, N2Z.inj_mul. reflexivity.
  - apply N.Div0.div_lt_upper_bound. lia.
  - apply N.mod_lt. lia.
Qed.

Lemma unregistered_prefix (p : Z) :
  p ∉ Controllers.registered_prefixes ->
  Controllers._PREFIX_TO_CONTROLLER !! p = None.
Proof.
  intros Hp. unfold Controllers._PREFIX_TO_CONTROLLER. cbn.
  unfold Controllers.registered_prefixes in Hp.
  rewrite !lookup_insert_ne; [apply lookup_empty|..];
    intros <-; apply Hp; repeat constructor.
Qed.

Lemma pretty_N_go_first (x : N) :
  (0 < x)%N ->
  exists d rest,
    (d < 10)%N
    /\ pretty_N_go x EmptyString = String (pretty_N_char d) rest
    /\ ((x < 10)%N -> d = x /\ rest = EmptyString)
    /\ ((10 <= x)%N -> exists d2 rest2,
          (d2 < 10)%N /\ rest = String (pretty_N_char d2) rest2).
Proof.
  induction (N.lt_wf_0 x) as [x _ IH]; intros Hx.
  destruct (N.lt_ge_cases x 10) as [Hsmall|Hbig].
  - exists x, EmptyString. rewrite pretty_N_go_digit by lia.
    repeat split; try lia; try reflexivity.
  - rewrite pretty_N_go_step by lia. rewrite pretty_N_go_app.
    destruct (IH (x `div` 10)%N) as (d & rest & Hd & Hgo & Hlt & Hge).
    { apply N.div_lt; lia. }
    { apply N.div_str_pos; lia. }
    exists d, (rest +:+ String (pretty_N_char (x `mod` 10)) EmptyString).
    rewrite Hgo. repeat split; try lia; try reflexivity.
    intros _. destruct (N.lt_ge_cases (x `div` 10) 10) as [Hs|Hb].
    + destruct (Hlt Hs) as [_ ->]. exists (x `mod` 10)%N, EmptyString.
      split; [apply N.mod_lt; lia|reflexivity].
    + destruct (Hge Hb) as (d2 & rest2 & Hd2 & ->).
      exists d2, (rest2 +:+ String (pretty_N_char (x `mod` 10)) EmptyString).
      split; [exact Hd2|reflexivity].
Qed.

Lemma int_one_digit (d : N) :
  (d < 10)%N ->
  Py.int (String (pretty_N_char d) EmptyString) = Py.Return (Z.of_N d)
  /\ Py.int (String "-"%char (String (pretty_N_char d) EmptyString))
     = Py.Return (- Z.of_N d).
Proof.
  intros Hd. destruct (digit_value_pretty_N_char d Hd) as [Hv Hm].
  unfold Py.int. rewrite Hm. cbn [Ascii.eqb Py.parse_digits]. rewrite Hv.
  cbn. split; reflexivity.
Qed.

(** The lookup never raises: every [int] has a parsable prefix; serials
    below ten and negative serials have no registered prefix. *)
Lemma get_controller_type_total (serial : Z) :
  exists t, Controllers.get_controller_type serial = Py.Return t.
Proof.
  unfold Controllers.get_controller_type, Controllers.serial_prefix, Py.str.
  destruct serial as [|q|q].
  - eexists. vm_compute. reflexivity.
  - change (pretty (Z.pos q)) with (pretty_N_go (N.pos q) EmptyString).
    destruct (pretty_N_go_first (N.pos q)) as (d & rest & Hd & Hgo & Hlt & Hge); [lia|].
    rewrite Hgo. destruct (N.lt_ge_cases (N.pos q) 10) as [Hs|Hb].
    + destruct (Hlt Hs) as [_ ->].
      change (Py.slice2 (String (pretty_N_char d) EmptyString))
        with (String (pretty_N_char d) EmptyString).
      rewrite (proj1 (int_one_digit d Hd)). eexists. reflexivity.
    + destruct (Hge Hb) as (d2 & rest2 & Hd2 & ->).
      rewrite int_two_digits by assumption. eexists. reflexivity.
  - change (pretty (Z.neg q))
      with (String "-"%char (pretty_N_go (N.pos q) EmptyString)).
    destruct (pretty_N_go_first (N.pos q)) as (d & rest & Hd & Hgo & _); [lia|].
    rewrite Hgo.
    assert (Hslice : Py.slice2 (String "-"%char (String (pretty_N_char d) rest))
                     = String "-"%char (String (pretty_N_char d) EmptyString)).
    { unfold Py.slice2. cbn. destruct rest; reflexivity. }
    rewrite Hslice, (proj2 (int_one_digit d Hd)). eexists. reflexivity.
Qed.

(** For a serial whose prefix is not registered the lookup returns
    Python's [None]; it does not return a string such as ["unknown"]
    (callers test the result for falsity). *)
Lemma get_controller_type_unmatched_is_None :
  Controllers.get_controller_type 12345678 = Py.Return None
  /\ Controllers.get_controller_type 12345678 <> Py.Return (Some "unknown").
Proof. split; [vm_compute; reflexivity|]. vm_compute. discriminate. Qed.

(** C4 (amended). The looked-up type depends on the serial only through
    its two leading decimal digits: two serials with the same leading
    digits [p] get the same answer, namely the entry of the prefix map at
    [p], and the answer is [None] (no type) when [p] is not a registered
    prefix. *)
Theorem get_controller_type_prefix_function :
  forall serial1 serial2 p : Z,
    Controllers.leading_two_digits serial1 p ->
    Controllers.leading_two_digits serial2 p ->
    Controllers.get_controller_type serial1 = Controllers.get_controller_type serial2
    /\ Controllers.get_controller_type serial1
       = Py.Return (Controllers._PREFIX_TO_CONTROLLER !! p)
    /\ (p ∉ Controllers.registered_prefixes ->
        Controllers.get_controller_type serial1 = Py.Return None).
Proof.
  intros serial1 serial2 p H1 H2.
  unfold Controllers.get_controller_type.
  rewrite (serial_prefix_leading _ _ H1), (serial_prefix_leading _ _ H2).
  cbn [Py.obind]. split; [reflexivity|]. split; [reflexivity|].
  intros Hp. now rewrite unregistered_prefix.
Qed.

Example get_controller_type_doc1 :
  Controllers.get_controller_type 27123456 = Py.Return (Some "KDC101").
Proof. vm_compute. reflexivity. Qed.

Example get_controller_type_doc2 :
  Controllers.get_controller_type 97654321 = Py.Return (Some "KIM101").
Proof. vm_compute. reflexivity. Qed.

Example get_controller_type_negative :
  Controllers.get_controller_type (-27123456) = Py.Return None.
Proof. vm_compute. reflexivity. Qed.

Lemma get_controller_type_prefix_function_witness :
  Controllers.get_controller_type 27123456 = Controllers.get_controller_type 2700
  /\ Controllers.get_controller_type 27123456 = Py.Return (Some "KDC101")
  /\ Controllers.get_controller_type 12345678 = Py.Return None.
Proof.
  assert (H1 : Controllers.leading_two_digits 27123456 27).
  { split; [lia|]. exists 6%nat. cbn. lia. }
  assert (H2 : Controllers.leading_two_digits 2700 27).
  { split; [lia|]. exists 2%nat. cbn. lia. }
  assert (H3 : Controllers.leading_two_digits 12345678 12).
  { split; [lia|]. exists 6%nat. cbn. lia. }
  destruct (get_controller_type_prefix_function 27123456 2700 27 H1 H2)
    as (Hsame & Hval & _).
  destruct (get_controller_type_prefix_function 12345678 12345678 12 H3 H3)
    as (_ & _ & Hnone).
  split; [exact Hsame|]. split; [rewrite Hval; vm_compute; reflexivity|].
  apply Hnone. unfold Controllers.registered_prefixes. intros Hin.
  repeat (apply elem_of_cons in Hin as [Hin|Hin]; [discriminate|]).
  now apply elem_of_nil in Hin.
Defined.

(** ** Saving the configuration (device_manager.py) *)

Definition healthy_env : DeviceManager.Env :=
  {| DeviceManager.kinesis_available := true; DeviceManager.apt_available := false;
     DeviceManager.read_fails := false; DeviceManager.write := DeviceManager.WriteOk |}.

Definition disk_full_env (k : nat) : DeviceManager.Env :=
  {| DeviceManager.kinesis_available := true; DeviceManager.apt_available := false;
     DeviceManager.read_fails := false;
     DeviceManager.write := DeviceManager.DiskFullAfter k |}.

Definition sample_config : Json.t :=
  Json.Dict
    [("_version", Json.Str "1.0");
     ("controllers",
      Json.Dict
        [("27123456",
          Json.Dict
            [("channels",
              Json.Dict
                [("1", Json.Dict [("stage", Json.Str "PRM1Z8");
                                  ("role", Json.Null);
                                  ("linked_group", Json.Null)])])])])].

(** The file after the store's own successful save of [sample_config]. *)
Definition sample_file : DeviceManager.File :=
  (DeviceManager.save_device_config healthy_env sample_config None).2.

(** Crash safety of one save: a file that parsed before still parses
    after it, whatever happened during the write. *)
Definition keeps_file_parsable (env : DeviceManager.Env) (config : Json.t)
    (f : DeviceManager.File) : Prop :=
  (exists text j, f = Some text /\ Json.loads text = Some j) ->
  exists text' j',
    (DeviceManager.save_device_config env config f).2 = Some text'
    /\ Json.loads text' = Some j'.

Example sample_file_round_trip :
  DeviceManager.load_device_config healthy_env sample_file = sample_config.
Proof. vm_compute. reflexivity. Qed.

(** The file is parsable after the store's own save of [sample_config];
    a second save of the same document that finds the medium full (the
    file is truncated by [open] and nothing can be written) returns
    [False] and leaves an empty file, which does not parse, so the next
    load yields the empty default instead of the document. *)
Lemma save_device_config_not_crash_safe :
  ~ keeps_file_parsable (disk_full_env 0) sample_config sample_file
  /\ (DeviceManager.save_device_config (disk_full_env 0) sample_config sample_file).1
     = false
  /\ DeviceManager.load_device_config healthy_env
       (DeviceManager.save_device_config (disk_full_env 0) sample_config sample_file).2
     = DeviceManager.default_config.
Proof.
  split; [|split; vm_compute; reflexivity].
  intros Hsafe. destruct Hsafe as (text' & j' & Hfile & Hparse).
  - eexists. exists sample_config. split; [reflexivity|]. vm_compute. reflexivity.
  - vm_compute in Hfile. injection Hfile as <-. vm_compute in Hparse. discriminate.
Qed.

(** An empty file is rejected by the parser whatever its fuel. *)
Lemma parse_value_empty (fuel : nat) : Json.parse_value fuel EmptyString = None.
Proof. destruct fuel; reflexivity. Qed.

(** C3 (amended). The save is an in-place overwrite, not an atomic
    replacement.  If it returns [True] the file holds exactly the new
    document.  If it returns [False] the file is either untouched (the
    directory could not be made or the file not opened) or holds only a
    proper prefix of the new document, the earlier content being gone;
    and whenever the content left behind does not parse, the next load
    degrades to the empty default configuration. *)
Theorem save_device_config_overwrites_in_place :
  forall (env : DeviceManager.Env) (config : Json.t) (f f' : DeviceManager.File)
         (ok : bool),
    DeviceManager.save_device_config env config f = (ok, f') ->
    (ok = true -> f' = Some (Json.dumps config))
    /\ (ok = false ->
        f' = f
        \/ exists k, DeviceManager.write env = DeviceManager.DiskFullAfter k
                     /\ (k < String.length (Json.dumps config))%nat
                     /\ f' = Some (String.substring 0 k (Json.dumps config)))
    /\ (forall text env',
           f' = Some text -> Json.loads text = None ->
           DeviceManager.load_device_config env' f' = DeviceManager.default_config).
Proof.
  intros env config f f' ok Hsave. unfold DeviceManager.save_device_config in Hsave.
  split; [|split].
  - intros ->. destruct (DeviceManager.write env) as [| | |k]; try congruence.
    destruct (String.length (Json.dumps config) <=? k)%nat; congruence.
  - intros ->. destruct (DeviceManager.write env) as [| | |k] eqn:Hw; try congruence.
    + left. congruence.
    + left. congruence.
    + destruct (String.length (Json.dumps config) <=? k)%nat eqn:Hk; [congruence|].
      right. exists k. apply Nat.leb_gt in Hk. repeat split; [exact Hk|congruence].
  - intros text env' -> Hparse. unfold DeviceManager.load_device_config.
    rewrite Hparse. now destruct (DeviceManager.read_fails env').
Qed.

Lemma save_device_config_overwrites_in_place_witness :
  exists k, (k < String.length (Json.dumps sample_config))%nat
            /\ (DeviceManager.save_device_config (disk_full_env 0) sample_config
                  sample_file).2
               = Some (String.substring 0 k (Json.dumps sample_config)).
Proof.
  destruct (save_device_config_overwrites_in_place
              (disk_full_env 0) sample_config sample_file
              (DeviceManager.save_device_config (disk_full_env 0) sample_config
                 sample_file).2
              false ltac:(vm_compute; reflexivity)) as (_ & Hfail & _).
  destruct (Hfail eq_refl) as [Hsame | (k & Hw & Hk & Hfile)].
  - vm_compute in Hsame. discriminate.
  - exists k. split; [exact Hk|exact Hfile].
Defined.

(** ** Stage auto-detection (gui.py) *)

Lemma has_assigned_stage_inv (cfg : Json.t) (key : string) :
  Gui.has_assigned_stage cfg key = true ->
  exists kvs chans entry v,
    cfg = Json.Dict kvs
    /\ Json.assoc_get kvs "channels" = Some (Json.Dict chans)
    /\ Json.assoc_get chans key = Some (Json.Dict entry)
    /\ Json.assoc_get entry "stage" = Some v
    /\ Json.truthy v = true.
Proof.
  unfold Gui.has_assigned_stage, Gui.stage_at. intros H.
  destruct cfg as [| | | | |kvs]; try discriminate.
  destruct (Json.assoc_get kvs "channels") as [[| | | | |chans]|] eqn:Hc; try discriminate.
  destruct (Json.assoc_get chans key) as [[| | | | |entry]|] eqn:He; try discriminate.
  destruct (Json.assoc_get entry "stage") as [v|] eqn:Hs; try discriminate.
  now exists kvs, chans, entry, v.
Qed.

(** With a stage already assigned, the body under [if stage_name:] reads
    the configuration and writes nothing. *)
Lemma record_detected_assigned (env : DeviceManager.Env) (serial channel : Z)
    (stage_name : string) (cfg : Json.t) (f : DeviceManager.File) :
  Gui.has_assigned_stage cfg (Py.str channel) = true ->
  Gui.record_detected env serial channel stage_name (cfg, f) = (Py.Return tt, (cfg, f)).
Proof.
  intros Hassigned.
  destruct (has_assigned_stage_inv _ _ Hassigned)
    as (kvs & chans & entry & v & -> & Hc & He & Hs & Hv).
  assert (Hne : Json.truthy (Json.Dict kvs) = true).
  { destruct kvs; [discriminate Hc|reflexivity]. }
  unfold Gui.record_detected.
  rewrite (bind_Return _ _ _ tt (Json.Dict kvs, f)).
  2:{ unfold Gui.ensure_config, Gui.get_config, Py.bind, Py.gets. cbn [fst].
      now rewrite Hne. }
  rewrite (bind_Return _ _ _ tt (Json.Dict kvs, f)).
  2:{ unfold Gui.ensure_channels, Gui.get_config, Py.bind, Py.gets, Py.lift.
      cbn [fst Json.contains_key]. rewrite Hc. reflexivity. }
  rewrite (bind_Return _ _ _ tt (Json.Dict kvs, f)).
  2:{ unfold Gui.ensure_entry, Gui.get_config, Py.bind, Py.gets, Py.lift.
      cbn [fst Json.getitem]. rewrite Hc. cbn [Json.contains_key]. rewrite He.
      reflexivity. }
  rewrite (bind_Return _ _ _ v (Json.Dict kvs, f)).
  2:{ unfold Gui.current_stage, Gui.get_config, Py.bind, Py.gets, Py.lift.
      cbn [fst Json.getitem]. rewrite Hc. cbn [Json.getitem]. rewrite He.
      cbn [Json.get]. rewrite Hs. reflexivity. }
  now rewrite Hv.
Qed.

(** *** The other channels of the device *)

Lemma assoc_get_set_eq kvs k v : Json.assoc_get (Json.assoc_set kvs k v) k = Some v.
Proof.
  induction kvs as [|[k' v'] rest IH]; cbn.
  - now rewrite String.eqb_refl.
  - destruct (String.eqb k' k) eqn:Hk; cbn; rewrite Hk; [reflexivity|exact IH].
Qed.

Lemma assoc_get_set_ne kvs k k' v :
  k <> k' -> Json.assoc_get (Json.assoc_set kvs k v) k' = Json.assoc_get kvs k'.
Proof.
  intros Hne. induction kvs as [|[k0 v0] rest IH]; cbn.
  - destruct (String.eqb k k') eqn:Hk; [|reflexivity].
    apply String.eqb_eq in Hk. contradiction.
  - destruct (String.eqb k0 k) eqn:Hk; cbn.
    + apply String.eqb_eq in Hk. subst k0.
      destruct (String.eqb k k') eqn:Hk'; [|reflexivity].
      apply String.eqb_eq in Hk'. contradiction.
    + now rewrite IH.
Qed.

Section OtherChannels.
Variables (key' : string) (v : Json.t).
Hypothesis v_truthy : Json.truthy v = true.

(** The channel [key'] of the in-memory configuration holds [v]. *)
Definition holds (w : Gui.World) : Prop := Gui.stage_at w.1 key' = Some v.

Definition keeps {A} (m : Py.M Gui.World A) : Prop :=
  forall w, holds w -> holds (m w).2.

Lemma keeps_bind_at {A B} (m : Py.M Gui.World A) (k : A -> Py.M Gui.World B) :
  keeps m ->
  (forall a w0 w, holds w0 -> m w0 = (Py.Return a, w) -> holds w -> holds (k a w).2) ->
  keeps (Py.bind m k).
Proof.
  intros Hm Hk w0 Hw0. unfold Py.bind. specialize (Hm w0 Hw0).
  destruct (m w0) as [[a|e] w1] eqn:Hmw; [|exact Hm].
  now apply (Hk a w0 w1).
Qed.

Lemma keeps_bind {A B} (m : Py.M Gui.World A) (k : A -> Py.M Gui.World B) :
  keeps m -> (forall a, keeps (k a)) -> keeps (Py.bind m k).
Proof.
  intros Hm Hk. apply keeps_bind_at; [exact Hm|].
  intros a w0 w _ _ Hw. now apply Hk.
Qed.

Lemma holds_inv (w : Gui.World) :
  holds w ->
  exists kvs chans entry,
    w.1 = Json.Dict kvs
    /\ Json.assoc_get kvs "channels" = Some (Json.Dict chans)
    /\ Json.assoc_get chans key' = Some (Json.Dict entry)
    /\ Json.assoc_get entry "stage" = Some v.
Proof.
  unfold holds, Gui.stage_at. destruct w as [cfg f]. cbn [fst]. intros H.
  destruct cfg as [| | | | |kvs]; try discriminate.
  destruct (Json.assoc_get kvs "channels") as [[| | | | |chans]|] eqn:Hc; try discriminate.
  destruct (Json.assoc_get chans key') as [[| | | | |entry]|] eqn:He; try discriminate.
  now exists kvs, chans, entry.
Qed.

Lemma keeps_ensure_config : keeps Gui.ensure_config.
Proof.
  intros w Hw. destruct (holds_inv w Hw) as (kvs & chans & entry & Hcfg & Hc & _).
  unfold Gui.ensure_config, Gui.get_config, Py.bind, Py.gets. rewrite Hcfg.
  destruct kvs; [discriminate Hc|]. exact Hw.
Qed.

Lemma keeps_ensure_channels : keeps Gui.ensure_channels.
Proof.
  intros w Hw. destruct (holds_inv w Hw) as (kvs & chans & entry & Hcfg & Hc & _).
  unfold Gui.ensure_channels, Gui.get_config, Py.bind, Py.gets, Py.lift.
  rewrite Hcfg. cbn [Json.contains_key]. rewrite Hc. exact Hw.
Qed.

Lemma keeps_ensure_entry key : keeps (Gui.ensure_entry key).
Proof.
  intros w Hw.
  destruct (holds_inv w Hw) as (kvs & chans & entry & Hcfg & Hc & He & Hs).
  unfold Gui.ensure_entry, Gui.get_config, Py.bind, Py.gets, Py.lift, Gui.set_config,
    Py.modify.
  rewrite Hcfg. cbn [Json.getitem]. rewrite Hc. cbn [Json.contains_key].
  case_bool_decide as Hpresent; [exact Hw|]. cbn [Json.setitem snd fst].
  assert (Hne : key <> key').
  { intros ->. apply Hpresent. now rewrite He. }
  unfold holds, Gui.stage_at. cbn [fst].
  now rewrite assoc_get_set_eq, (assoc_get_set_ne _ _ _ _ Hne), He.
Qed.

Lemma current_stage_same (w : Gui.World) :
  holds w -> Gui.current_stage key' w = (Py.Return v, w).
Proof.
  intros Hw. destruct (holds_inv w Hw) as (kvs & chans & entry & Hcfg & Hc & He & Hs).
  unfold Gui.current_stage, Gui.get_config, Py.bind, Py.gets, Py.lift.
  rewrite Hcfg. cbn [Json.getitem]. rewrite Hc. cbn [Json.getitem]. rewrite He.
  cbn [Json.get]. now rewrite Hs.
Qed.

Lemma current_stage_reads key (w : Gui.World) : (Gui.current_stage key w).2 = w.
Proof.
  unfold Gui.current_stage, Gui.get_config, Py.bind, Py.gets, Py.lift.
  destruct (Json.getitem w.1 "channels") as [chans|]; [|reflexivity].
  destruct (Json.getitem chans key) as [entry|]; [|reflexivity].
  destruct (Json.get entry "stage" (Json.Str EmptyString)); reflexivity.
Qed.

Lemma keeps_assign_stage key stage_name :
  key <> key' -> keeps (Gui.assign_stage key stage_name).
Proof.
  intros Hne w Hw.
  destruct (holds_inv w Hw) as (kvs & chans & entry & Hcfg & Hc & He & Hs).
  unfold Gui.assign_stage, Gui.get_config, Py.bind, Py.gets, Py.lift, Gui.set_config,
    Py.modify.
  rewrite Hcfg. cbn [Json.getitem]. rewrite Hc. cbn [Json.getitem].
  destruct (Json.assoc_get chans key) as [e|]; [|exact Hw].
  destruct e as [| | | | |ekvs]; try exact Hw. cbn [Json.setitem snd fst].
  unfold holds, Gui.stage_at. cbn [fst].
  now rewrite assoc_get_set_eq, (assoc_get_set_ne _ _ _ _ Hne), He.
Qed.

Lemma keeps_save_detected env serial : keeps (Gui.save_detected env serial).
Proof.
  intros w Hw. unfold Gui.save_detected.
  match goal with |- holds (match ?o with _ => _ end).2 => destruct o end;
    [|exact Hw].
  exact Hw.
Qed.

Lemma keeps_record_detected env serial channel stage_name :
  keeps (Gui.record_detected env serial channel stage_name).
Proof.
  unfold Gui.record_detected.
  apply keeps_bind; [apply keeps_ensure_config|intros _].
  apply keeps_bind; [apply keeps_ensure_channels|intros _].
  apply keeps_bind; [apply keeps_ensure_entry|intros _].
  apply keeps_bind_at.
  { intros w Hw. now rewrite current_stage_reads. }
  intros current w0 w Hw0 Hcur Hw.
  destruct (Json.truthy current) eqn:Htruthy; [exact Hw|].
  assert (Hne : Py.str channel <> key').
  { intros Heq. rewrite Heq, (current_stage_same w0 Hw0) in Hcur.
    injection Hcur as <- _. congruence. }
  clear Hcur. revert w Hw.
  apply keeps_bind; [now apply keeps_assign_stage|intros _].
  apply keeps_save_detected.
Qed.

End OtherChannels.

(** No channel of [device.config] loses an assigned stage to a detection,
    be it the detected channel or another one of the same device. *)
Lemma auto_detect_keeps_every_assignment (env : DeviceManager.Env)
    (device : Gui.DeviceInfo) (f : DeviceManager.File) (key : string) (v : Json.t) :
  Gui.stage_at (Gui.config device) key = Some v ->
  Json.truthy v = true ->
  Gui.stage_at (Gui._try_auto_detect_stage env device f).1 key = Some v.
Proof.
  intros Hstage Hv. unfold Gui._try_auto_detect_stage.
  destruct (Gui.controller device) as [c|]; [|exact Hstage].
  destruct (negb (Gui.has_device_attr c)); [exact Hstage|].
  destruct (Gui._device c) as [kd|]; [|exact Hstage].
  destruct (Gui.GetDeviceInfo kd) as [[|]|]; try exact Hstage.
  destruct (Gui.nonempty (Gui.settings_name_of kd)); [|exact Hstage].
  destruct (Gui.match_stage (Gui.settings_name_of kd)) as [stage_name|]; [|exact Hstage].
  now apply (keeps_record_detected key v Hv).
Qed.


(** A device on channel 1 whose backend reports the stage name [name]. *)
Definition reporting_device (cfg : Json.t) (name : string) : Gui.DeviceInfo :=
  {| Gui.serial := 27123456; Gui.config := cfg;
     Gui.controller :=
       Some {| Gui.has_device_attr := true;
               Gui._device :=
                 Some {| Gui.GetDeviceInfo := Py.Return true;
                         Gui.DeviceSettingsName := Py.Return name;
                         Gui.Notes := Py.Raise Py.BackendError;
                         Gui.Name := Py.Return EmptyString |};
               Gui.channel := 1 |} |}.

Definition assigned_config (stage : string) : Json.t :=
  Json.Dict [("channels", Json.Dict [("1", Json.Dict [("stage", Json.Str stage)])])].


(** Without an assignment the detected stage is recorded and saved. *)
Example auto_detect_records_when_unassigned :
  let result :=
    Gui._try_auto_detect_stage healthy_env
      (reporting_device Json.Null "DDS100/M") None in
  result.1 = assigned_config "DDS100"
  /\ DeviceManager.get_device_channel_config healthy_env result.2 27123456 1
     = Py.Return (Json.Dict [("stage", Json.Str "DDS100")]).
Proof. vm_compute. split; reflexivity. Qed.

(** ** Disconnecting (kinesis/kdc101.py, kinesis/kim101.py, apt/motor.py) *)

(** The registered observer, if any, returns normally when handed [st]. *)
Definition observer_returns {D} (s : Base.Session D) (st : Base.ControllerState) : Prop :=
  match Base._on_state_change s with
  | Some observer => observer st = None
  | None => True
  end.

(** [n] consecutive calls of a method, each made whatever the previous one
    did: the outcomes in call order and the final session. *)
Fixpoint calls {D} (method : Py.M (Base.Session D) unit) (n : nat) (s : Base.Session D)
  : list (Py.outcome unit) * Base.Session D :=
  match n with
  | O => ([], s)
  | S n' =>
      let '(r, s1) := method s in
      let '(rs, s2) := calls method n' s1 in
      (r :: rs, s2)
  end.

(** What one call of a [disconnect] achieves. *)
Definition disconnects {D} (method : Py.M (Base.Session D) unit) : Prop :=
  forall s : Base.Session D,
    Base.state (method s).2 = Base.DISCONNECTED
    /\ Base._device (method s).2 = None
    /\ Base._on_state_change (method s).2 = Base._on_state_change s
    /\ (observer_returns s Base.DISCONNECTED -> (method s).1 = Py.Return tt)
    /\ (Base._device s = None -> method s = Base._set_state Base.DISCONNECTED s).

Lemma _set_state_spec {D} (st : Base.ControllerState) (s : Base.Session D) :
  Base.state (Base._set_state st s).2 = st
  /\ Base._device (Base._set_state st s).2 = Base._device s
  /\ Base._on_state_change (Base._set_state st s).2 = Base._on_state_change s
  /\ (observer_returns s st -> (Base._set_state st s).1 = Py.Return tt).
Proof.
  unfold Base._set_state, observer_returns.
  destruct s as [serial channel st0 cfg [observer|] seen dev steps]; cbn;
    repeat split; try tauto; try (now intros ->).
Qed.

(** A computation that touches nothing but the backend handle. *)
Definition only_device {D A} (m : Py.M (Base.Session D) A) : Prop :=
  forall s, exists d', (m s).2 = Base.with_device d' s.

Lemma with_device_twice {D} (d1 d2 : option D) (s : Base.Session D) :
  Base.with_device d2 (Base.with_device d1 s) = Base.with_device d2 s.
Proof. reflexivity. Qed.

Lemma with_device_same {D} (s : Base.Session D) :
  Base.with_device (Base._device s) s = s.
Proof. now destruct s. Qed.

Lemma only_device_call {D A} (op : Py.M D A) : only_device (Base.call op).
Proof.
  intros s. unfold Base.call. destruct (Base._device s) as [d|] eqn:Hd.
  - destruct (op d) as [r d']. now exists (Some d').
  - exists None. cbn. now rewrite <- Hd, with_device_same.
Qed.

Lemma only_device_bind {D A B} (m : Py.M (Base.Session D) A)
    (k : A -> Py.M (Base.Session D) B) :
  only_device m -> (forall a, only_device (k a)) -> only_device (Py.bind m k).
Proof.
  intros Hm Hk s. unfold Py.bind. destruct (Hm s) as [d1 H1].
  destruct (m s) as [[a|e] s1]; cbn in H1; subst s1.
  - destruct (Hk a (Base.with_device d1 s)) as [d2 H2].
    exists d2. now rewrite H2, with_device_twice.
  - now exists d1.
Qed.

(** [try: teardown except Exception: pass], then [self._device = None]:
    whatever the teardown does or throws, the handle is dropped and
    nothing is raised. *)
Lemma teardown_absorbed {D} (teardown : Py.M (Base.Session D) unit) (s : Base.Session D) :
  only_device teardown ->
  Py.bind (Py.try_except teardown (fun _ => Py.ret tt))
          (fun _ => Py.modify (Base.with_device None)) s
  = (Py.Return tt, Base.with_device None s).
Proof.
  intros Hframe. unfold Py.bind, Py.try_except, Py.modify, Py.ret.
  destruct (Hframe s) as [d' Hd']. destruct (teardown s) as [[[]|e] s1];
    cbn in Hd'; subst s1; reflexivity.
Qed.

Lemma disconnect_shape {D} (teardown : Py.M (Base.Session D) unit) (s : Base.Session D) :
  only_device teardown ->
  Py.bind Base.has_device
    (fun present =>
       Py.bind (if present : bool
                then Py.bind (Py.try_except teardown (fun _ => Py.ret tt))
                             (fun _ => Py.modify (Base.with_device None))
                else Py.ret tt)
               (fun _ => Base._set_state Base.DISCONNECTED)) s
  = Base._set_state Base.DISCONNECTED (Base.with_device None s).
Proof.
  intros Hframe. unfold Py.bind at 1, Base.has_device, Py.gets.
  destruct (Base._device s) as [d|] eqn:Hd.
  - change (bool_decide (is_Some (Some d))) with true. cbn iota.
    unfold Py.bind at 1. now rewrite teardown_absorbed.
  - change (bool_decide (is_Some (@None D))) with false. cbn iota.
    unfold Py.bind, Py.ret. now rewrite <- Hd, with_device_same.
Qed.

Lemma disconnects_of_shape {D} (method : Py.M (Base.Session D) unit) :
  (forall s, method s = Base._set_state Base.DISCONNECTED (Base.with_device None s)) ->
  disconnects method.
Proof.
  intros Hshape s. rewrite Hshape.
  destruct (_set_state_spec Base.DISCONNECTED (Base.with_device None s))
    as (Hst & Hdev & Hobs & Hret).
  repeat split; try assumption.
  intros Hnone. now rewrite <- Hnone, with_device_same.
Qed.

Lemma KDC101_disconnect_disconnects {D} `{KDC101.KCubeDCServo D} :
  disconnects (KDC101.disconnect (D := D)).
Proof.
  apply disconnects_of_shape. intros s. apply disconnect_shape.
  apply only_device_bind; [apply only_device_call|intros _; apply only_device_call].
Qed.

Lemma KIM101_disconnect_disconnects {D} `{KIM101.KCubeInertialMotor D} :
  disconnects (KIM101.disconnect (D := D)).
Proof.
  apply disconnects_of_shape. intros s. apply disconnect_shape.
  apply only_device_bind; [apply only_device_call|intros _; apply only_device_call].
Qed.

Lemma APT_disconnect_disconnects {D} `{APT.APTMotor D} :
  disconnects (APT.disconnect (D := D)).
Proof.
  apply disconnects_of_shape. intros s. apply disconnect_shape.
  apply only_device_call.
Qed.

Lemma calls_disconnected {D} (method : Py.M (Base.Session D) unit) :
  disconnects method ->
  forall (n : nat) (s : Base.Session D),
    (1 <= n)%nat ->
    Base.state (calls method n s).2 = Base.DISCONNECTED
    /\ Base._device (calls method n s).2 = None
    /\ (observer_returns s Base.DISCONNECTED ->
        Forall (fun r => r = Py.Return tt) (calls method n s).1).
Proof.
  intros Hd n. induction n as [|n IH]; intros s Hn; [lia|].
  cbn [calls]. destruct (Hd s) as (Hst & Hdev & Hobs & Hret & _).
  destruct (method s) as [r s1] eqn:Hm. cbn [fst snd] in *.
  destruct n as [|n'].
  - cbn. repeat split; try assumption. intros Hq. constructor; [now apply Hret|constructor].
  - destruct (IH s1 ltac:(lia)) as (IHst & IHdev & IHret).
    destruct (calls method (S n') s1) as [rs s2]. cbn [fst snd] in *.
    repeat split; try assumption. intros Hq. constructor; [now apply Hret|].
    apply IHret. unfold observer_returns in *. now rewrite Hobs.
Qed.

(** The attributes of the controller object, the record of past
    notifications left aside. *)
Definition same_attributes {D} (s s' : Base.Session D) : Prop :=
  Base.serial_number s' = Base.serial_number s
  /\ Base.channel s' = Base.channel s
  /\ Base.state s' = Base.state s
  /\ Base._stage_config s' = Base._stage_config s
  /\ Base._on_state_change s' = Base._on_state_change s
  /\ Base._device s' = Base._device s
  /\ Base._step_count s' = Base._step_count s.

Lemma _set_state_same {D} (s : Base.Session D) :
  same_attributes s (Base._set_state (Base.state s) s).2.
Proof.
  unfold Base._set_state, same_attributes.
  destruct s as [serial channel st0 cfg [observer|] seen dev steps]; cbn;
    repeat split; reflexivity.
Qed.

(** What [n] consecutive calls of a [disconnect] on the session [s]
    come to. *)
Definition disconnect_contract {D} (method : Py.M (Base.Session D) unit)
    (n : nat) (s : Base.Session D) : Prop :=
  Base.state (calls method n s).2 = Base.DISCONNECTED
  /\ Base._device (calls method n s).2 = None
  /\ (observer_returns s Base.DISCONNECTED ->
      Forall (fun r => r = Py.Return tt) (calls method n s).1)
  /\ (Base.state s = Base.DISCONNECTED -> Base._device s = None ->
      method s = Base._set_state Base.DISCONNECTED s
      /\ same_attributes s (method s).2).

Lemma disconnects_contract {D} (method : Py.M (Base.Session D) unit) :
  disconnects method ->
  forall (n : nat) (s : Base.Session D),
    (1 <= n)%nat -> disconnect_contract method n s.
Proof.
  intros Hd n s Hn.
  destruct (calls_disconnected _ Hd n s Hn) as (Hst & Hdev & Hret).
  split; [exact Hst|]. split; [exact Hdev|]. split; [exact Hret|].
  intros Hstate Hnone.
  destruct (Hd s) as (_ & _ & _ & _ & Hshape).
  rewrite (Hshape Hnone). split; [reflexivity|].
  rewrite <- Hstate. apply _set_state_same.
Qed.


(** A connected session whose backend throws on every teardown call. *)
Definition faulty_session : Base.Session Sim.Servo :=
  Sim.connected 27123456 1 Sim.faulty_servo.


Example disconnect_three_times :
  (calls KDC101.disconnect 3 faulty_session).1
  = [Py.Return tt; Py.Return tt; Py.Return tt].
Proof. vm_compute. reflexivity. Qed.

(** ** Relative moves (kinesis/kdc101.py, apt/motor.py) *)

(** The registered observer, if any, never raises. *)
Definition quiet {D} (s : Base.Session D) : Prop :=
  forall st, observer_returns s st.

(** A computation that leaves the registered observer in place. *)
Definition keeps_observer {D A} (m : Py.M (Base.Session D) A) : Prop :=
  forall s, Base._on_state_change (m s).2 = Base._on_state_change s.

Lemma keeps_observer_bind {D A B} (m : Py.M (Base.Session D) A)
    (k : A -> Py.M (Base.Session D) B) :
  keeps_observer m -> (forall a, keeps_observer (k a)) -> keeps_observer (Py.bind m k).
Proof.
  intros Hm Hk s. unfold Py.bind. specialize (Hm s).
  destruct (m s) as [[a|e] s1]; cbn [snd] in *; [|exact Hm].
  now rewrite Hk.
Qed.

Lemma keeps_observer_set_state {D} st : keeps_observer (Base._set_state (D := D) st).
Proof. intros s. apply _set_state_spec. Qed.

Lemma keeps_observer_call {D A} (op : Py.M D A) : keeps_observer (Base.call op).
Proof.
  intros s. destruct (only_device_call op s) as [d' ->]. reflexivity.
Qed.

Lemma keeps_observer_ret {D A} (a : A) : keeps_observer (Py.ret (S := Base.Session D) a).
Proof. intros s. reflexivity. Qed.

Lemma keeps_observer_raise {D A} e :
  keeps_observer (Py.raise (S := Base.Session D) (A := A) e).
Proof. intros s. reflexivity. Qed.

Lemma keeps_observer_wait {D} `{KDC101.KCubeDCServo D} (remaining : nat) :
  keeps_observer (KDC101.wait_while_moving (D := D) remaining).
Proof.
  induction remaining as [|r IH]; cbn [KDC101.wait_while_moving];
    (apply keeps_observer_bind; [apply keeps_observer_call|]);
    intros [|]; try apply keeps_observer_ret; try apply keeps_observer_raise.
  apply keeps_observer_bind; [intros s; reflexivity|intros _; exact IH].
Qed.

(** The shape shared by the motion commands: a body under [try], ended by
    [_set_state(CONNECTED); return True], and the handler
    [_set_state(ERROR); raise MovementError]. *)
Lemma guarded_move_outcome {D} (body : Py.M (Base.Session D) unit)
    (s s' : Base.Session D) (r : Py.outcome bool) :
  keeps_observer body -> quiet s ->
  Py.try_except
    (Py.bind body (fun _ =>
     Py.bind (Base._set_state Base.CONNECTED) (fun _ => Py.ret true)))
    (fun _ => Py.bind (Base._set_state Base.ERROR)
                      (fun _ => Py.raise Py.MovementError)) s = (r, s') ->
  (r = Py.Return true /\ Base.state s' = Base.CONNECTED)
  \/ (r = Py.Raise Py.MovementError /\ Base.state s' = Base.ERROR).
Proof.
  intros Hbody Hquiet. unfold Py.try_except, Py.bind.
  pose proof (Hbody s) as Hobs.
  assert (Hquiet1 : quiet (body s).2).
  { intros st. unfold observer_returns. rewrite Hobs. apply Hquiet. }
  destruct (body s) as [[[]|e] s1]; cbn [snd] in *.
  - destruct (_set_state_spec Base.CONNECTED s1) as (Hst & _ & _ & Hret).
    specialize (Hret (Hquiet1 _)).
    destruct (Base._set_state Base.CONNECTED s1) as [r0 s2]. cbn [fst snd] in *.
    subst r0. unfold Py.ret. intros [= <- <-]. left. now split.
  - destruct (_set_state_spec Base.ERROR s1) as (Hst & _ & _ & Hret).
    specialize (Hret (Hquiet1 _)).
    destruct (Base._set_state Base.ERROR s1) as [r0 s2]. cbn [fst snd] in *.
    subst r0. unfold Py.raise. intros [= <- <-]. right. now split.
Qed.

Lemma try_except_ext {S A} (b1 b2 : Py.M S A) handler s :
  (forall s0, b1 s0 = b2 s0) ->
  Py.try_except b1 handler s = Py.try_except b2 handler s.
Proof. intros Hb. unfold Py.try_except. now rewrite Hb. Qed.

(** Without a handle the method returns [False] at once. *)
Lemma KDC101_move_relative_without_handle {D} `{KDC101.KCubeDCServo D}
    (distance : Q) (wait : bool) (timeout : nat) (s : Base.Session D) :
  Base._device s = None ->
  KDC101.move_relative distance wait timeout s = (Py.Return false, s).
Proof.
  intros Hnone. unfold KDC101.move_relative, Py.bind at 1, Base.has_device, Py.gets.
  now rewrite Hnone.
Qed.

Lemma KDC101_move_relative_with_handle {D} `{KDC101.KCubeDCServo D}
    (distance : Q) (timeout : nat) (s s' : Base.Session D) (r : Py.outcome bool) :
  Base._device s <> None -> quiet s ->
  KDC101.move_relative distance true timeout s = (r, s') ->
  (r = Py.Return true /\ Base.state s' = Base.CONNECTED)
  \/ (r = Py.Raise Py.MovementError /\ Base.state s' = Base.ERROR).
Proof.
  intros Hsome Hquiet.
  unfold KDC101.move_relative, Py.bind at 1, Base.has_device, Py.gets.
  destruct (Base._device s) as [d|] eqn:Hd; [|contradiction].
  change (negb (bool_decide (is_Some (Some d)))) with false. cbn iota.
  set (body := Py.bind (Base._set_state Base.MOVING) (fun _ =>
               Py.bind (Base.call (KDC101.MoveRelative
                          (if Qlt_le_dec 0 distance then KDC101.Forward
                           else KDC101.Backward)
                          (Qabs distance) (100 * Z.of_nat timeout))) (fun _ =>
               KDC101.wait_while_moving (Datatypes.S timeout)))).
  erewrite try_except_ext.
  - apply (guarded_move_outcome body); [|exact Hquiet].
    unfold body. apply keeps_observer_bind; [apply keeps_observer_set_state|intros _].
    apply keeps_observer_bind; [apply keeps_observer_call|intros _].
    apply keeps_observer_wait.
  - intros s0. unfold body, Py.bind.
    destruct (Base._set_state Base.MOVING s0) as [[[]|e1] s1]; [|reflexivity].
    destruct (Base.call _ s1) as [[[]|e2] s2]; reflexivity.
Qed.

Lemma APT_move_relative_with_handle {D} `{APT.APTMotor D}
    (distance : Q) (wait : bool) (timeout : nat) (s s' : Base.Session D)
    (r : Py.outcome bool) :
  Base._device s <> None -> quiet s ->
  APT.move_relative distance wait timeout s = (r, s') ->
  (r = Py.Return true /\ Base.state s' = Base.CONNECTED)
  \/ (r = Py.Raise Py.MovementError /\ Base.state s' = Base.ERROR).
Proof.
  intros Hsome Hquiet.
  unfold APT.move_relative, Py.bind at 1, Base.has_device, Py.gets.
  destruct (Base._device s) as [d|] eqn:Hd; [|contradiction].
  change (negb (bool_decide (is_Some (Some d)))) with false. cbn iota.
  set (body := Py.bind (Base._set_state Base.MOVING) (fun _ =>
               Base.call (APT.motor_move_relative distance wait timeout))).
  erewrite try_except_ext.
  - apply (guarded_move_outcome body); [|exact Hquiet].
    unfold body. apply keeps_observer_bind; [apply keeps_observer_set_state|intros _].
    apply keeps_observer_call.
  - intros s0. unfold body, Py.bind.
    destruct (Base._set_state Base.MOVING s0) as [[[]|e1] s1]; reflexivity.
Qed.

(** *** On the simulated servo *)

Definition servo_at (p : Q) (busy lag : nat) : Sim.Servo :=
  {| Sim.pos := p; Sim.busy := busy; Sim.lag := lag; Sim.refuses_moves := false;
     Sim.teardown_throws := false |}.

Definition servo_session (st : Base.ControllerState) (d : Sim.Servo)
  : Base.Session Sim.Servo :=
  Base.with_state st (Base.with_device (Some d) (Base.init 27123456 1)).

Lemma wait_while_moving_settles (busy : nat) :
  forall (remaining : nat) (st : Base.ControllerState) (p : Q) (lag : nat),
    (busy <= remaining)%nat ->
    KDC101.wait_while_moving remaining (servo_session st (servo_at p busy lag))
    = (Py.Return tt, servo_session st (servo_at p 0 lag)).
Proof.
  induction busy as [|b IH]; intros remaining st p lag Hle.
  - destruct remaining; reflexivity.
  - destruct remaining as [|r]; [lia|].
    cbn [KDC101.wait_while_moving].
    rewrite (bind_Return _ _ _ true (servo_session st (servo_at p (S b) lag)))
      by reflexivity.
    cbn iota.
    rewrite (bind_Return _ _ _ tt (servo_session st (servo_at p b lag))) by reflexivity.
    apply IH. lia.
Qed.

(** On a servo that executes moves exactly and settles within the
    timeout, the relative move returns [True] and the position read
    afterwards is the start position plus the distance. *)
Lemma ideal_servo_reaches_target (distance p : Q) (timeout lag : nat) :
  (lag <= S timeout)%nat ->
  exists p',
    KDC101.move_relative distance true timeout
      (servo_session Base.CONNECTED (servo_at p 0 lag))
    = (Py.Return true, servo_session Base.CONNECTED (servo_at p' 0 lag))
    /\ (KDC101.get_position (servo_session Base.CONNECTED (servo_at p' 0 lag))).1
       = Py.Return p'
    /\ (p' == p + distance)%Q.
Proof.
  intros Hlag.
  assert (Hrun : forall delta dir,
             (if Qlt_le_dec 0 distance then KDC101.Forward else KDC101.Backward) = dir ->
             delta = match dir with
                     | KDC101.Forward => Qabs distance
                     | KDC101.Backward => (- Qabs distance)%Q
                     end ->
             KDC101.move_relative distance true timeout
               (servo_session Base.CONNECTED (servo_at p 0 lag))
             = (Py.Return true,
                servo_session Base.CONNECTED (servo_at (p + delta) 0 lag))).
  { intros delta dir Hdir ->. unfold KDC101.move_relative.
    rewrite (bind_Return _ _ _ true (servo_session Base.CONNECTED (servo_at p 0 lag)))
      by reflexivity.
    cbn [negb]. apply try_except_Return.
    rewrite (bind_Return _ _ _ tt (servo_session Base.MOVING (servo_at p 0 lag)))
      by reflexivity.
    cbn zeta. rewrite Hdir.
    erewrite bind_Return; cycle 1.
    { unfold Base.call. cbn. reflexivity. }
    erewrite bind_Return; cycle 1.
    { apply (wait_while_moving_settles lag (S timeout) Base.MOVING _ lag Hlag). }
    reflexivity. }
  destruct (Qlt_le_dec 0 distance) as [Hpos|Hneg].
  - exists (p + Qabs distance)%Q. split; [now apply (Hrun _ KDC101.Forward)|].
    split; [reflexivity|].
    rewrite Qabs_pos by (apply Qlt_le_weak; exact Hpos). reflexivity.
  - exists (p + - Qabs distance)%Q. split; [now apply (Hrun _ KDC101.Backward)|].
    split; [reflexivity|].
    rewrite Qabs_neg by exact Hneg. ring.
Qed.

(** *** The property of the specification, and where it fails *)

(** "Either the position ends at [p + d] or [MovementError] is raised." *)
Definition reaches_target_or_raises {D} `{KDC101.KCubeDCServo D}
    (distance : Q) (timeout : nat) (s : Base.Session D) : Prop :=
  (KDC101.move_relative distance true timeout s).1 = Py.Raise Py.MovementError
  \/ exists p p',
       (KDC101.get_position s).1 = Py.Return p
       /\ (KDC101.get_position (KDC101.move_relative distance true timeout s).2).1
          = Py.Return p'
       /\ (p' == p + distance)%Q.

(** A controller object that was never connected. *)
Definition never_connected : Base.Session Sim.Servo := Base.init 27123456 1.


Lemma APT_move_relative_without_handle {D} `{APT.APTMotor D}
    (distance : Q) (wait : bool) (timeout : nat) (s : Base.Session D) :
  Base._device s = None ->
  APT.move_relative distance wait timeout s = (Py.Return false, s).
Proof.
  intros Hnone. unfold APT.move_relative, Py.bind at 1, Base.has_device, Py.gets.
  now rewrite Hnone.
Qed.

(** What a relative move that ran from [s] to the outcome [r] and the
    session [s'] has done. *)
Definition move_contract {D} (s s' : Base.Session D) (r : Py.outcome bool) : Prop :=
  (Base._device s = None -> r = Py.Return false /\ s' = s)
  /\ (Base._device s <> None ->
      (r = Py.Return true /\ Base.state s' = Base.CONNECTED)
      \/ (r = Py.Raise Py.MovementError /\ Base.state s' = Base.ERROR)).


Lemma quiet_without_observer {D} (s : Base.Session D) :
  Base._on_state_change s = None -> quiet s.
Proof. intros Hnone st. unfold observer_returns. now rewrite Hnone. Qed.

(** A move of 1.5 units on a servo that settles after three polls. *)
Definition sample_move : Py.outcome bool * Base.Session Sim.Servo :=
  KDC101.move_relative (3 # 2) true 5 (servo_session Base.CONNECTED (servo_at 0 0 3)).

(** The same call on a controller that was never connected. *)
Definition declined_move : Py.outcome bool * Base.Session Sim.Servo :=
  KDC101.move_relative 1 true 600 never_connected.


Example move_relative_times_out :
  (KDC101.move_relative (3 # 2) true 5
     (servo_session Base.CONNECTED (servo_at 0 0 7))).1
  = Py.Raise Py.MovementError.
Proof. vm_compute. reflexivity. Qed.

(** ** Relative moves of the inertial variant (base.py, kinesis/kim101.py) *)

(** The conversion in [InertialController.move_relative]: for a positive
    step size the method ends in the call
    [self.jog(direction, floor(|distance| / step_size))], with direction
    [1] for a positive distance and [-1] otherwise. *)
Lemma InertialController_move_relative_conversion {D}
    (jog : Base.method (Base.Session D) bool) (distance : Q) (wait : bool)
    (timeout : nat) (s : Base.Session D) :
  (0 < Base.step_size_of s)%Q ->
  Base.InertialController_move_relative jog distance wait timeout s
  = jog [if Qlt_le_dec 0 distance then 1 else -1;
         Qfloor (Qabs distance / Base.step_size_of s)] s.
Proof.
  intros Hstep. unfold Base.InertialController_move_relative, Py.bind, Py.gets.
  assert (Hne : Qeq_bool (Base.step_size_of s) 0 = false).
  { destruct (Qeq_bool (Base.step_size_of s) 0) eqn:Heq; [|reflexivity].
    apply Qeq_bool_eq in Heq. rewrite Heq in Hstep. now apply Qlt_irrefl in Hstep. }
  rewrite Hne. unfold Base.int_of_float.
  assert (Hnonneg : Qle_bool 0 (Qabs distance / Base.step_size_of s) = true).
  { apply Qle_bool_iff. apply Qle_shift_div_l; [exact Hstep|].
    rewrite Qmult_0_l. apply Qabs_nonneg. }
  now rewrite Hnonneg.
Qed.

(** A subclass whose [jog] follows the abstract signature receives the
    converted step command. *)
Example conforming_jog_receives_steps :
  Base.InertialController_move_relative
    (Base.def2 1 (fun direction steps s =>
                    (Py.Return true, Base.with_step_count (direction * steps) s)))
    (1 # 1000) true 600
    (Base.configure_stage (Stages.inertial_stage "mm" (Some 13%Q))
       (Sim.connected 97000001 1 ([] : Sim.Inertial)))
  = (Py.Return true,
     Base.with_step_count 50
       (Base.configure_stage (Stages.inertial_stage "mm" (Some 13%Q))
          (Sim.connected 97000001 1 ([] : Sim.Inertial)))).
Proof. vm_compute. reflexivity. Qed.

(** The KIM101 override [def jog(self, direction)] cannot be called with
    two positional arguments. *)
Lemma KIM101_jog_two_arguments {D} `{KIM101.KCubeInertialMotor D}
    (direction steps : Z) (s : Base.Session D) :
  Base.def1 KIM101.jog [direction; steps] s = (Py.Raise Py.TypeError, s).
Proof. reflexivity. Qed.

Lemma KIM101_move_relative_raises {D} `{KIM101.KCubeInertialMotor D}
    (distance : Q) (wait : bool) (timeout : nat) (s : Base.Session D) :
  (0 < Base.step_size_of s)%Q ->
  KIM101.move_relative distance wait timeout s = (Py.Raise Py.TypeError, s).
Proof.
  intros Hstep. unfold KIM101.move_relative.
  now rewrite InertialController_move_relative_conversion.
Qed.

(** A connected KIM101 channel with the PIA13 stage bound (step size
    0.00002) on the recording backend. *)
Definition pia13_session : Base.Session Sim.Inertial :=
  Base.configure_stage (Stages.inertial_stage "mm" (Some 13%Q))
    (Sim.connected 97000001 1 []).

(** C5. On the KIM101 controller with the PIA13 stage bound,
    [move_relative(0.001)] computes 50 steps forward but then raises
    [TypeError] at [self.jog(direction, steps)]: no jog reaches the
    backend (its command log stays empty) and the session is unchanged,
    where the claim has a jog of exactly 50 steps forward issued. *)
Theorem KIM101_move_relative_issues_no_jog :
  Qfloor (Qabs (1 # 1000) / Base.step_size_of pia13_session) = 50
  /\ KIM101.move_relative (1 # 1000) true 600 pia13_session
     = (Py.Raise Py.TypeError, pia13_session)
  /\ Base._device
       (KIM101.move_relative (1 # 1000) true 600 pia13_session).2 = Some [].
Proof.
  split; [vm_compute; reflexivity|].
  assert (Hrun : KIM101.move_relative (1 # 1000) true 600 pia13_session
                 = (Py.Raise Py.TypeError, pia13_session)).
  { apply KIM101_move_relative_raises. reflexivity. }
  split; [exact Hrun|]. now rewrite Hrun.
Qed.

(** * Further properties

    Properties of the registries, the configuration store, the factory,
    discovery and the controllers beyond the ones above. *)

(** ** The registries (controllers.py, stages.py) *)

Lemma CONTROLLERS_lookup (ty : string) (info : Controllers.ControllerInfo) :
  Controllers.CONTROLLERS !! ty = Some info
  <-> (ty, info) ∈ Controllers.CONTROLLERS_items.
Proof.
  unfold Controllers.CONTROLLERS. symmetry. apply elem_of_list_to_map.
  refine (bool_decide_unpack (NoDup _) _). vm_compute. exact I.
Qed.

Lemma STAGES_lookup (name : string) (info : Stages.StageInfo) :
  Stages.STAGES !! name = Some info <-> (name, info) ∈ Stages.STAGES_items.
Proof.
  unfold Stages.STAGES. symmetry. apply elem_of_list_to_map.
  refine (bool_decide_unpack (NoDup _) _). vm_compute. exact I.
Qed.

(** X1. The prefix map is the exact inverse of the descriptors' [prefix]
    field: it sends [p] to [ty] if and only if [ty] is a registered
    controller whose descriptor has prefix [p] (no two descriptors share
    a prefix, so the dict comprehension loses none). *)
Theorem prefix_map_inverts_descriptors :
  forall (p : Z) (ty : string),
    Controllers._PREFIX_TO_CONTROLLER !! p = Some ty
    <-> exists info, Controllers.get_controller_info ty = Some info
                     /\ Controllers.prefix info = p.
Proof.
  intros p ty. unfold Controllers.get_controller_info. split.
  - unfold Controllers._PREFIX_TO_CONTROLLER. cbn [foldl Controllers.CONTROLLERS_items].
    cbn [fst snd Controllers.prefix].
    rewrite !lookup_insert_Some, lookup_empty.
    intros H. repeat (destruct H as [[<- <-] | [_ H]];
                      [eexists; split; [vm_compute; reflexivity | reflexivity] |]).
    discriminate.
  - intros (info & Hinfo & <-). apply CONTROLLERS_lookup in Hinfo.
    unfold Controllers.CONTROLLERS_items in Hinfo.
    repeat (apply elem_of_cons in Hinfo as [Hinfo | Hinfo];
            [injection Hinfo as -> ->; vm_compute; reflexivity |]).
    now apply elem_of_nil in Hinfo.
Qed.

(** ** The controller factory (device_manager.py) *)



(** X3. A serial whose two leading digits are not a registered prefix is
    rejected with [ConfigurationError] before any backend is probed and
    before the store is read: the answer is the same with no backend
    installed, with an unreadable store and with any [backend] argument. *)
Theorem create_controller_rejects_unregistered_prefix :
  forall (env : DeviceManager.Env) (f : DeviceManager.File) (serial channel p : Z)
         (backend : option string),
    Controllers.leading_two_digits serial p ->
    p ∉ Controllers.registered_prefixes ->
    DeviceManager.create_controller env f serial channel backend
    = Py.Raise Py.ConfigurationError.
Proof.
  intros env f serial channel p backend Hlead Hp.
  unfold DeviceManager.create_controller, Controllers.get_controller_type.
  rewrite (serial_prefix_leading _ _ Hlead). cbn [Py.obind].
  now rewrite (unregistered_prefix _ Hp).
Qed.

Lemma create_controller_rejects_unregistered_prefix_witness :
  DeviceManager.create_controller
    {| DeviceManager.kinesis_available := false; DeviceManager.apt_available := false;
       DeviceManager.read_fails := true; DeviceManager.write := DeviceManager.OpenFails |}
    (Some "not json") 12345678 1 None
  = Py.Raise Py.ConfigurationError.
Proof.
  apply (create_controller_rejects_unregistered_prefix _ _ 12345678 1 12).
  - split; [lia|]. exists 6%nat. cbn. lia.
  - unfold Controllers.registered_prefixes. intros Hin.
    repeat (apply elem_of_cons in Hin as [Hin|Hin]; [discriminate|]).
    now apply elem_of_nil in Hin.
Defined.



(** ** Decimal text ([str] and [int] on integers) *)

Fixpoint all_digits (s : string) : Prop :=
  match s with
  | EmptyString => True
  | String c rest => is_Some (Py.digit_value c) /\ all_digits rest
  end.

(** The next character, if any, does not continue a number. *)
Definition ends_number (rest : string) : Prop :=
  match rest with
  | EmptyString => True
  | String c _ => Py.digit_value c = None
  end.

Lemma all_digits_app (s1 s2 : string) :
  all_digits s1 -> all_digits s2 -> all_digits (s1 +:+ s2).
Proof.
  induction s1 as [|c s1 IH]; cbn; [tauto|]. intros [Hc Hs1] Hs2. split; auto.
Qed.

Lemma parse_digits_app (s1 s2 : string) :
  forall acc,
    Py.parse_digits acc (s1 +:+ s2)
    = match Py.parse_digits acc s1 with
      | Some v => Py.parse_digits v s2
      | None => None
      end.
Proof.
  induction s1 as [|c s1 IH]; intros acc; [reflexivity|].
  change (String c s1 +:+ s2) with (String c (s1 +:+ s2)). cbn [Py.parse_digits].
  destruct (Py.digit_value c); [apply IH|reflexivity].
Qed.

Lemma pretty_N_go_snoc (x : N) :
  (0 < x)%N ->
  pretty_N_go x EmptyString
  = pretty_N_go (x `div` 10)%N EmptyString
      +:+ String (pretty_N_char (x `mod` 10)%N) EmptyString.
Proof. intros Hx. rewrite pretty_N_go_step by exact Hx. apply pretty_N_go_app. Qed.

Lemma pretty_N_go_digits (x : N) : all_digits (pretty_N_go x EmptyString).
Proof.
  induction (N.lt_wf_0 x) as [x _ IH].
  destruct (N.eq_dec x 0%N) as [->|Hx]; [exact I|].
  rewrite pretty_N_go_snoc by lia. apply all_digits_app.
  - apply IH, N.div_lt; lia.
  - split; [|exact I].
    destruct (digit_value_pretty_N_char (x `mod` 10)%N) as [-> _]; [|eexists; reflexivity].
    apply N.mod_lt. lia.
Qed.

Lemma parse_digits_pretty_N_go (x : N) :
  Py.parse_digits 0 (pretty_N_go x EmptyString) = Some (Z.of_N x).
Proof.
  induction (N.lt_wf_0 x) as [x _ IH].
  destruct (N.eq_dec x 0%N) as [->|Hx]; [reflexivity|].
  rewrite pretty_N_go_snoc by lia. rewrite parse_digits_app.
  rewrite IH by (apply N.div_lt; lia). cbn [Py.parse_digits].
  destruct (digit_value_pretty_N_char (x `mod` 10)%N) as [-> _].
  { apply N.mod_lt. lia. }
  f_equal. pose proof (N.div_mod x 10%N ltac:(lia)). lia.
Qed.

Lemma pretty_N_go_nonempty (x : N) :
  (0 < x)%N ->
  exists c rest,
    pretty_N_go x EmptyString = String c rest
    /\ is_Some (Py.digit_value c).
Proof.
  intros Hx. destruct (pretty_N_go_first x Hx) as (d & rest & Hd & Heq & _).
  exists (pretty_N_char d), rest. split; [exact Heq|].
  destruct (digit_value_pretty_N_char d Hd) as [-> _]. eexists; reflexivity.
Qed.

(** The decimal text of an integer: an optional sign and a non-empty
    run of digits that reads back as its magnitude. *)
Lemma str_shape (n : Z) :
  exists (neg : bool) (c : ascii) (ds : string),
    Py.str n = (if neg then String "-"%char (String c ds) else String c ds)
    /\ is_Some (Py.digit_value c) /\ all_digits ds
    /\ Py.parse_digits 0 (String c ds) = Some (Z.abs n)
    /\ neg = bool_decide (n < 0).
Proof.
  destruct n as [|p|p].
  - exists false, "0"%char, EmptyString. repeat split; try exact I. eexists; reflexivity.
  - destruct (pretty_N_go_nonempty (N.pos p)) as (c & ds & Heq & Hc); [lia|].
    exists false, c, ds.
    assert (Hstr : Py.str (Z.pos p) = String c ds) by exact Heq.
    pose proof (pretty_N_go_digits (N.pos p)) as Hall. rewrite Heq in Hall.
    pose proof (parse_digits_pretty_N_go (N.pos p)) as Hparse. rewrite Heq in Hparse.
    repeat split; [exact Hstr|exact Hc|apply Hall|exact Hparse].
  - destruct (pretty_N_go_nonempty (N.pos p)) as (c & ds & Heq & Hc); [lia|].
    exists true, c, ds.
    assert (Hstr : Py.str (Z.neg p) = String "-"%char (String c ds)).
    { change (Py.str (Z.neg p)) with ("-" +:+ pretty_N_go (N.pos p) EmptyString).
      now rewrite Heq. }
    pose proof (pretty_N_go_digits (N.pos p)) as Hall. rewrite Heq in Hall.
    pose proof (parse_digits_pretty_N_go (N.pos p)) as Hparse. rewrite Heq in Hparse.
    repeat split; [exact Hstr|exact Hc|apply Hall|exact Hparse].
Qed.

Lemma digit_not_minus (c : ascii) :
  is_Some (Py.digit_value c) -> Ascii.eqb c "-"%char = false.
Proof.
  intros [d Hd]. destruct (Ascii.eqb_spec c "-"%char) as [->|]; [discriminate|reflexivity].
Qed.

(** [int(str(n)) == n]. *)
Lemma int_str (n : Z) : Py.int (Py.str n) = Py.Return n.
Proof.
  destruct (str_shape n) as (neg & c & ds & -> & Hc & _ & Hparse & Hneg).
  unfold Py.int. destruct neg.
  - cbn [Ascii.eqb Bool.eqb]. cbn iota. rewrite Hparse.
    symmetry in Hneg. apply bool_decide_eq_true in Hneg. f_equal. lia.
  - rewrite (digit_not_minus c Hc). rewrite Hparse.
    symmetry in Hneg. apply bool_decide_eq_false in Hneg. f_equal. lia.
Qed.

(** ** The codec: reading back what [json.dump] wrote *)

Fixpoint blank (s : string) : Prop :=
  match s with
  | EmptyString => True
  | String c rest => Json.is_ws c = true /\ blank rest
  end.

Lemma skip_ws_blank (w s : string) : blank w -> Json.skip_ws (w +:+ s) = Json.skip_ws s.
Proof.
  induction w as [|c w IH]; [reflexivity|]. intros [Hc Hw].
  change (String c w +:+ s) with (String c (w +:+ s)). cbn [Json.skip_ws].
  rewrite Hc. now apply IH.
Qed.

Lemma skip_ws_head (c : ascii) (s : string) :
  Json.is_ws c = false -> Json.skip_ws (String c s) = String c s.
Proof. intros Hc. cbn [Json.skip_ws]. now rewrite Hc. Qed.

Lemma blank_spaces (n : nat) : blank (Json.spaces n).
Proof. induction n as [|n IH]; [exact I|]. split; [reflexivity|exact IH]. Qed.

Lemma blank_break (level : nat) : blank (Json.break level).
Proof. split; [reflexivity|apply blank_spaces]. Qed.

Lemma substring_all (s : string) : String.substring 0 (String.length s) s = s.
Proof. induction s as [|c s IH]; [reflexivity|]. cbn. now rewrite IH. Qed.

Lemma parse_string_body_escape (s rest : string) :
  Json.parse_string_body (Json.escape s +:+ String Json.dquote rest) = Some (s, rest).
Proof.
  induction s as [|c s IH].
  - reflexivity.
  - cbn [Json.escape].
    destruct (Ascii.eqb c Json.dquote) eqn:Hq; cbn [orb].
    + change (Json.parse_string_body
                (String Json.backslash
                   (String c (Json.escape s +:+ String Json.dquote rest)))
              = Some (String c s, rest)).
      cbn [Json.parse_string_body]. change (Ascii.eqb Json.backslash Json.dquote) with false.
      change (Ascii.eqb Json.backslash Json.backslash) with true. cbn iota.
      rewrite Hq. cbn [orb]. now rewrite IH.
    + destruct (Ascii.eqb c Json.backslash) eqn:Hb.
      * change (Json.parse_string_body
                  (String Json.backslash
                     (String c (Json.escape s +:+ String Json.dquote rest)))
                = Some (String c s, rest)).
        cbn [Json.parse_string_body]. change (Ascii.eqb Json.backslash Json.dquote) with false.
        change (Ascii.eqb Json.backslash Json.backslash) with true. cbn iota.
        rewrite Hq, Hb. cbn [orb]. now rewrite IH.
      * change (Json.parse_string_body
                  (String c (Json.escape s +:+ String Json.dquote rest))
                = Some (String c s, rest)).
        cbn [Json.parse_string_body]. rewrite Hq, Hb. now rewrite IH.
Qed.

Lemma quote_app (s rest : string) :
  Json.quote s +:+ rest = String Json.dquote (Json.escape s +:+ String Json.dquote rest).
Proof.
  unfold Json.quote.
  change (String Json.dquote ((Json.escape s +:+ String Json.dquote EmptyString) +:+ rest)
          = String Json.dquote (Json.escape s +:+ String Json.dquote rest)).
  now rewrite string_app_assoc.
Qed.

Lemma span_digits_app (ds rest : string) :
  all_digits ds -> ends_number rest -> Json.span_digits (ds +:+ rest) = (ds, rest).
Proof.
  intros Hds Hrest. induction ds as [|c ds IH].
  - destruct rest as [|c rest]; [reflexivity|].
    change (EmptyString +:+ String c rest) with (String c rest).
    cbn [Json.span_digits]. cbn [ends_number] in Hrest. now rewrite Hrest.
  - destruct Hds as [[d Hd] Hds].
    change (String c ds +:+ rest) with (String c (ds +:+ rest)). cbn [Json.span_digits].
    rewrite Hd, (IH Hds). reflexivity.
Qed.

Lemma parse_int_str (n : Z) (rest : string) :
  ends_number rest -> Json.parse_int (Py.str n +:+ rest) = Some (Json.Int n, rest).
Proof.
  intros Hrest.
  destruct (str_shape n) as (neg & c & ds & -> & Hc & Hds & Hparse & Hneg).
  unfold Json.parse_int. destruct neg.
  - change (String "-" (String c ds) +:+ rest) with (String "-"%char (String c ds +:+ rest)).
    cbn [Ascii.eqb Bool.eqb]. cbn iota.
    rewrite (span_digits_app (String c ds) rest) by (first [exact Hrest | split; assumption]).
    rewrite Hparse. symmetry in Hneg. apply bool_decide_eq_true in Hneg.
    do 3 f_equal. lia.
  - change (String c ds +:+ rest) with (String c (ds +:+ rest)).
    cbv beta iota. rewrite (digit_not_minus c Hc).
    change (String c (ds +:+ rest)) with (String c ds +:+ rest).
    rewrite (span_digits_app (String c ds) rest) by (first [exact Hrest | split; assumption]).
    rewrite Hparse. symmetry in Hneg. apply bool_decide_eq_false in Hneg.
    do 3 f_equal. lia.
Qed.

(** What a value's text can start with. *)
Definition opens_value (c : ascii) : Prop :=
  Json.is_ws c = false /\ Ascii.eqb c "]"%char = false /\ Ascii.eqb c "}"%char = false.

Lemma digit_opens_value (c : ascii) : is_Some (Py.digit_value c) -> opens_value c.
Proof.
  intros [d Hd]. unfold opens_value, Json.is_ws.
  repeat match goal with
         | |- context [Ascii.eqb c ?x] =>
             destruct (Ascii.eqb_spec c x) as [->|]; [discriminate Hd|]
         end.
  repeat split.
Qed.

Lemma dump_head (level : nat) (j : Json.t) :
  exists c r, Json.dump level j = String c r /\ opens_value c.
Proof.
  destruct j as [|[|]|n|s|[|x l]|[|kv kvs]];
    try (eexists _, _; split; [reflexivity|repeat split]).
  destruct (str_shape n) as ([|] & c & ds & Hstr & Hc & _).
  - eexists _, _. split; [exact Hstr|repeat split].
  - eexists _, _. split; [exact Hstr|now apply digit_opens_value].
Qed.

Section JsonInduction.
Variable P : Json.t -> Prop.
Hypothesis HNull : P Json.Null.
Hypothesis HBool : forall b, P (Json.Bool b).
Hypothesis HInt : forall n, P (Json.Int n).
Hypothesis HStr : forall s, P (Json.Str s).
Hypothesis HList : forall l, Forall P l -> P (Json.List l).
Hypothesis HDict : forall kvs, Forall (fun kv => P kv.2) kvs -> P (Json.Dict kvs).

Fixpoint json_ind (j : Json.t) : P j :=
  match j with
  | Json.Null => HNull
  | Json.Bool b => HBool b
  | Json.Int n => HInt n
  | Json.Str s => HStr s
  | Json.List l =>
      HList l ((fix all (l : list Json.t) : Forall P l :=
                  match l with
                  | [] => @List.Forall_nil _ P
                  | x :: r => @List.Forall_cons _ P x r (json_ind x) (all r)
                  end) l)
  | Json.Dict kvs =>
      HDict kvs ((fix all (kvs : list (string * Json.t))
                    : Forall (fun kv => P kv.2) kvs :=
                    match kvs with
                    | [] => @List.Forall_nil _ _
                    | (k, v) :: r =>
                        @List.Forall_cons _ (fun kv => P kv.2) (k, v) r (json_ind v) (all r)
                    end) kvs)
  end.

End JsonInduction.

(** Fuel that [parse_value] needs for the text of a document. *)
Fixpoint need (j : Json.t) : nat :=
  match j with
  | Json.List l => S (fold_right (fun x n => S (Nat.max (need x) n)) 0%nat l)
  | Json.Dict kvs => S (fold_right (fun kv n => S (Nat.max (need kv.2) n)) 0%nat kvs)
  | _ => 1%nat
  end.

Definition member (level : nat) (kv : string * Json.t) : string :=
  Json.quote kv.1 +:+ ": " +:+ Json.dump level kv.2.

Lemma dump_List (level : nat) (x : Json.t) (l : list Json.t) :
  Json.dump level (Json.List (x :: l))
  = "[" +:+ Json.break (S level)
        +:+ Py.join ("," +:+ Json.break (S level)) (map (Json.dump (S level)) (x :: l))
        +:+ Json.break level +:+ "]".
Proof. reflexivity. Qed.

Lemma dump_Dict (level : nat) (kv : string * Json.t) (kvs : list (string * Json.t)) :
  Json.dump level (Json.Dict (kv :: kvs))
  = "{" +:+ Json.break (S level)
        +:+ Py.join ("," +:+ Json.break (S level)) (map (member (S level)) (kv :: kvs))
        +:+ Json.break level +:+ "}".
Proof. reflexivity. Qed.

Lemma join_cons2 (sep a b : string) (l : list string) :
  Py.join sep (a :: b :: l) = a +:+ sep +:+ Py.join sep (b :: l).
Proof. reflexivity. Qed.

Lemma ws_not_digit (c : ascii) : Json.is_ws c = true -> Py.digit_value c = None.
Proof.
  unfold Json.is_ws.
  repeat match goal with
         | |- context [Ascii.eqb c ?x] =>
             destruct (Ascii.eqb_spec c x) as [->|]; [reflexivity|]
         end.
  discriminate.
Qed.

Lemma ends_number_blank (w : string) (c : ascii) (rest : string) :
  blank w -> Py.digit_value c = None -> ends_number (w +:+ String c rest).
Proof.
  destruct w as [|d w]; intros Hw Hc; [exact Hc|].
  destruct Hw as [Hd _]. now apply ws_not_digit.
Qed.

(** The text of one document, read by [parse_value]. *)
Definition reads_back (j : Json.t) : Prop :=
  forall (level fuel : nat) (w rest : string),
    blank w -> (need j <= fuel)%nat -> ends_number rest ->
    Json.parse_value fuel (w +:+ Json.dump level j +:+ rest) = Some (j, rest).

Lemma parse_elements_dump (l : list Json.t) :
  Forall reads_back l -> l <> [] ->
  forall (level fuel : nat) (w w' rest : string),
    blank w -> blank w' ->
    (fold_right (fun x n => S (Nat.max (need x) n)) 0%nat l <= fuel)%nat ->
    Json.parse_elements fuel
      (w +:+ Py.join ("," +:+ Json.break level) (map (Json.dump level) l)
         +:+ w' +:+ String "]" rest)
    = Some (l, rest).
Proof.
  induction 1 as [|x l Hx Hl IH]; [congruence|]. intros _ level fuel w w' rest Hw Hw' Hfuel.
  cbn [fold_right] in Hfuel. destruct fuel as [|fuel]; [lia|].
  destruct l as [|y r].
  - cbn [map Py.join Json.parse_elements].
    rewrite (Hx level fuel w (w' +:+ String "]" rest)); try assumption.
    + rewrite skip_ws_blank by exact Hw'. reflexivity.
    + cbn [fold_right] in Hfuel. lia.
    + now apply ends_number_blank.
  - change (map (Json.dump level) (x :: y :: r))
      with (Json.dump level x :: Json.dump level y :: map (Json.dump level) r).
    rewrite join_cons2.
    change (Json.dump level y :: map (Json.dump level) r)
      with (map (Json.dump level) (y :: r)).
    rewrite !string_app_assoc.
    change ("," +:+ Json.break level
                +:+ Py.join ("," +:+ Json.break level) (map (Json.dump level) (y :: r))
                +:+ w' +:+ String "]" rest)
      with (String ","%char
              (Json.break level
                 +:+ Py.join ("," +:+ Json.break level) (map (Json.dump level) (y :: r))
                 +:+ w' +:+ String "]" rest)).
    cbn [Json.parse_elements].
    rewrite (Hx level fuel w); try assumption; [|lia|reflexivity].
    rewrite skip_ws_head by reflexivity.
    change (Ascii.eqb "," ",") with true. cbn iota.
    rewrite (IH ltac:(discriminate) level fuel (Json.break level) w' rest);
      [reflexivity|apply blank_break|exact Hw'|lia].
Qed.

Lemma parse_members_dump (kvs : list (string * Json.t)) :
  Forall (fun kv => reads_back kv.2) kvs -> kvs <> [] ->
  forall (level fuel : nat) (w w' rest : string),
    blank w -> blank w' ->
    (fold_right (fun kv n => S (Nat.max (need kv.2) n)) 0%nat kvs <= fuel)%nat ->
    Json.parse_members fuel
      (w +:+ Py.join ("," +:+ Json.break level) (map (member level) kvs)
         +:+ w' +:+ String "}" rest)
    = Some (kvs, rest).
Proof.
  induction 1 as [|[k v] kvs Hv Hkvs IH]; [congruence|].
  intros _ level fuel w w' rest Hw Hw' Hfuel.
  cbn [fold_right snd] in Hfuel. cbn [snd] in Hv. destruct fuel as [|fuel]; [lia|].
  assert (Hhead : forall tail,
             ends_number tail ->
             Json.parse_members (S fuel) (w +:+ member level (k, v) +:+ tail)
             = match Json.skip_ws tail with
               | String c' r4 =>
                   if Ascii.eqb c' ","%char then
                     match Json.parse_members fuel r4 with
                     | Some (kvs, r5) => Some ((k, v) :: kvs, r5)
                     | None => None
                     end
                   else if Ascii.eqb c' "}"%char then Some ([(k, v)], r4)
                   else None
               | EmptyString => None
               end).
  { intros tail Htail. unfold member. cbn [fst snd]. rewrite !string_app_assoc, quote_app.
    cbn [Json.parse_members]. rewrite skip_ws_blank by exact Hw.
    rewrite skip_ws_head by reflexivity.
    change (Ascii.eqb Json.dquote Json.dquote) with true. cbn iota.
    rewrite parse_string_body_escape.
    change (": " +:+ Json.dump level v +:+ tail)
      with (String ":"%char (" " +:+ Json.dump level v +:+ tail)).
    rewrite skip_ws_head by reflexivity.
    change (Ascii.eqb ":" ":") with true. cbn iota.
    rewrite (Hv level fuel " " tail); [reflexivity| |lia|exact Htail].
    split; [reflexivity|exact I]. }
  destruct kvs as [|kv' r].
  - cbn [map Py.join].
    rewrite (Hhead (w' +:+ String "}" rest)) by now apply ends_number_blank.
    rewrite skip_ws_blank by exact Hw'. reflexivity.
  - change (map (member level) ((k, v) :: kv' :: r))
      with (member level (k, v) :: member level kv' :: map (member level) r).
    rewrite join_cons2.
    change (member level kv' :: map (member level) r)
      with (map (member level) (kv' :: r)).
    rewrite !string_app_assoc.
    change ("," +:+ Json.break level
                +:+ Py.join ("," +:+ Json.break level) (map (member level) (kv' :: r))
                +:+ w' +:+ String "}" rest)
      with (String ","%char
              (Json.break level
                 +:+ Py.join ("," +:+ Json.break level) (map (member level) (kv' :: r))
                 +:+ w' +:+ String "}" rest)).
    match goal with
    | |- Json.parse_members _ (w +:+ member level (k, v) +:+ ?tail) = _ =>
        rewrite (Hhead tail) by reflexivity
    end.
    rewrite skip_ws_head by reflexivity.
    change (Ascii.eqb "," ",") with true. cbn iota.
    rewrite (IH ltac:(discriminate) level fuel (Json.break level) w' rest);
      [reflexivity|apply blank_break|exact Hw'|lia].
Qed.

Lemma join_head (sep : string) (level : nat) (x : Json.t) (l : list Json.t) (tail : string) :
  exists c r,
    Py.join sep (map (Json.dump level) (x :: l)) +:+ tail = String c r
    /\ opens_value c.
Proof.
  destruct (dump_head level x) as (c & r & Hx & Hc).
  destruct l as [|y l]; cbn [map]; [cbn [Py.join]|rewrite join_cons2]; rewrite Hx.
  - exists c, (r +:+ tail). split; [reflexivity|exact Hc].
  - eexists c, _. split; [reflexivity|exact Hc].
Qed.

Lemma prefix_app (word rest : string) : String.prefix word (word +:+ rest) = true.
Proof.
  induction word as [|c word IH]; [now destruct rest|].
  change (String c word +:+ rest) with (String c (word +:+ rest)).
  cbn [String.prefix]. destruct (ascii_dec c c); [exact IH|contradiction].
Qed.

Lemma substring_app (word rest : string) :
  String.substring (String.length word)
    (String.length (word +:+ rest) - String.length word) (word +:+ rest)
  = rest.
Proof.
  induction word as [|c word IH].
  - cbn [String.length String.append]. rewrite Nat.sub_0_r. apply substring_all.
  - change (String c word +:+ rest) with (String c (word +:+ rest)).
    cbn [String.length String.substring Nat.sub]. exact IH.
Qed.

Lemma literal_app (word : string) (v : Json.t) (rest : string) :
  Json.literal word v (word +:+ rest) = Some (v, rest).
Proof. unfold Json.literal. now rewrite prefix_app, substring_app. Qed.

(** Decide the comparisons of two known characters. *)
Ltac known_chars :=
  repeat match goal with
         | |- context [Ascii.eqb ?a ?b] =>
             let v := eval vm_compute in (Ascii.eqb a b) in
             match v with
             | true => change (Ascii.eqb a b) with true
             | false => change (Ascii.eqb a b) with false
             end
         end;
  cbv beta iota.

(** Every document's text is read back by the parser. *)
Lemma parse_value_dump (j : Json.t) : reads_back j.
Proof.
  induction j as [|b|n|s|l IH|kvs IH] using json_ind;
    intros level fuel w rest Hw Hfuel Hrest;
    (destruct fuel as [|fuel]; [cbn in Hfuel; lia|]);
    cbn [Json.parse_value]; rewrite skip_ws_blank by exact Hw.
  - cbn [Json.dump]. change ("null" +:+ rest) with (String "n"%char ("ull" +:+ rest)).
    rewrite skip_ws_head by reflexivity. known_chars.
    apply (literal_app "null" Json.Null rest).
  - destruct b; cbn [Json.dump].
    + change ("true" +:+ rest) with (String "t"%char ("rue" +:+ rest)).
      rewrite skip_ws_head by reflexivity. known_chars.
      apply (literal_app "true" (Json.Bool true) rest).
    + change ("false" +:+ rest) with (String "f"%char ("alse" +:+ rest)).
      rewrite skip_ws_head by reflexivity. known_chars.
      apply (literal_app "false" (Json.Bool false) rest).
  - pose proof (parse_int_str n rest Hrest) as Hint. cbn [Json.dump].
    change (pretty n) with (Py.str n).
    destruct (str_shape n) as (neg & c & ds & Hstr & Hc & _). rewrite Hstr in Hint |- *.
    destruct neg.
    + change (String "-" (String c ds) +:+ rest)
        with (String "-"%char (String c ds +:+ rest)) in Hint |- *.
      rewrite skip_ws_head by reflexivity. exact Hint.
    + change (String c ds +:+ rest) with (String c (ds +:+ rest)) in Hint |- *.
      rewrite skip_ws_head by apply (digit_opens_value c Hc).
      destruct Hc as [d Hd].
      repeat match goal with
             | |- context [Ascii.eqb c ?x] =>
                 destruct (Ascii.eqb_spec c x) as [->|]; [discriminate Hd|]
             end.
      exact Hint.
  - cbn [Json.dump]. rewrite quote_app. rewrite skip_ws_head by reflexivity.
    change (Ascii.eqb Json.dquote Json.dquote) with true. cbn iota.
    now rewrite parse_string_body_escape.
  - destruct l as [|x l]; [reflexivity|].
    rewrite dump_List, !string_app_assoc.
    change ("]" +:+ rest) with (String "]"%char rest).
    set (body := Py.join _ _ +:+ _).
    change ("[" +:+ Json.break (S level) +:+ body)
      with (String "["%char (Json.break (S level) +:+ body)).
    rewrite skip_ws_head by reflexivity.
    change (Ascii.eqb "[" Json.dquote) with false.
    change (Ascii.eqb "[" "[") with true. cbn iota.
    rewrite skip_ws_blank by apply blank_break.
    destruct (join_head ("," +:+ Json.break (S level)) (S level) x l
                (Json.break level +:+ String "]" rest)) as (c & r & Hhead & Hc & Hc1 & Hc2).
    unfold body at 1. rewrite Hhead. rewrite skip_ws_head by exact Hc. rewrite Hc1.
    unfold body.
    rewrite (parse_elements_dump (x :: l) IH ltac:(discriminate) (S level) fuel
               (Json.break (S level)) (Json.break level) rest);
      [reflexivity|apply blank_break|apply blank_break|cbn [need] in Hfuel; lia].
  - destruct kvs as [|kv kvs]; [reflexivity|].
    rewrite dump_Dict, !string_app_assoc.
    change ("}" +:+ rest) with (String "}"%char rest).
    set (body := Py.join _ _ +:+ _).
    change ("{" +:+ Json.break (S level) +:+ body)
      with (String "{"%char (Json.break (S level) +:+ body)).
    rewrite skip_ws_head by reflexivity.
    change (Ascii.eqb "{" Json.dquote) with false.
    change (Ascii.eqb "{" "[") with false.
    change (Ascii.eqb "{" "{") with true. cbn iota.
    rewrite skip_ws_blank by apply blank_break.
    assert (Hhead : exists r, body = String Json.dquote r).
    { unfold body. destruct kvs as [|kv' kvs]; cbn [map]; [cbn [Py.join]|rewrite join_cons2];
        unfold member at 1; rewrite !string_app_assoc, quote_app; eexists; reflexivity. }
    destruct Hhead as [r Hhead]. rewrite Hhead at 1.
    rewrite skip_ws_head by reflexivity.
    change (Ascii.eqb Json.dquote "}") with false. cbn iota.
    unfold body.
    rewrite (parse_members_dump (kv :: kvs) IH ltac:(discriminate) (S level) fuel
               (Json.break (S level)) (Json.break level) rest);
      [reflexivity|apply blank_break|apply blank_break|cbn [need] in Hfuel; lia].
Qed.

(** *** Documents on which the codec is exact

    Text in printable ASCII is written by [json.dump] as it is modelled
    (only the quote and the backslash are escaped); a [dict] has no
    repeated key. *)

Definition printable (c : ascii) : bool :=
  ((32 <=? N_of_ascii c) && (N_of_ascii c <=? 126))%N.

Fixpoint ascii_text (s : string) : bool :=
  match s with
  | EmptyString => true
  | String c rest => printable c && ascii_text rest
  end.

Fixpoint storable (j : Json.t) : bool :=
  match j with
  | Json.Str s => ascii_text s
  | Json.List l => forallb storable l
  | Json.Dict kvs =>
      forallb (fun kv => ascii_text kv.1 && storable kv.2) kvs
      && bool_decide (NoDup kvs.*1)
  | _ => true
  end.

Lemma assoc_set_fresh (acc : list (string * Json.t)) (k : string) (v : Json.t) :
  k ∉ acc.*1 -> Json.assoc_set acc k v = acc ++ [(k, v)].
Proof.
  induction acc as [|[k' v'] acc IH]; intros Hk; [reflexivity|].
  cbn [Json.assoc_set]. cbn [fmap list_fmap fst] in Hk.
  apply not_elem_of_cons in Hk as [Hne Hk].
  destruct (String.eqb_spec k' k) as [->|_]; [contradiction|].
  cbn [fmap] in IH. now rewrite IH.
Qed.

Lemma fold_assoc_set (kvs : list (string * Json.t)) :
  forall acc,
    NoDup (acc.*1 ++ kvs.*1) ->
    Forall (fun kv => Json.normalize kv.2 = kv.2) kvs ->
    fold_left (fun acc kv => Json.assoc_set acc kv.1 (Json.normalize kv.2)) kvs acc
    = acc ++ kvs.
Proof.
  induction kvs as [|[k v] kvs IH]; intros acc Hnodup Hnorm.
  - now rewrite app_nil_r.
  - apply Forall_cons in Hnorm as [Hv Hnorm]. cbn [fold_left fst snd] in *.
    rewrite Hv. rewrite assoc_set_fresh.
    + rewrite IH; [now rewrite <- app_assoc|
                   rewrite fmap_app, <- app_assoc; exact Hnodup|exact Hnorm].
    + apply NoDup_app in Hnodup as (_ & Hdisj & _). intros Hin.
      apply (Hdisj k Hin). left.
Qed.

Lemma normalize_storable (j : Json.t) : storable j = true -> Json.normalize j = j.
Proof.
  induction j as [|b|n|s|l IH|kvs IH] using json_ind; intros Hj; try reflexivity.
  - cbn [Json.normalize]. f_equal. cbn [storable] in Hj.
    induction IH as [|x l Hx _ IHl]; [reflexivity|].
    cbn [forallb] in Hj. apply andb_prop in Hj as [Hjx Hjl].
    cbn [map]. now rewrite (Hx Hjx), (IHl Hjl).
  - cbn [Json.normalize]. f_equal. cbn [storable] in Hj.
    apply andb_prop in Hj as [Hall Hnodup]. apply bool_decide_eq_true in Hnodup.
    rewrite fold_assoc_set; [reflexivity|exact Hnodup|].
    clear Hnodup. induction IH as [|kv kvs Hkv _ IHkvs]; [constructor|].
    cbn [forallb] in Hall. apply andb_prop in Hall as [Hkv' Hall].
    apply andb_prop in Hkv' as [_ Hkv']. constructor; [now apply Hkv|now apply IHkvs].
Qed.

Lemma length_app (a b : string) :
  String.length (a +:+ b) = (String.length a + String.length b)%nat.
Proof.
  induction a as [|c a IH]; [reflexivity|].
  change (String c a +:+ b) with (String c (a +:+ b)). cbn [String.length]. now rewrite IH.
Qed.

Lemma need_join {A : Type} (f : A -> string) (need_of : A -> nat) (sep : string)
    (l : list A) :
  Forall (fun x => (need_of x + 1 <= 2 * String.length (f x))%nat) l ->
  (fold_right (fun x n => S (Nat.max (need_of x) n)) 0%nat l
   <= 2 * String.length (Py.join sep (map f l)))%nat.
Proof.
  induction 1 as [|x l Hx Hl IH]; [cbn; lia|].
  cbn [fold_right]. destruct l as [|y l].
  - cbn [fold_right map Py.join]. lia.
  - change (map f (x :: y :: l)) with (f x :: f y :: map f l). rewrite join_cons2.
    change (f y :: map f l) with (map f (y :: l)). rewrite !length_app. lia.
Qed.

Lemma need_length (j : Json.t) :
  forall level, (need j + 1 <= 2 * String.length (Json.dump level j))%nat.
Proof.
  induction j as [|b|n|s|l IH|kvs IH] using json_ind; intros level.
  - cbn. lia.
  - destruct b; cbn; lia.
  - cbn [need Json.dump]. change (pretty n) with (Py.str n).
    destruct (str_shape n) as ([|] & c & ds & -> & _); cbn [String.length]; lia.
  - cbn [need Json.dump]. unfold Json.quote. cbn [String.length]. lia.
  - destruct l as [|x l]; [cbn; lia|].
    rewrite dump_List, !length_app. cbn [need].
    pose proof (need_join (Json.dump (S level)) need ("," +:+ Json.break (S level)) (x :: l))
      as Hjoin.
    cbn [String.length]. cbn [String.length] in Hjoin.
    assert (Hall : Forall (fun x => (need x + 1 <= 2 * String.length (Json.dump (S level) x))%nat)
                     (x :: l)).
    { eapply Forall_impl; [exact IH|]. intros y Hy. apply Hy. }
    specialize (Hjoin Hall). lia.
  - destruct kvs as [|kv kvs]; [cbn; lia|].
    rewrite dump_Dict, !length_app. cbn [need].
    pose proof (need_join (member (S level)) (fun kv => need kv.2)
                  ("," +:+ Json.break (S level)) (kv :: kvs)) as Hjoin.
    cbn [String.length]. cbn [String.length] in Hjoin.
    assert (Hall : Forall (fun kv => (need kv.2 + 1
                                      <= 2 * String.length (member (S level) kv))%nat)
                     (kv :: kvs)).
    { eapply Forall_impl; [exact IH|]. intros y Hy. cbn beta in Hy.
      unfold member. rewrite !length_app. specialize (Hy (S level)). lia. }
    specialize (Hjoin Hall). lia.
Qed.

(** The decoder reads back what the encoder wrote. *)
Lemma loads_dumps (j : Json.t) :
  storable j = true -> Json.loads (Json.dumps j) = Some j.
Proof.
  intros Hj. unfold Json.loads, Json.dumps.
  pose proof (parse_value_dump j 0%nat (2 * String.length (Json.dump 0 j) + 2)%nat
                EmptyString EmptyString I) as Hparse.
  rewrite string_app_nil_r in Hparse. change (EmptyString +:+ ?s) with s in Hparse.
  rewrite Hparse; [|pose proof (need_length j 0%nat); lia|exact I].
  cbn [Json.skip_ws]. now rewrite normalize_storable.
Qed.

(** ** The configuration store (device_manager.py) *)

Lemma load_saved (env env' : DeviceManager.Env) (config : Json.t)
    (f f' : DeviceManager.File) :
  storable config = true ->
  DeviceManager.save_device_config env config f = (true, f') ->
  DeviceManager.read_fails env' = false ->
  DeviceManager.load_device_config env' f' = config.
Proof.
  intros Hconfig Hsave Hread.
  assert (Hfile : f' = Some (Json.dumps config)).
  { unfold DeviceManager.save_device_config in Hsave.
    destruct (DeviceManager.write env) as [| | |k]; try congruence.
    destruct (String.length (Json.dumps config) <=? k)%nat; congruence. }
  subst f'. unfold DeviceManager.load_device_config.
  now rewrite Hread, loads_dumps.
Qed.

(** X5. A document the store saved successfully is the document the next
    load returns, whatever process reads it, as long as the file can be
    read: saving and loading are inverse on documents of null, booleans,
    integers, printable text, arrays and objects. *)
Theorem save_then_load_round_trip :
  forall (env env' : DeviceManager.Env) (config : Json.t) (f f' : DeviceManager.File),
    storable config = true ->
    DeviceManager.save_device_config env config f = (true, f') ->
    DeviceManager.read_fails env' = false ->
    DeviceManager.load_device_config env' f' = config.
Proof. exact load_saved. Qed.

Lemma save_then_load_round_trip_witness :
  DeviceManager.load_device_config healthy_env
    (DeviceManager.save_device_config (disk_full_env 400) sample_config
       (Some "{}")).2
  = sample_config.
Proof.
  apply (save_then_load_round_trip (disk_full_env 400) healthy_env sample_config
           (Some "{}")).
  - vm_compute. reflexivity.
  - vm_compute. reflexivity.
  - reflexivity.
Defined.

(** *** Documents after an update *)

Lemma digit_printable (c : ascii) : is_Some (Py.digit_value c) -> printable c = true.
Proof.
  intros [d Hd]. unfold Py.digit_value in Hd. unfold printable.
  destruct ((48 <=? Z.of_N (N_of_ascii c)) && (Z.of_N (N_of_ascii c) <=? 57)) eqn:E;
    [|discriminate].
  apply andb_prop in E as [E1 E2]. apply Z.leb_le in E1, E2.
  apply andb_true_intro. split; apply N.leb_le; lia.
Qed.

Lemma all_digits_text (s : string) : all_digits s -> ascii_text s = true.
Proof.
  induction s as [|c s IH]; [reflexivity|]. intros [Hc Hs]. cbn [ascii_text].
  now rewrite (digit_printable c Hc), IH.
Qed.

Lemma ascii_text_str (n : Z) : ascii_text (Py.str n) = true.
Proof.
  destruct (str_shape n) as (neg & c & ds & -> & Hc & Hds & _).
  assert (Hbody : ascii_text (String c ds) = true).
  { apply all_digits_text. split; assumption. }
  destruct neg; [|exact Hbody].
  change (ascii_text (String "-"%char (String c ds)))
    with (printable "-"%char && ascii_text (String c ds)).
  now rewrite Hbody.
Qed.

Lemma str_eqb (n m : Z) : String.eqb (Py.str n) (Py.str m) = bool_decide (n = m).
Proof.
  destruct (String.eqb_spec (Py.str n) (Py.str m)) as [Heq|Hne].
  - apply pretty_Z_inj in Heq. now rewrite bool_decide_eq_true_2.
  - rewrite bool_decide_eq_false_2; [reflexivity|]. intros ->. now apply Hne.
Qed.

Lemma assoc_get_elem (kvs : list (string * Json.t)) (k : string) (v : Json.t) :
  Json.assoc_get kvs k = Some v -> (k, v) ∈ kvs.
Proof.
  induction kvs as [|[k' v'] kvs IH]; [discriminate|]. cbn [Json.assoc_get].
  destruct (String.eqb_spec k' k) as [->|_].
  - intros [= ->]. left.
  - intros H. right. now apply IH.
Qed.

Lemma assoc_get_None (kvs : list (string * Json.t)) (k : string) :
  Json.assoc_get kvs k = None <-> k ∉ kvs.*1.
Proof.
  induction kvs as [|[k' v'] kvs IH]; cbn [Json.assoc_get fmap list_fmap fst].
  - split; [intros _; apply not_elem_of_nil|reflexivity].
  - destruct (String.eqb_spec k' k) as [->|Hne].
    + split; [discriminate|]. intros H. destruct H. left.
    + rewrite IH, not_elem_of_cons. cbn [fmap]. split; [intros; split; congruence|tauto].
Qed.

Lemma assoc_set_present (kvs : list (string * Json.t)) (k : string) (v : Json.t) :
  k ∈ kvs.*1 -> (Json.assoc_set kvs k v).*1 = kvs.*1.
Proof.
  induction kvs as [|[k' v'] kvs IH]; cbn [Json.assoc_set fmap list_fmap fst].
  - intros H. now apply elem_of_nil in H.
  - destruct (String.eqb_spec k' k) as [->|Hne]; [reflexivity|].
    intros H. apply elem_of_cons in H as [->|H]; [contradiction|].
    cbn [fmap list_fmap fst]. f_equal. now apply IH.
Qed.

Lemma assoc_set_elem (kvs : list (string * Json.t)) (k : string) (v : Json.t)
    (kv : string * Json.t) :
  kv ∈ Json.assoc_set kvs k v -> kv = (k, v) \/ kv ∈ kvs.
Proof.
  induction kvs as [|[k' v'] kvs IH]; cbn [Json.assoc_set].
  - intros H. apply list_elem_of_singleton in H. now left.
  - destruct (String.eqb_spec k' k) as [->|Hne]; intros H;
      apply elem_of_cons in H as [->|H].
    + now left.
    + right. now right.
    + right. left.
    + destruct (IH H) as [->|Hin]; [now left|right; now right].
Qed.

Lemma storable_Dict (kvs : list (string * Json.t)) :
  storable (Json.Dict kvs) = true
  <-> NoDup kvs.*1
      /\ forall k v, (k, v) ∈ kvs -> ascii_text k = true /\ storable v = true.
Proof.
  cbn [storable]. rewrite andb_true_iff, bool_decide_eq_true, forallb_forall.
  split; intros [H1 H2]; split; try assumption.
  - intros k v Hin. apply list_elem_of_In in Hin. specialize (H1 _ Hin).
    now apply andb_prop in H1.
  - intros [k v] Hin. apply list_elem_of_In, H2 in Hin. now apply andb_true_intro.
Qed.

Lemma storable_assoc_set (kvs : list (string * Json.t)) (k : string) (v : Json.t) :
  storable (Json.Dict kvs) = true -> ascii_text k = true -> storable v = true ->
  storable (Json.Dict (Json.assoc_set kvs k v)) = true.
Proof.
  rewrite !storable_Dict. intros [Hnodup Hall] Hk Hv. split.
  - destruct (decide (k ∈ kvs.*1)) as [Hin|Hnot].
    + now rewrite assoc_set_present.
    + rewrite assoc_set_fresh by exact Hnot. rewrite fmap_app.
      apply NoDup_app. split; [exact Hnodup|]. split; [|apply NoDup_singleton].
      intros x Hx Hx'. apply list_elem_of_singleton in Hx'. now subst x.
  - intros k' v' Hin. apply assoc_set_elem in Hin as [[= -> ->]|Hin]; [now split|].
    now apply Hall.
Qed.

Lemma storable_assoc_get (kvs : list (string * Json.t)) (k : string) (v : Json.t) :
  storable (Json.Dict kvs) = true -> Json.assoc_get kvs k = Some v -> storable v = true.
Proof.
  rewrite storable_Dict. intros [_ Hall] Hget. apply assoc_get_elem in Hget.
  now apply (Hall k v).
Qed.

Lemma assoc_set_set (kvs : list (string * Json.t)) (k : string) (a b : Json.t) :
  Json.assoc_set (Json.assoc_set kvs k a) k b = Json.assoc_set kvs k b.
Proof.
  induction kvs as [|[k' v'] kvs IH]; cbn [Json.assoc_set].
  - now rewrite String.eqb_refl.
  - destruct (String.eqb k' k) eqn:Hk; cbn [Json.assoc_set]; rewrite Hk; [reflexivity|].
    now rewrite IH.
Qed.

(** [get_device_channel_config] on a loaded document. *)
Definition channel_config_of (config : Json.t) (serial_number channel : Z)
  : Py.outcome Json.t :=
  Py.obind (Json.get config "controllers" (Json.Dict [])) (fun controllers =>
  Py.obind (Json.get controllers (Py.str serial_number) (Json.Dict [])) (fun device_config =>
  Py.obind (Json.get device_config "channels" (Json.Dict [])) (fun channels =>
  Json.get channels (Py.str channel) Json.Null))).

Definition channel_entry (stage role linked_group : Json.t) : Json.t :=
  Json.Dict [("stage", stage); ("role", role); ("linked_group", linked_group)].

(** The document with one channel entry of one device replaced. *)
Definition updated (kvs cs dev chans : list (string * Json.t))
    (serial_str channel_str : string) (entry : Json.t) : Json.t :=
  Json.Dict
    (Json.assoc_set kvs "controllers"
       (Json.Dict
          (Json.assoc_set cs serial_str
             (Json.Dict
                (Json.assoc_set dev "channels"
                   (Json.Dict (Json.assoc_set chans channel_str entry))))))).

(** The parts of a document that an update of [serial_str] touches. *)
Definition device_parts (config : Json.t) (serial_str : string)
    (kvs cs dev chans : list (string * Json.t)) : Prop :=
  config = Json.Dict kvs
  /\ default (Json.Dict []) (Json.assoc_get kvs "controllers") = Json.Dict cs
  /\ default (Json.Dict [("channels", Json.Dict [])]) (Json.assoc_get cs serial_str)
     = Json.Dict dev
  /\ Json.assoc_get dev "channels" = Some (Json.Dict chans).

Lemma set_device_channel_config_document (env : DeviceManager.Env)
    (f : DeviceManager.File) (serial_number channel : Z)
    (stage role linked_group : Json.t) (r : bool * DeviceManager.File) :
  DeviceManager.set_device_channel_config env f serial_number channel
    stage role linked_group = Py.Return r ->
  exists kvs cs dev chans,
    device_parts (DeviceManager.load_device_config env f) (Py.str serial_number)
      kvs cs dev chans
    /\ r = DeviceManager.save_device_config env
             (updated kvs cs dev chans (Py.str serial_number) (Py.str channel)
                (channel_entry stage role linked_group)) f.
Proof.
  unfold DeviceManager.set_device_channel_config, device_parts, updated, channel_entry.
  generalize (Py.str serial_number) as ss, (Py.str channel) as cstr.
  intros ss cstr.
  destruct (DeviceManager.load_device_config env f) as [| | | | |kvs]; try discriminate.
  cbn [Json.get Py.obind].
  destruct (Json.assoc_get kvs "controllers") as [c0|] eqn:Hc0; cbn [default from_option id].
  - destruct c0 as [| | |s|l|cs]; try discriminate; cbn [Json.contains_key Py.obind].
    + destruct (Json.contains s ss); cbn [Py.obind Json.getitem Json.setitem];
        [rewrite Hc0|]; discriminate.
    + destruct (existsb _ l); cbn [Py.obind Json.getitem Json.setitem];
        [rewrite Hc0|]; discriminate.
    + destruct (Json.assoc_get cs ss) as [d|] eqn:Hd.
      * rewrite bool_decide_eq_true_2 by (eexists; reflexivity).
        cbn [Py.obind Json.getitem]. rewrite Hc0. cbn [Py.obind Json.getitem].
        rewrite Hd. destruct d as [| | | | |dev]; try discriminate.
        cbn [Py.obind Json.getitem].
        destruct (Json.assoc_get dev "channels") as [ch|] eqn:Hch; [|discriminate].
        destruct ch as [| | | | |chans]; try discriminate.
        cbn [Py.obind Json.setitem]. intros [= <-].
        exists kvs, cs, dev, chans. rewrite Hc0, Hd, Hch. repeat split.
      * rewrite bool_decide_eq_false_2 by (intros [? [=]]).
        cbn [Py.obind Json.getitem Json.setitem].
        rewrite !assoc_get_set_eq. cbn [Py.obind Json.getitem Json.setitem].
        rewrite !assoc_get_set_eq. cbn [Py.obind Json.getitem Json.setitem].
        change (Json.assoc_get [("channels", Json.Dict [])] "channels")
          with (Some (Json.Dict [])).
        cbn [Py.obind Json.getitem Json.setitem]. rewrite !assoc_set_set. intros [= <-].
        exists kvs, cs, [("channels", Json.Dict [])], []. rewrite Hc0, Hd.
        repeat split.
  - cbn [Json.contains_key Py.obind].
    rewrite bool_decide_eq_false_2 by (intros [? [=]]).
    cbn [Py.obind Json.getitem Json.setitem].
    rewrite !assoc_get_set_eq. cbn [Py.obind Json.getitem Json.setitem].
    change (Json.assoc_set [] ss (Json.Dict [("channels", Json.Dict [])]))
      with [(ss, Json.Dict [("channels", Json.Dict [])])].
    change (Json.assoc_get [(ss, Json.Dict [("channels", Json.Dict [])])] ss)
      with (if String.eqb ss ss then Some (Json.Dict [("channels", Json.Dict [])])
            else None).
    rewrite String.eqb_refl. cbn [Py.obind Json.getitem Json.setitem].
    change (Json.assoc_get [("channels", Json.Dict [])] "channels")
      with (Some (Json.Dict [])).
    cbn [Py.obind Json.getitem Json.setitem].
    change [(ss, Json.Dict [("channels", Json.Dict [])])]
      with (Json.assoc_set [] ss (Json.Dict [("channels", Json.Dict [])])).
    rewrite !assoc_set_set. intros [= <-].
    exists kvs, [], [("channels", Json.Dict [])], []. rewrite Hc0.
    repeat split.
Qed.

Lemma str_ne (n m : Z) : n <> m -> Py.str n <> Py.str m.
Proof. intros Hne Heq. apply pretty_Z_inj in Heq. contradiction. Qed.

Lemma updated_lookup_same (kvs cs dev chans : list (string * Json.t))
    (serial channel : Z) (entry : Json.t) :
  channel_config_of (updated kvs cs dev chans (Py.str serial) (Py.str channel) entry)
    serial channel
  = Py.Return entry.
Proof.
  unfold channel_config_of, updated. cbn [Json.get Py.obind].
  rewrite assoc_get_set_eq. cbn [default from_option id Json.get Py.obind].
  rewrite assoc_get_set_eq. cbn [default from_option id Json.get Py.obind].
  rewrite assoc_get_set_eq. cbn [default from_option id Json.get Py.obind].
  now rewrite assoc_get_set_eq.
Qed.

Lemma updated_lookup_channel (kvs cs dev chans : list (string * Json.t))
    (serial channel c : Z) (entry : Json.t) :
  c <> channel ->
  channel_config_of (updated kvs cs dev chans (Py.str serial) (Py.str channel) entry)
    serial c
  = Py.Return (default Json.Null (Json.assoc_get chans (Py.str c))).
Proof.
  intros Hc. unfold channel_config_of, updated. cbn [Json.get Py.obind].
  rewrite assoc_get_set_eq. cbn [default from_option id Json.get Py.obind].
  rewrite assoc_get_set_eq. cbn [default from_option id Json.get Py.obind].
  rewrite assoc_get_set_eq. cbn [default from_option id Json.get Py.obind].
  rewrite assoc_get_set_ne; [reflexivity|]. apply str_ne. congruence.
Qed.

Lemma updated_lookup_device (kvs cs dev chans : list (string * Json.t))
    (serial channel s c : Z) (entry : Json.t) :
  s <> serial ->
  default (Json.Dict []) (Json.assoc_get kvs "controllers") = Json.Dict cs ->
  channel_config_of (updated kvs cs dev chans (Py.str serial) (Py.str channel) entry) s c
  = channel_config_of (Json.Dict kvs) s c.
Proof.
  intros Hs Hcs. unfold channel_config_of, updated. cbn [Json.get Py.obind].
  rewrite assoc_get_set_eq, Hcs. cbn [default from_option id Json.get Py.obind].
  rewrite assoc_get_set_ne; [reflexivity|]. apply str_ne. congruence.
Qed.

Lemma parts_lookup (config : Json.t) (serial c : Z)
    (kvs cs dev chans : list (string * Json.t)) :
  device_parts config (Py.str serial) kvs cs dev chans ->
  channel_config_of config serial c
  = Py.Return (default Json.Null (Json.assoc_get chans (Py.str c))).
Proof.
  intros (-> & Hcs & Hdev & Hchans). unfold channel_config_of. cbn [Json.get Py.obind].
  rewrite Hcs. cbn [Json.get Py.obind].
  destruct (Json.assoc_get cs (Py.str serial)) as [d|]; cbn [default from_option id] in *.
  - subst d. cbn [Json.get Py.obind]. now rewrite Hchans.
  - injection Hdev as <-. injection Hchans as <-. reflexivity.
Qed.

Lemma parts_storable (config : Json.t) (serial_str : string)
    (kvs cs dev chans : list (string * Json.t)) :
  device_parts config serial_str kvs cs dev chans ->
  storable config = true ->
  storable (Json.Dict kvs) = true /\ storable (Json.Dict cs) = true
  /\ storable (Json.Dict dev) = true /\ storable (Json.Dict chans) = true.
Proof.
  intros (-> & Hcs & Hdev & Hchans) Hkvs.
  assert (Hs_cs : storable (Json.Dict cs) = true).
  { destruct (Json.assoc_get kvs "controllers") as [c0|] eqn:Hc0;
      cbn [default from_option id] in Hcs.
    - subst c0. exact (storable_assoc_get _ _ _ Hkvs Hc0).
    - now injection Hcs as <-. }
  assert (Hs_dev : storable (Json.Dict dev) = true).
  { destruct (Json.assoc_get cs serial_str) as [d|] eqn:Hd;
      cbn [default from_option id] in Hdev.
    - subst d. exact (storable_assoc_get _ _ _ Hs_cs Hd).
    - now injection Hdev as <-. }
  repeat split; try assumption. exact (storable_assoc_get _ _ _ Hs_dev Hchans).
Qed.

Lemma updated_storable (kvs cs dev chans : list (string * Json.t))
    (serial_str channel_str : string) (entry : Json.t) :
  storable (Json.Dict kvs) = true -> storable (Json.Dict cs) = true ->
  storable (Json.Dict dev) = true -> storable (Json.Dict chans) = true ->
  ascii_text serial_str = true -> ascii_text channel_str = true ->
  storable entry = true ->
  storable (updated kvs cs dev chans serial_str channel_str entry) = true.
Proof.
  intros Hkvs Hcs Hdev Hchans Hs Hc He. unfold updated.
  repeat (apply storable_assoc_set; try assumption; try reflexivity).
Qed.



(** *** Adding a discovered device *)

Lemma prefix_map_registered (p : Z) (ty : string) :
  Controllers._PREFIX_TO_CONTROLLER !! p = Some ty ->
  exists info, Controllers.CONTROLLERS !! ty = Some info /\ Controllers.prefix info = p.
Proof.
  unfold Controllers._PREFIX_TO_CONTROLLER. cbn [foldl Controllers.CONTROLLERS_items].
  cbn [fst snd Controllers.prefix].
  rewrite !lookup_insert_Some, lookup_empty.
  intros H. repeat (destruct H as [[<- <-] | [_ H]];
                    [eexists; split; [vm_compute; reflexivity | reflexivity] |]).
  discriminate.
Qed.

Lemma detected_type_registered (serial : Z) (ty : string) :
  Controllers.get_controller_type serial = Py.Return (Some ty) ->
  exists info, Controllers.CONTROLLERS !! ty = Some info.
Proof.
  unfold Controllers.get_controller_type.
  destruct (Controllers.serial_prefix serial) as [p|e]; [|discriminate].
  cbn [Py.obind]. intros [= Hp]. destruct (prefix_map_registered p ty Hp) as (info & H & _).
  now exists info.
Qed.

Lemma registered_type_named (ty : string) (info : Controllers.ControllerInfo) :
  Controllers.CONTROLLERS !! ty = Some info -> ty <> EmptyString.
Proof. intros H ->. vm_compute in H. discriminate. Qed.

Section EmptyChannels.

Variable e : Json.t.

Let F (acc : list (string * Json.t)) (ch : Z) : list (string * Json.t) :=
  Json.assoc_set acc (Py.str ch) e.

Lemma fold_channels_lookup (l : list Z) :
  forall acc k,
    Json.assoc_get (foldl F acc l) k
    = if bool_decide (k ∈ Py.str <$> l) then Some e else Json.assoc_get acc k.
Proof.
  induction l as [|ch l IH]; intros acc k; cbn [foldl fmap list_fmap].
  - rewrite bool_decide_eq_false_2; [reflexivity|apply not_elem_of_nil].
  - rewrite IH. fold (Py.str <$> l). unfold F.
    destruct (decide (k ∈ Py.str <$> l)) as [Hin|Hnot].
    + rewrite !bool_decide_eq_true_2; [reflexivity|now right|exact Hin].
    + rewrite (bool_decide_eq_false_2 _ Hnot).
      destruct (decide (k = Py.str ch)) as [->|Hne].
      * rewrite bool_decide_eq_true_2 by left. apply assoc_get_set_eq.
      * rewrite bool_decide_eq_false_2 by (rewrite not_elem_of_cons; tauto).
        apply assoc_get_set_ne. congruence.
Qed.

Lemma fold_channels_values (l : list Z) :
  forall acc,
    Forall (fun kv => kv.2 = e) acc -> Forall (fun kv => kv.2 = e) (foldl F acc l).
Proof.
  induction l as [|ch l IH]; intros acc Hacc; [exact Hacc|]. cbn [foldl]. apply IH.
  apply Forall_forall. intros kv Hin. apply assoc_set_elem in Hin as [->|Hin];
    [reflexivity|]. rewrite Forall_forall in Hacc. now apply Hacc.
Qed.

Lemma fold_channels_storable (l : list Z) :
  storable e = true ->
  forall acc, storable (Json.Dict acc) = true -> storable (Json.Dict (foldl F acc l)) = true.
Proof.
  intros He. induction l as [|ch l IH]; intros acc Hacc; [exact Hacc|]. cbn [foldl].
  apply IH. apply storable_assoc_set; [exact Hacc|apply ascii_text_str|exact He].
Qed.

End EmptyChannels.

Lemma empty_channels_lookup (n ch : Z) :
  Json.assoc_get (Store.empty_channels n) (Py.str ch)
  = if bool_decide (1 <= ch <= n) then Some Store.empty_channel else None.
Proof.
  unfold Store.empty_channels. rewrite fold_channels_lookup. cbn [Json.assoc_get].
  rewrite (bool_decide_ext (Py.str ch ∈ Py.str <$> seqZ 1 n) (1 <= ch <= n));
    [reflexivity|].
  rewrite list_elem_of_fmap. split.
  - intros (x & Hx & Hin). apply pretty_Z_inj in Hx as <-. apply elem_of_seqZ in Hin. lia.
  - intros Hch. exists ch. split; [reflexivity|]. apply elem_of_seqZ. lia.
Qed.

Lemma any_stage_empty (l : list Json.t) :
  Forall (fun v => v = Store.empty_channel) l -> Store.any_stage l = Py.Return false.
Proof. induction 1 as [|v l -> _ IH]; [reflexivity|exact IH]. Qed.

(** [serial_str in config.get("controllers", {})]. *)
Definition listed (config : Json.t) (serial_number : Z) : Py.outcome bool :=
  Py.obind (Json.get config "controllers" (Json.Dict []))
           (Json.contains_key (Py.str serial_number)).

(** The document with a fresh device entry. *)
Definition with_device_entry (kvs cs : list (string * Json.t)) (serial_str : string)
    (num_channels : Z) : Json.t :=
  Json.Dict
    (Json.assoc_set kvs "controllers"
       (Json.Dict
          (Json.assoc_set cs serial_str
             (Json.Dict [("channels", Json.Dict (Store.empty_channels num_channels))])))).

Lemma add_unconfigured_device_document (env : DeviceManager.Env)
    (f : DeviceManager.File) (serial : Z) (ty : string) (r : bool * DeviceManager.File) :
  Controllers.get_controller_type serial = Py.Return (Some ty) ->
  listed (DeviceManager.load_device_config env f) serial = Py.Return false ->
  Store.add_unconfigured_device env f serial = Py.Return r ->
  exists kvs cs,
    DeviceManager.load_device_config env f = Json.Dict kvs
    /\ default (Json.Dict []) (Json.assoc_get kvs "controllers") = Json.Dict cs
    /\ r = DeviceManager.save_device_config env
             (with_device_entry kvs cs (Py.str serial) (Controllers.get_channel_count ty))
             f.
Proof.
  intros Hty Hlisted. unfold Store.add_unconfigured_device. rewrite Hty. cbn [Py.obind].
  destruct (detected_type_registered serial ty Hty) as [info Hinfo].
  destruct (String.eqb_spec ty EmptyString) as [Hempty|_].
  { now destruct (registered_type_named ty info Hinfo). }
  unfold listed in Hlisted. unfold with_device_entry.
  destruct (Py.obind (Json.get (DeviceManager.load_device_config env f) "controllers"
                        (Json.Dict [])) (Json.contains_key (Py.str serial)))
    as [present|] eqn:Hpresent; [|discriminate].
  injection Hlisted as ->.
  destruct (DeviceManager.load_device_config env f) as [| | | | |kvs]; try discriminate.
  cbn [Json.get Py.obind] in Hpresent |- *. rewrite Hpresent. cbn [Py.obind].
  destruct (default (Json.Dict []) (Json.assoc_get kvs "controllers"))
    as [| | | | |cs] eqn:Hcs; cbn [Json.setitem Json.contains_key Py.obind] in Hpresent |- *;
    try discriminate.
  intros [= <-]. exists kvs, cs. repeat split. exact Hcs.
Qed.



(** *** Linked groups *)

(** The [channels] object of a device in a loaded document. *)
Definition channels_of (config : Json.t) (serial_number : Z) : Py.outcome Json.t :=
  Py.obind (Json.get config "controllers" (Json.Dict [])) (fun controllers =>
  Py.obind (Json.get controllers (Py.str serial_number) (Json.Dict [])) (fun device_config =>
  Json.get device_config "channels" (Json.Dict []))).

(** [ch_config and ch_config.get("linked_group") == linked_group]. *)
Definition in_group (linked_group : string) (ch_config : Json.t) : Prop :=
  Json.truthy ch_config = true
  /\ Json.get ch_config "linked_group" Json.Null = Py.Return (Json.Str linked_group).

Lemma eqb_str_true (j : Json.t) (k : string) :
  Json.eqb_str j k = true <-> j = Json.Str k.
Proof.
  destruct j as [| | |s| |]; cbn [Json.eqb_str]; try (split; discriminate).
  rewrite String.eqb_eq. split; congruence.
Qed.

Lemma linked_loop_members (linked_group : string) (ch_items : list (string * Json.t)) :
  forall result l,
    Store.linked_loop linked_group ch_items result = Py.Return l ->
    forall n : Z,
      n ∈ l
      <-> n ∈ result
          \/ exists ch_str ch_config,
               (ch_str, ch_config) ∈ ch_items
               /\ Py.int ch_str = Py.Return n /\ in_group linked_group ch_config.
Proof.
  induction ch_items as [|[ch_str ch_config] rest IH]; intros result l Hloop n.
  - injection Hloop as <-. split; [now left|].
    intros [H|(? & ? & H & _)]; [exact H|now apply elem_of_nil in H].
  - cbn [Store.linked_loop] in Hloop.
    assert (Hskip : ~ in_group linked_group ch_config ->
                    Store.linked_loop linked_group rest result = Py.Return l ->
                    n ∈ l
                    <-> n ∈ result
                        \/ exists k v, (k, v) ∈ (ch_str, ch_config) :: rest
                                       /\ Py.int k = Py.Return n
                                       /\ in_group linked_group v).
    { intros Hnot Hrest. rewrite (IH _ _ Hrest n). split.
      - intros [H|(k & v & Hin & H)]; [now left|].
        right. exists k, v. split; [now right|exact H].
      - intros [H|(k & v & Hin & Hint & Hgrp)]; [now left|].
        apply elem_of_cons in Hin as [[= -> ->]|Hin]; [contradiction|].
        right. now exists k, v. }
    destruct (Json.truthy ch_config) eqn:Htruthy;
      [|apply Hskip; [intros [H _]; congruence|exact Hloop]].
    destruct (Json.get ch_config "linked_group" Json.Null) as [group|] eqn:Hget;
      [|discriminate].
    cbn [Py.obind] in Hloop.
    destruct (Json.eqb_str group linked_group) eqn:Hgroup.
    + apply eqb_str_true in Hgroup as ->.
      destruct (Py.int ch_str) as [ch|] eqn:Hint; [|discriminate].
      cbn [Py.obind] in Hloop. rewrite (IH _ _ Hloop n), elem_of_app.
      rewrite list_elem_of_singleton. split.
      * intros [[H| ->]|(k & v & Hin & H)].
        -- now left.
        -- right. exists ch_str, ch_config. split; [left|]. split; [exact Hint|].
           split; assumption.
        -- right. exists k, v. split; [now right|exact H].
      * intros [H|(k & v & Hin & Hk & Hgrp)]; [now left; left|].
        apply elem_of_cons in Hin as [[= -> ->]|Hin].
        -- left. right. congruence.
        -- right. now exists k, v.
    + apply Hskip; [|exact Hloop]. intros [_ H]. rewrite Hget in H. injection H as ->.
      cbn [Json.eqb_str] in Hgroup. now rewrite String.eqb_refl in Hgroup.
Qed.

(** X8. What [get_linked_channels] returns: the list is ascending, and
    its members are exactly the integers read from the keys of the
    device's channel entries whose linked group is the given one. *)
Theorem get_linked_channels_sorted_members :
  forall (env : DeviceManager.Env) (f : DeviceManager.File) (serial : Z)
         (linked_group : string) (l : list Z),
    Store.get_linked_channels env f serial linked_group = Py.Return l ->
    exists ch_items,
      channels_of (DeviceManager.load_device_config env f) serial
      = Py.Return (Json.Dict ch_items)
      /\ StronglySorted Z.le l
      /\ forall n : Z,
           n ∈ l
           <-> exists ch_str ch_config,
                 (ch_str, ch_config) ∈ ch_items
                 /\ Py.int ch_str = Py.Return n /\ in_group linked_group ch_config.
Proof.
  intros env f serial linked_group l. unfold Store.get_linked_channels, channels_of.
  destruct (Json.get (DeviceManager.load_device_config env f) "controllers" (Json.Dict []))
    as [controllers|]; [|discriminate]. cbn [Py.obind].
  destruct (Json.get controllers (Py.str serial) (Json.Dict [])) as [device_config|];
    [|discriminate]. cbn [Py.obind].
  destruct (Json.get device_config "channels" (Json.Dict [])) as [channels|];
    [|discriminate]. cbn [Py.obind].
  destruct channels as [| | | | |ch_items]; try discriminate. cbn [Store.items Py.obind].
  destruct (Store.linked_loop linked_group ch_items []) as [result|] eqn:Hloop;
    [|discriminate].
  cbn [Py.obind]. intros [= <-]. exists ch_items. split; [reflexivity|]. split.
  - unfold Store.sorted. apply StronglySorted_merge_sort; apply _.
  - intros n. unfold Store.sorted. rewrite merge_sort_Permutation.
    rewrite (linked_loop_members _ _ _ _ Hloop n). split.
    + intros [H|H]; [now apply elem_of_nil in H|exact H].
    + intros H. now right.
Qed.

(** The store after channel 3 of a KIM101 was put into group [xy]. *)
Definition linked_file : DeviceManager.File :=
  (DeviceManager.save_device_config healthy_env
     (updated [("_version", Json.Str "1.0")] [] [("channels", Json.Dict [])] []
        "97000001" "3" (channel_entry (Json.Str "PIA13") Json.Null (Json.Str "xy")))
     None).2.

Lemma get_linked_channels_sorted_members_witness :
  exists ch_items,
    channels_of (DeviceManager.load_device_config healthy_env linked_file) 97000001
    = Py.Return (Json.Dict ch_items)
    /\ StronglySorted Z.le [3]
    /\ forall n : Z,
         n ∈ [3]
         <-> exists ch_str ch_config,
               (ch_str, ch_config) ∈ ch_items
               /\ Py.int ch_str = Py.Return n /\ in_group "xy" ch_config.
Proof.
  apply (get_linked_channels_sorted_members healthy_env linked_file 97000001 "xy" [3]).
  vm_compute. reflexivity.
Defined.

Lemma assoc_set_has (kvs : list (string * Json.t)) (k : string) (v : Json.t) :
  (k, v) ∈ Json.assoc_set kvs k v.
Proof.
  induction kvs as [|[k' v'] kvs IH]; cbn [Json.assoc_set]; [left|].
  destruct (String.eqb_spec k' k) as [->|_]; [left|now right].
Qed.



(** ** Discovery (device_manager.py) *)

(** The serial's prefix is registered. *)
Definition known_serial (serial : Z) : bool :=
  match Controllers.get_controller_type serial with
  | Py.Return (Some _) => true
  | _ => false
  end.

(** What discovery reports about a device. *)
Definition describes (keys : list string) (d : Discovery.Device) : Prop :=
  Controllers.get_controller_type (Discovery.serial d)
  = Py.Return (Some (Discovery.controller_type d))
  /\ (exists info,
         Controllers.get_controller_info (Discovery.controller_type d) = Some info
         /\ Discovery.dev_channels d = Controllers.channels info
         /\ Discovery.dev_description d = Controllers.description info)
  /\ (Discovery.configured d = true <-> Py.str (Discovery.serial d) ∈ keys).

Lemma kinesis_loop_known (keys : list string) (s : Z) (ty : string) :
  Controllers.get_controller_type s = Py.Return (Some ty) ->
  exists d,
    Discovery.summary s ty keys = Py.Return d
    /\ String.eqb ty EmptyString = false
    /\ Discovery.serial d = s /\ describes keys d.
Proof.
  intros Hty. destruct (detected_type_registered s ty Hty) as [info Hinfo].
  unfold Discovery.summary, Controllers.get_controller_info. rewrite Hinfo.
  eexists. split; [reflexivity|]. split.
  - apply String.eqb_neq. exact (registered_type_named ty info Hinfo).
  - split; [reflexivity|]. unfold describes. cbn. split; [exact Hty|]. split.
    + exists info. repeat split. exact Hinfo.
    + apply bool_decide_eq_true.
Qed.

Lemma kinesis_loop_spec (keys : list string) (serials : list Z) :
  forall devices,
    exists found,
      Discovery.kinesis_loop keys (Py.str <$> serials) devices = devices ++ found
      /\ Discovery.serial <$> found = filter (fun s => known_serial s = true) serials
      /\ Forall (describes keys) found.
Proof.
  induction serials as [|s serials IH]; intros devices.
  - exists []. cbn. rewrite app_nil_r. repeat split. constructor.
  - cbn [fmap list_fmap Discovery.kinesis_loop]. rewrite int_str.
    rewrite filter_cons.
    destruct (get_controller_type_total s) as [[ty|] Hty];
      pose proof (eq_refl (known_serial s)) as Hknown;
      unfold known_serial at 2 in Hknown; rewrite Hty in Hknown |- *.
    + destruct (kinesis_loop_known keys s ty Hty) as (d & Hd & Hne & Hs & Hdesc).
      rewrite Hne, Hd. destruct (IH (devices ++ [d])) as (found & Hloop & Hser & Hall).
      exists (d :: found). fold (Py.str <$> serials). rewrite Hloop, <- app_assoc.
      split; [reflexivity|]. rewrite decide_True by exact Hknown. split.
      * cbn [fmap list_fmap]. fold (Discovery.serial <$> found). now rewrite Hs, Hser.
      * now constructor.
    + destruct (IH devices) as (found & Hloop & Hser & Hall).
      exists found. fold (Py.str <$> serials). rewrite Hloop.
      split; [reflexivity|]. rewrite decide_False by (rewrite Hknown; discriminate).
      now split.
Qed.

(** X10. Kinesis discovery.  From the serial numbers the device manager
    lists, the result keeps, in order, exactly those whose prefix is
    registered; each entry carries the type of that prefix, the channel
    count and description of the registry, and [configured] tells whether
    the serial is a key of the stored [controllers] object.  A stored
    document whose [controllers] is not an object empties the result. *)
Theorem discover_kinesis_lists_known_devices :
  forall (env : DeviceManager.Env) (f : DeviceManager.File) (serials : list Z),
    (forall keys,
        Discovery.configured_serials (DeviceManager.load_device_config env f)
        = Py.Return keys ->
        Discovery.serial
          <$> Discovery._discover_kinesis env f (Py.Return (Py.str <$> serials))
        = filter (fun s => known_serial s = true) serials
        /\ Forall (describes keys)
             (Discovery._discover_kinesis env f (Py.Return (Py.str <$> serials))))
    /\ (forall e,
           Discovery.configured_serials (DeviceManager.load_device_config env f)
           = Py.Raise e ->
           Discovery._discover_kinesis env f (Py.Return (Py.str <$> serials)) = []).
Proof.
  intros env f serials. unfold Discovery._discover_kinesis. split.
  - intros keys ->. destruct (kinesis_loop_spec keys serials []) as (found & -> & H).
    exact H.
  - intros e ->. reflexivity.
Qed.

Lemma discover_kinesis_lists_known_devices_witness :
  Discovery.serial
    <$> Discovery._discover_kinesis healthy_env linked_file
          (Py.Return (Py.str <$> [27000001; 12345678; 97000001]))
  = [27000001; 97000001]
  /\ Discovery.configured
       <$> Discovery._discover_kinesis healthy_env linked_file
             (Py.Return (Py.str <$> [27000001; 12345678; 97000001]))
     = [false; true].
Proof.
  split.
  - apply (proj1 (discover_kinesis_lists_known_devices healthy_env linked_file
                    [27000001; 12345678; 97000001]) ["97000001"]).
    vm_compute. reflexivity.
  - vm_compute. reflexivity.
Defined.

(** What the legacy scan reports about a device. *)
Definition scanned (system : Discovery.MG17System) (d : Discovery.Device) : Prop :=
  exists (hw i : Z) (info : Controllers.ControllerInfo),
    (hw, Discovery.controller_type d) ∈ Discovery.hw_types
    /\ Discovery.GetHWSerialNumEx system hw i = Py.Return (Discovery.serial d)
    /\ Controllers.get_controller_info (Discovery.controller_type d) = Some info
    /\ Controllers.apt_hw_type info = Some hw
    /\ Discovery.dev_channels d = 1.

Lemma apt_units_scanned (system : Discovery.MG17System) (keys : list string)
    (hw : Z) (ty : string) (info : Controllers.ControllerInfo) (indices : list Z) :
  (hw, ty) ∈ Discovery.hw_types ->
  Controllers.get_controller_info ty = Some info ->
  Controllers.apt_hw_type info = Some hw -> Controllers.channels info = 1 ->
  forall devices,
    Forall (scanned system) devices ->
    Forall (scanned system) (Discovery.apt_units system keys hw ty indices devices).
Proof.
  intros Hin Hinfo Hhw Hch. induction indices as [|i indices IH]; intros devices Hall;
    [exact Hall|].
  cbn [Discovery.apt_units].
  destruct (Discovery.GetHWSerialNumEx system hw i) as [serial|] eqn:Hserial; [|exact Hall].
  unfold Discovery.summary. rewrite Hinfo. apply IH. apply Forall_app. split; [exact Hall|].
  constructor; [|constructor]. exists hw, i, info. cbn. repeat split; assumption.
Qed.

(** X11. Legacy discovery.  Every device in the result was reported by
    the APT system under one of the four scanned hardware codes, and its
    type is the registered single-channel type of that code, whatever
    the serial's prefix; so no entry is a KIM101 or a KBD101, and the
    legacy factory accepts every entry. *)
Theorem discover_apt_lists_scanned_types :
  forall (env : DeviceManager.Env) (f : DeviceManager.File)
         (system : Discovery.MG17System) (d : Discovery.Device),
    d ∈ Discovery._discover_apt env f system ->
    scanned system d
    /\ Discovery.controller_type d ∈ ["TDC001"; "KPZ101"; "KDC101"; "TPZ001"]
    /\ exists c,
         DeviceManager._create_apt_controller (Discovery.serial d) 1
           (Discovery.controller_type d)
           (Controllers.get_controller_info (Discovery.controller_type d))
         = Py.Return c.
Proof.
  intros env f system d. unfold Discovery._discover_apt.
  destruct (Discovery.StartCtrl system); [intros H; now apply elem_of_nil in H|].
  destruct (Discovery.configured_serials _) as [keys|];
    [|intros H; now apply elem_of_nil in H].
  assert (Hall : Forall (scanned system)
                   (foldl (Discovery.apt_scan system keys) [] Discovery.hw_types)).
  { assert (Hstep : forall item devices,
               item ∈ Discovery.hw_types -> Forall (scanned system) devices ->
               Forall (scanned system) (Discovery.apt_scan system keys devices item)).
    { intros [hw ty] devices Hin Hdev. unfold Discovery.apt_scan. cbn [fst snd].
      destruct (Discovery.GetNumHWUnitsEx system hw) as [count|]; [|exact Hdev].
      unfold Discovery.hw_types in Hin.
      repeat (apply elem_of_cons in Hin as [[= -> ->]|Hin];
              [eapply apt_units_scanned;
               [unfold Discovery.hw_types; set_solver|vm_compute; reflexivity
               |reflexivity|reflexivity|exact Hdev]|]).
      now apply elem_of_nil in Hin. }
    cbn [foldl Discovery.hw_types].
    repeat (apply Hstep; [unfold Discovery.hw_types; set_solver|]). constructor. }
  intros Hd. rewrite Forall_forall in Hall. specialize (Hall d Hd).
  split; [exact Hall|]. destruct Hall as (hw & i & info & Hin & _ & Hinfo & Hhw & _).
  unfold Discovery.hw_types in Hin.
  repeat (apply elem_of_cons in Hin as [[= -> Hty]|Hin];
          [rewrite Hty; split; [set_solver|eexists; vm_compute; reflexivity]|]).
  now apply elem_of_nil in Hin.
Qed.

(** An APT system with one KDC101 whose serial starts with 83. *)
Definition one_kdc101 : Discovery.MG17System :=
  {| Discovery.StartCtrl := None;
     Discovery.GetNumHWUnitsEx := fun hw => Py.Return (if hw =? 42 then 1 else 0);
     Discovery.GetHWSerialNumEx := fun hw i => Py.Return 83000001 |}.

Lemma discover_apt_lists_scanned_types_witness :
  Discovery.controller_type
    <$> Discovery._discover_apt healthy_env None one_kdc101 = ["KDC101"]
  /\ Controllers.get_controller_type 83000001 = Py.Return (Some "TDC001")
  /\ exists d c,
       Discovery.serial d = 83000001
       /\ DeviceManager._create_apt_controller (Discovery.serial d) 1
            (Discovery.controller_type d)
            (Controllers.get_controller_info (Discovery.controller_type d))
          = Py.Return c.
Proof.
  split; [vm_compute; reflexivity|]. split; [vm_compute; reflexivity|].
  eexists {| Discovery.serial := 83000001; Discovery.controller_type := "KDC101";
             Discovery.dev_channels := 1;
             Discovery.dev_description := "K-Cube DC Servo Motor Driver";
             Discovery.configured := false |}.
  destruct (discover_apt_lists_scanned_types healthy_env None one_kdc101
              {| Discovery.serial := 83000001; Discovery.controller_type := "KDC101";
                 Discovery.dev_channels := 1;
                 Discovery.dev_description := "K-Cube DC Servo Motor Driver";
                 Discovery.configured := false |}) as (_ & _ & c & Hc).
  - vm_compute. left.
  - exists c. split; [reflexivity|exact Hc].
Defined.

(** What [discover_devices_with_stages] reports about the stage of a
    device. *)
Definition stage_report (env : DeviceManager.Env) (query : Discovery.StageQuery)
    (d : Discovery.DeviceWithStage) : Prop :=
  let dev := Discovery.device d in
  (forall def,
      Discovery.stage d = Some def <->
      DeviceManager.kinesis_available env = true
      /\ Discovery.controller_type dev ∈ ["KDC101"; "KBD101"; "TDC001"]
      /\ query (Discovery.serial dev) (Discovery.controller_type dev)
         = Py.Return (Some def))
  /\ (forall info,
         Discovery.stage_params d = Some info <->
         exists def,
           Discovery.stage d = Some def
           /\ Stages.get_stage_info (Discovery.part_number def) = Some info).

#[local] Set Warnings "-clear-no-such-hyp".

Lemma with_stage_report (env : DeviceManager.Env) (query : Discovery.StageQuery)
    (backend : string) (dev : Discovery.Device) :
  DeviceManager.get_available_backend env = Py.Return backend ->
  exists d,
    Discovery.with_stage env query dev = Py.Return d
    /\ Discovery.device d = dev /\ stage_report env query d.
Proof.
  intros Hbackend.
  assert (Hparams : forall def info,
             (if negb (String.eqb (Discovery.part_number def) EmptyString)
              then Stages.get_stage_info (Discovery.part_number def) else None)
             = Some info
             <-> Stages.get_stage_info (Discovery.part_number def) = Some info).
  { intros def info. destruct (String.eqb_spec (Discovery.part_number def) EmptyString)
      as [->|_]; cbn [negb]; [|reflexivity]. split; [discriminate|].
    intros H. vm_compute in H. discriminate. }
  unfold Discovery.with_stage, Discovery.get_connected_stage_info. rewrite Hbackend.
  cbn [Py.obind]. unfold DeviceManager.get_available_backend in Hbackend.
  case_bool_decide as Hmotor.
  - destruct (DeviceManager.kinesis_available env) eqn:Hk.
    + injection Hbackend as <-. cbn [String.eqb Ascii.eqb Bool.eqb negb].
      destruct (query (Discovery.serial dev) (Discovery.controller_type dev))
        as [[def|]|e] eqn:Hq; cbn [Py.obind]; eexists; (split; [reflexivity|]);
        (split; [reflexivity|]); unfold stage_report;
        cbn [Discovery.stage Discovery.stage_params Discovery.device];
        rewrite Hk, Hq; (split; [intros def'|intros info; rewrite ?Hparams]);
        naive_solver.
    + destruct (DeviceManager.apt_available env); [|discriminate].
      injection Hbackend as <-. cbn [String.eqb Ascii.eqb Bool.eqb negb Py.obind].
      eexists. split; [reflexivity|]. split; [reflexivity|]. unfold stage_report.
      cbn [Discovery.stage Discovery.stage_params Discovery.device]. rewrite Hk.
      split; [intros def'|intros info]; naive_solver.
  - eexists. split; [reflexivity|]. split; [reflexivity|]. unfold stage_report.
    cbn [Discovery.stage Discovery.stage_params Discovery.device].
    split; [intros def'|intros info]; naive_solver.
Qed.

Lemma with_stages_report (env : DeviceManager.Env) (query : Discovery.StageQuery)
    (backend : string) (devices : list Discovery.Device) :
  DeviceManager.get_available_backend env = Py.Return backend ->
  exists ds,
    Discovery.with_stages env query devices = Py.Return ds
    /\ Discovery.device <$> ds = devices /\ Forall (stage_report env query) ds.
Proof.
  intros Hbackend. induction devices as [|dev devices (ds & Hds & Hdev & Hall)].
  - exists []. repeat split. constructor.
  - destruct (with_stage_report env query backend dev Hbackend) as (d & Hd & Hdd & Hrep).
    exists (d :: ds). cbn [Discovery.with_stages]. rewrite Hd, Hds. cbn [Py.obind].
    split; [reflexivity|]. split; [|now constructor].
    cbn [fmap list_fmap]. fold (Discovery.device <$> ds). now rewrite Hdd, Hdev.
Qed.

(** X12. Discovery with stage detection.  Whenever plain discovery
    returns, the extended one returns the same devices in the same order
    and never raises, a failing EEPROM query included.  An entry has a
    stage only on the Kinesis backend, for a KDC101, KBD101 or TDC001 whose
    query answered with a definition; it has stage parameters only if the
    reported part number is, as it stands, a key of the stage database. *)
Theorem discover_devices_with_stages_extends_discovery :
  forall (env : DeviceManager.Env) (f : DeviceManager.File)
         (GetDeviceList : Py.outcome (list string)) (system : Discovery.MG17System)
         (query : Discovery.StageQuery) (devices : list Discovery.Device),
    Discovery.discover_devices env f GetDeviceList system = Py.Return devices ->
    exists ds,
      Discovery.discover_devices_with_stages env f GetDeviceList system query
      = Py.Return ds
      /\ Discovery.device <$> ds = devices
      /\ Forall (stage_report env query) ds.
Proof.
  intros env f GetDeviceList system query devices Hdisc.
  unfold Discovery.discover_devices_with_stages. rewrite Hdisc. cbn [Py.obind].
  unfold Discovery.discover_devices in Hdisc.
  destruct (DeviceManager.get_available_backend env) as [backend|] eqn:Hbackend;
    [|discriminate].
  exact (with_stages_report env query backend devices Hbackend).
Qed.

(** A query that finds the metric variant of a translation stage. *)
Definition metric_query : Discovery.StageQuery :=
  fun _ _ => Py.Return (Some {| Discovery.part_number := "MTS25/M-Z8";
                                Discovery.stage_serial_number := None;
                                Discovery.stage_id := None |}).

Lemma discover_devices_with_stages_extends_discovery_witness :
  exists ds,
    Discovery.discover_devices_with_stages healthy_env None
      (Py.Return ["27000001"]) one_kdc101 metric_query = Py.Return ds
    /\ Discovery.serial <$> (Discovery.device <$> ds) = [27000001]
    /\ Discovery.stage_params <$> ds = [None]
    /\ Gui.match_stage "MTS25/M-Z8" = Some "MTS25-Z8".
Proof.
  destruct (discover_devices_with_stages_extends_discovery healthy_env None
              (Py.Return ["27000001"]) one_kdc101 metric_query
              (Discovery._discover_kinesis healthy_env None (Py.Return ["27000001"])))
    as (ds & Hds & Hdev & _).
  - reflexivity.
  - exists ds. split; [exact Hds|]. split; [rewrite Hdev; vm_compute; reflexivity|].
    split; [|vm_compute; reflexivity].
    vm_compute in Hds. injection Hds as <-. reflexivity.
Defined.

(** ** Sessions with a handle and an observer that returns *)

(** The handle is bound and the observer, if any, returns on every
    state. *)
Definition live {D} (s : Base.Session D) : Prop :=
  is_Some (Base._device s) /\ quiet s.

(** What an operation that does not lose the connection keeps. *)
Definition carries {D} (s s' : Base.Session D) : Prop :=
  live s'
  /\ Base._step_count s' = Base._step_count s
  /\ Base._stage_config s' = Base._stage_config s
  /\ Base.channel s' = Base.channel s.

Lemma carries_refl {D} (s : Base.Session D) : live s -> carries s s.
Proof. intros Hs. split; [exact Hs|]. repeat split. Qed.

Lemma carries_trans {D} (s1 s2 s3 : Base.Session D) :
  carries s1 s2 -> carries s2 s3 -> carries s1 s3.
Proof.
  intros (_ & Hc1 & Hg1 & Hch1) (Hl & Hc2 & Hg2 & Hch2).
  repeat split; try apply Hl; congruence.
Qed.

Lemma _set_state_live {D} (st : Base.ControllerState) (s : Base.Session D) :
  live s ->
  exists s', Base._set_state st s = (Py.Return tt, s')
             /\ carries s s' /\ Base.state s' = st.
Proof.
  intros [Hdev Hquiet]. specialize (Hquiet st) as Hst.
  unfold Base._set_state, observer_returns in *.
  destruct s as [serial channel st0 cfg [observer|] seen dev steps]; cbn in *.
  - rewrite Hst. eexists. split; [reflexivity|]. repeat split; try exact Hdev.
    intros st'. exact (Hquiet st').
  - eexists. split; [reflexivity|]. repeat split; try exact Hdev.
Qed.

Lemma call_live {D A} (op : Py.M D A) (s : Base.Session D) :
  live s ->
  exists r s', Base.call op s = (r, s') /\ carries s s' /\ Base.state s' = Base.state s.
Proof.
  intros [[d Hd] Hquiet]. unfold Base.call. rewrite Hd.
  destruct (op d) as [r d']. exists r, (Base.with_device (Some d') s).
  split; [reflexivity|]. repeat split; try (eexists; reflexivity).
  intros st. exact (Hquiet st).
Qed.

Lemma has_device_live {D} (s : Base.Session D) :
  live s -> Base.has_device s = (Py.Return true, s).
Proof.
  intros [Hdev _]. unfold Base.has_device, Py.gets.
  now rewrite bool_decide_eq_true_2.
Qed.

Lemma has_device_none {D} (s : Base.Session D) :
  Base._device s = None -> Base.has_device s = (Py.Return false, s).
Proof.
  intros Hnone. unfold Base.has_device, Py.gets. rewrite Hnone.
  rewrite bool_decide_eq_false_2; [reflexivity|]. intros [? [=]].
Qed.

(** ** The inertial driver (kinesis/kim101.py) *)

Section InertialDriver.
Context {D : Type} `{KIM101.KCubeInertialMotor D}.

Lemma _get_channel_enum_live (s : Base.Session D) :
  exists r, KIM101._get_channel_enum s = (r, s).
Proof. unfold KIM101._get_channel_enum. case_bool_decide; eexists; reflexivity. Qed.

(** A guarded backend call on the channel: the outcome is absorbed. *)
Lemma channel_call_live {A} (op : Z -> Py.M D unit) (k : Py.M (Base.Session D) A)
    (a0 a' : A) (s : Base.Session D) :
  live s ->
  (forall s0, k s0 = (Py.Return a0, s0)) ->
  exists (a : A) s',
    Py.try_except
      (Py.bind KIM101._get_channel_enum (fun channel_enum =>
       Py.bind (Base.call (op channel_enum)) (fun _ => k)))
      (fun _ => Py.ret a') s
    = (Py.Return a, s')
    /\ carries s s' /\ Base.state s' = Base.state s.
Proof.
  intros Hlive Hk. unfold Py.try_except, Py.bind.
  destruct (_get_channel_enum_live s) as [[ch|e] ->].
  - destruct (call_live (op ch) s Hlive) as (r & s' & -> & Hcar & Hst).
    destruct r as [[]|e]; [rewrite Hk|]; eexists _, s'; (split; [reflexivity|]);
      split; assumption.
  - eexists _, s. split; [reflexivity|]. split; [now apply carries_refl|reflexivity].
Qed.

Lemma jog_continuous_live (direction : Z) (s : Base.Session D) :
  live s ->
  exists b s',
    KIM101.jog_continuous direction s = (Py.Return b, s')
    /\ carries s s' /\ Base.state s' = Base.state s.
Proof.
  intros Hlive. unfold KIM101.jog_continuous.
  rewrite (bind_Return _ _ _ _ _ (has_device_live s Hlive)). cbn [negb].
  apply (channel_call_live
           (fun ch => KIM101.Jog ch (if 0 <? direction then KIM101.Increase
                                     else KIM101.Decrease))
           (Py.ret true) true false s Hlive).
  reflexivity.
Qed.

Lemma stop_live (s : Base.Session D) :
  live s ->
  exists s', KIM101.stop s = (Py.Return tt, s')
             /\ carries s s' /\ Base.state s' = Base.CONNECTED.
Proof.
  intros Hlive. unfold KIM101.stop.
  rewrite (bind_Return _ _ _ _ _ (has_device_live s Hlive)).
  assert (Hguard : exists (u : unit) s1,
             Py.try_except
               (Py.bind KIM101._get_channel_enum (fun channel_enum =>
                Base.call (KIM101.Stop channel_enum)))
               (fun _ => Py.ret tt) s
             = (Py.Return u, s1) /\ carries s s1).
  { unfold Py.try_except, Py.bind.
    destruct (_get_channel_enum_live s) as [[ch|e] ->].
    - destruct (call_live (KIM101.Stop ch) s Hlive) as (r & s' & -> & Hcar & _).
      destruct r as [[]|e]; eexists _, s'; (split; [reflexivity|exact Hcar]).
    - eexists tt, s. split; [reflexivity|now apply carries_refl]. }
  destruct Hguard as ([] & s1 & Hs1 & Hcar1).
  rewrite (bind_Return _ _ _ _ _ Hs1).
  destruct (_set_state_live Base.CONNECTED s1 (proj1 Hcar1)) as (s2 & -> & Hcar2 & Hst).
  exists s2. split; [reflexivity|]. split; [|exact Hst].
  exact (carries_trans _ _ _ Hcar1 Hcar2).
Qed.

Lemma sleep_until_live (timeout : nat) (s : Base.Session D) :
  live s ->
  exists s', KIM101.sleep_until timeout s = (Py.Return tt, s')
             /\ carries s s' /\ Base.state s' = Base.state s.
Proof.
  intros [[d Hd] Hquiet]. rewrite sleep_until_spec, Hd. eexists. split; [reflexivity|].
  repeat split; try (eexists; reflexivity). intros st. exact (Hquiet st).
Qed.

End InertialDriver.

(** X13. [move_to_limit] on the KIM101.  On a connected channel whose
    observer returns, the call starts a jog, sleeps until the timeout, stops
    and returns [True] with the state Connected and the step counter at 0,
    whatever the backend did: the loop polls no status, and a jog or a stop
    that the backend rejects is absorbed.  Without a handle it returns
    [False] and changes nothing. *)
Theorem KIM101_move_to_limit_always_reports_limit :
  forall (D : Type) (backend : KIM101.KCubeInertialMotor D)
         (direction : Z) (timeout : nat) (s : Base.Session D),
    (live s ->
     exists s',
       KIM101.move_to_limit direction timeout s = (Py.Return true, s')
       /\ Base.state s' = Base.CONNECTED
       /\ Base._step_count s' = 0
       /\ is_Some (Base._device s'))
    /\ (Base._device s = None ->
        KIM101.move_to_limit direction timeout s = (Py.Return false, s)).
Proof.
  intros D backend direction timeout s. split.
  - intros Hlive. unfold KIM101.move_to_limit.
    rewrite (bind_Return _ _ _ _ _ (has_device_live s Hlive)). cbn [negb].
    destruct (_set_state_live Base.MOVING s Hlive) as (s1 & Hs1 & Hc1 & _).
    destruct (jog_continuous_live direction s1 (proj1 Hc1)) as (b & s2 & Hs2 & Hc2 & _).
    destruct (sleep_until_live timeout s2 (proj1 Hc2)) as (s3 & Hs3 & Hc3 & _).
    destruct (stop_live s3 (proj1 Hc3)) as (s4 & Hs4 & Hc4 & _).
    destruct (_set_state_live Base.CONNECTED s4 (proj1 Hc4)) as (s5 & Hs5 & Hc5 & Hst5).
    exists (Base.with_step_count 0 s5). split.
    + apply try_except_Return.
      rewrite (bind_Return _ _ _ _ _ Hs1), (bind_Return _ _ _ _ _ Hs2).
      rewrite (bind_Return _ _ _ _ _ Hs3), (bind_Return _ _ _ _ _ Hs4).
      rewrite (bind_Return _ _ _ _ _ Hs5). reflexivity.
    + split; [exact Hst5|]. split; [reflexivity|]. exact (proj1 (proj1 Hc5)).
  - intros Hnone. unfold KIM101.move_to_limit.
    now rewrite (bind_Return _ _ _ _ _ (has_device_none s Hnone)).
Qed.

(** A driver that rejects every command. *)
#[local] Instance refusing_kim101 : KIM101.KCubeInertialMotor unit := {
  KIM101.StopPolling := fun d => (Py.Raise Py.BackendError, d);
  KIM101.Disconnect := fun d => (Py.Raise Py.BackendError, d);
  KIM101.Jog := fun _ _ d => (Py.Raise Py.BackendError, d);
  KIM101.Stop := fun _ d => (Py.Raise Py.BackendError, d);
  KIM101.sleep := fun d => d;
}.

Lemma KIM101_move_to_limit_always_reports_limit_witness :
  (KIM101.move_to_limit 1 600 (Sim.connected 97000001 1 tt)).1 = Py.Return true.
Proof.
  destruct (proj1 (KIM101_move_to_limit_always_reports_limit unit refusing_kim101 1 600
                     (Sim.connected 97000001 1 tt))) as (s' & -> & _).
  - split; [eexists; reflexivity|]. now apply quiet_without_observer.
  - reflexivity.
Defined.

(** X14. [stop] on the two Kinesis motor classes.  The KIM101 absorbs a
    failure of the backend's stop: on a connected channel it returns and
    the state is Connected whatever the backend did.  The KDC101 does
    not: an exception of the backend's stop leaves the method and the
    state stays what it was.  Without a handle both return at once and
    do not touch the state. *)
Theorem stop_absorbs_only_on_inertial :
  (forall (D : Type) (backend : KIM101.KCubeInertialMotor D) (s : Base.Session D),
      (live s ->
       exists s', KIM101.stop s = (Py.Return tt, s')
                  /\ Base.state s' = Base.CONNECTED)
      /\ (Base._device s = None -> KIM101.stop s = (Py.Return tt, s)))
  /\ (forall (D : Type) (backend : KDC101.KCubeDCServo D) (s : Base.Session D),
         (forall d d' e,
             Base._device s = Some d -> KDC101.Stop 0 d = (Py.Raise e, d') ->
             KDC101.stop s = (Py.Raise e, Base.with_device (Some d') s))
         /\ (forall d d',
                live s ->
                Base._device s = Some d -> KDC101.Stop 0 d = (Py.Return tt, d') ->
                exists s', KDC101.stop s = (Py.Return tt, s')
                           /\ Base.state s' = Base.CONNECTED)
         /\ (Base._device s = None -> KDC101.stop s = (Py.Return tt, s))).
Proof.
  split.
  - intros D backend s. split.
    + intros Hlive. destruct (stop_live s Hlive) as (s' & Hs' & _ & Hst). now exists s'.
    + intros Hnone. unfold KIM101.stop.
      now rewrite (bind_Return _ _ _ _ _ (has_device_none s Hnone)).
  - intros D backend s. split; [|split].
    + intros d d' e Hd Hstop. unfold KDC101.stop, Py.bind, Base.has_device, Py.gets.
      rewrite Hd. rewrite bool_decide_eq_true_2 by (eexists; reflexivity).
      unfold Base.call. now rewrite Hd, Hstop.
    + intros d d' Hlive Hd Hstop. unfold KDC101.stop.
      rewrite (bind_Return _ _ _ _ _ (has_device_live s Hlive)).
      destruct (call_live (KDC101.Stop 0) s Hlive) as (r & s1 & Hcall & Hcar & _).
      assert (r = Py.Return tt) as ->.
      { unfold Base.call in Hcall. rewrite Hd, Hstop in Hcall. congruence. }
      rewrite (bind_Return _ _ _ _ _ Hcall).
      destruct (_set_state_live Base.CONNECTED s1 (proj1 Hcar)) as (s2 & -> & _ & Hst).
      now exists s2.
    + intros Hnone. unfold KDC101.stop.
      now rewrite (bind_Return _ _ _ _ _ (has_device_none s Hnone)).
Qed.

(** A servo driver that rejects every command. *)
#[local] Instance refusing_kdc101 : KDC101.KCubeDCServo unit := {
  KDC101.StopPolling := fun d => (Py.Raise Py.BackendError, d);
  KDC101.Disconnect := fun d => (Py.Raise Py.BackendError, d);
  KDC101.MoveRelative := fun _ _ _ d => (Py.Raise Py.BackendError, d);
  KDC101.Stop := fun _ d => (Py.Raise Py.BackendError, d);
  KDC101.Status_IsMoving := fun d => (Py.Raise Py.BackendError, d);
  KDC101.Position := fun d => (Py.Raise Py.BackendError, d);
  KDC101.sleep := fun d => d;
}.

(** A controller in the middle of a move. *)
Definition moving_session : Base.Session unit :=
  Base.with_state Base.MOVING (Sim.connected 27123456 1 tt).

Lemma stop_absorbs_only_on_inertial_witness :
  @KDC101.stop unit refusing_kdc101 moving_session
  = (Py.Raise Py.BackendError, moving_session)
  /\ exists s', @KIM101.stop unit refusing_kim101 moving_session = (Py.Return tt, s')
                /\ Base.state s' = Base.CONNECTED.
Proof.
  destruct stop_absorbs_only_on_inertial as [Hkim Hkdc]. split.
  - apply (proj1 (Hkdc unit refusing_kdc101 moving_session) tt tt Py.BackendError);
      reflexivity.
  - apply (proj1 (Hkim unit refusing_kim101 moving_session)).
    split; [eexists; reflexivity|]. now apply quiet_without_observer.
Defined.

(** X15. [move_relative(distance, wait=False)] on the KDC101.  With a
    handle and an observer that returns, the method issues one
    [MoveRelative] (forward for a positive distance, backward otherwise,
    by the absolute value, with timeout 0) and does nothing else with the
    device: if the command is accepted it returns [True] with the state
    Connected at once, without polling the status, and if the command
    raises it raises [MovementError] with the state Error. *)
Theorem KDC101_move_relative_nowait_returns_at_once :
  forall (D : Type) (backend : KDC101.KCubeDCServo D) (distance : Q) (timeout : nat)
         (s : Base.Session D) (d d' : D) (r : Py.outcome unit),
    Base._device s = Some d -> quiet s ->
    KDC101.MoveRelative
      (if Qlt_le_dec 0 distance then KDC101.Forward else KDC101.Backward)
      (Qabs distance) 0 d = (r, d') ->
    exists s',
      Base._device s' = Some d'
      /\ match r with
         | Py.Return _ =>
             KDC101.move_relative distance false timeout s = (Py.Return true, s')
             /\ Base.state s' = Base.CONNECTED
         | Py.Raise _ =>
             KDC101.move_relative distance false timeout s
             = (Py.Raise Py.MovementError, s')
             /\ Base.state s' = Base.ERROR
         end.
Proof.
  intros D backend distance timeout s d d' r Hd Hquiet Hmove.
  assert (Hlive : live s) by (split; [eexists; exact Hd|exact Hquiet]).
  unfold KDC101.move_relative.
  rewrite (bind_Return _ _ _ _ _ (has_device_live s Hlive)). cbn [negb].
  destruct (_set_state_live Base.MOVING s Hlive) as (s1 & Hs1 & Hc1 & _).
  assert (Hd1 : Base._device s1 = Some d).
  { pose proof (proj1 (proj2 (_set_state_spec Base.MOVING s))) as Hdev.
    rewrite Hs1 in Hdev. cbn [snd] in Hdev. congruence. }
  assert (Hcall : Base.call (KDC101.MoveRelative
                               (if Qlt_le_dec 0 distance then KDC101.Forward
                                else KDC101.Backward) (Qabs distance) 0) s1
                  = (r, Base.with_device (Some d') s1)).
  { unfold Base.call. now rewrite Hd1, Hmove. }
  assert (Hlive2 : live (Base.with_device (Some d') s1)).
  { split; [eexists; reflexivity|]. intros st. exact (proj2 (proj1 Hc1) st). }
  destruct r as [[]|e]; unfold Py.try_except; rewrite (bind_Return _ _ _ _ _ Hs1);
    unfold Py.bind at 1; rewrite Hcall.
  - unfold Py.bind at 1. cbn [Py.ret].
    destruct (_set_state_live Base.CONNECTED _ Hlive2) as (s3 & Hs3 & Hc3 & Hst3).
    rewrite (bind_Return _ _ _ _ _ Hs3). exists s3. split; [|split; [reflexivity|exact Hst3]].
    pose proof (proj1 (proj2 (_set_state_spec Base.CONNECTED
                                (Base.with_device (Some d') s1)))) as Hdev.
    rewrite Hs3 in Hdev. exact Hdev.
  - destruct (_set_state_live Base.ERROR _ Hlive2) as (s3 & Hs3 & Hc3 & Hst3).
    cbv beta iota. rewrite (bind_Return _ _ _ _ _ Hs3). exists s3. split; [|split; [reflexivity|exact Hst3]].
    pose proof (proj1 (proj2 (_set_state_spec Base.ERROR
                                (Base.with_device (Some d') s1)))) as Hdev.
    rewrite Hs3 in Hdev. exact Hdev.
Qed.

(** A move of 1.5 units, not waited for, on a servo that needs three
    polling periods to settle: the call has returned and the servo is
    still busy. *)
Lemma KDC101_move_relative_nowait_returns_at_once_witness :
  exists s',
    Base._device s' = Some {| Sim.pos := 3 # 2; Sim.busy := 3; Sim.lag := 3;
                              Sim.refuses_moves := false;
                              Sim.teardown_throws := false |}
    /\ KDC101.move_relative (3 # 2) false 5
         (servo_session Base.CONNECTED (servo_at 0 0 3)) = (Py.Return true, s')
    /\ Base.state s' = Base.CONNECTED.
Proof.
  apply (KDC101_move_relative_nowait_returns_at_once Sim.Servo Sim.servo_kdc101
           (3 # 2) 5 (servo_session Base.CONNECTED (servo_at 0 0 3))
           (servo_at 0 0 3) _ (Py.Return tt)).
  - reflexivity.
  - now apply quiet_without_observer.
  - reflexivity.
Defined.

(** ** The step counter of an inertial channel (base.py, kinesis/kim101.py) *)

(** A computation that leaves a step counter of zero at zero. *)
Definition zero_steps {D A} (m : Py.M (Base.Session D) A) : Prop :=
  forall s, Base._step_count s = 0 -> Base._step_count (m s).2 = 0.

Section ZeroSteps.
Context {D : Type}.

Lemma zero_steps_bind {A B} (m : Py.M (Base.Session D) A)
    (k : A -> Py.M (Base.Session D) B) :
  zero_steps m -> (forall a, zero_steps (k a)) -> zero_steps (Py.bind m k).
Proof.
  intros Hm Hk s Hs. unfold Py.bind. specialize (Hm s Hs).
  destruct (m s) as [[a|e] s1]; [now apply Hk|exact Hm].
Qed.

Lemma zero_steps_try {A} (body : Py.M (Base.Session D) A)
    (handler : Py.exc -> Py.M (Base.Session D) A) :
  zero_steps body -> (forall e, zero_steps (handler e)) ->
  zero_steps (Py.try_except body handler).
Proof.
  intros Hb Hh s Hs. unfold Py.try_except. specialize (Hb s Hs).
  destruct (body s) as [[a|e] s1]; [exact Hb|now apply Hh].
Qed.

Lemma zero_steps_ret {A} (a : A) : zero_steps (Py.ret (S := Base.Session D) a).
Proof. intros s Hs. exact Hs. Qed.

Lemma zero_steps_raise {A} (e : Py.exc) :
  zero_steps (Py.raise (S := Base.Session D) (A := A) e).
Proof. intros s Hs. exact Hs. Qed.

Lemma zero_steps_gets {A} (f : Base.Session D -> A) : zero_steps (Py.gets f).
Proof. intros s Hs. exact Hs. Qed.

Lemma zero_steps_set_state (st : Base.ControllerState) :
  zero_steps (Base._set_state (D := D) st).
Proof.
  intros s Hs. unfold Base._set_state.
  destruct (Base._on_state_change (Base.with_state st s)); exact Hs.
Qed.

Lemma zero_steps_call {A} (op : Py.M D A) : zero_steps (Base.call op).
Proof.
  intros s Hs. unfold Base.call. destruct (Base._device s) as [d|]; [|exact Hs].
  destruct (op d). exact Hs.
Qed.

Lemma zero_steps_device (f : Base.Session D -> option D) :
  zero_steps (Py.modify (fun s => Base.with_device (f s) s)).
Proof. intros s Hs. exact Hs. Qed.

Lemma zero_steps_drop_device : zero_steps (Py.modify (Base.with_device (D := D) None)).
Proof. intros s Hs. exact Hs. Qed.

Lemma zero_steps_reset : zero_steps (Py.modify (Base.with_step_count (D := D) 0)).
Proof. intros s _. reflexivity. Qed.

Lemma zero_steps_if {A} (c : bool) (m1 m2 : Py.M (Base.Session D) A) :
  zero_steps m1 -> zero_steps m2 -> zero_steps (if c then m1 else m2).
Proof. now destruct c. Qed.

Lemma zero_steps_def1 {A} (body : Z -> Py.M (Base.Session D) A) (args : list Z) :
  (forall a, zero_steps (body a)) -> zero_steps (Base.def1 body args).
Proof.
  intros Hbody. destruct args as [|a [|b args]]; [apply zero_steps_raise|apply Hbody|].
  apply zero_steps_raise.
Qed.

End ZeroSteps.

Create HintDb steps discriminated.

#[local] Hint Resolve zero_steps_ret zero_steps_raise zero_steps_gets
  zero_steps_set_state zero_steps_call zero_steps_device zero_steps_drop_device
  zero_steps_reset : steps.
#[local] Hint Extern 2 (zero_steps (Py.bind _ _)) =>
  apply zero_steps_bind; [|intros ?] : steps.
#[local] Hint Extern 2 (zero_steps (Py.try_except _ _)) =>
  apply zero_steps_try; [|intros ?] : steps.
#[local] Hint Extern 2 (zero_steps (if _ then _ else _)) => apply zero_steps_if : steps.
#[local] Hint Extern 2 (zero_steps (Base.def1 _ _)) =>
  apply zero_steps_def1; intros ? : steps.

Section InertialSteps.
Context {D : Type} `{KIM101.KCubeInertialMotor D}.

Lemma zero_steps_channel : zero_steps (KIM101._get_channel_enum (D := D)).
Proof. intros s Hs. unfold KIM101._get_channel_enum. now case_bool_decide. Qed.

Lemma zero_steps_sleep_until (timeout : nat) : zero_steps (KIM101.sleep_until timeout).
Proof. intros s Hs. now rewrite sleep_until_spec. Qed.

Hint Resolve zero_steps_channel zero_steps_sleep_until : steps.

Lemma zero_steps_disconnect : zero_steps KIM101.disconnect.
Proof. unfold KIM101.disconnect, Base.has_device. auto 12 with steps. Qed.

Lemma zero_steps_stop : zero_steps KIM101.stop.
Proof. unfold KIM101.stop, Base.has_device. auto 12 with steps. Qed.

Lemma zero_steps_jog (direction : Z) : zero_steps (KIM101.jog direction).
Proof. unfold KIM101.jog, Base.has_device. auto 12 with steps. Qed.

Lemma zero_steps_jog_continuous (direction : Z) :
  zero_steps (KIM101.jog_continuous direction).
Proof. unfold KIM101.jog_continuous, Base.has_device. auto 12 with steps. Qed.

Hint Resolve zero_steps_stop zero_steps_jog zero_steps_jog_continuous : steps.

Lemma zero_steps_move_to_limit (direction : Z) (timeout : nat) :
  zero_steps (KIM101.move_to_limit direction timeout).
Proof. unfold KIM101.move_to_limit, Base.has_device. auto 20 with steps. Qed.

Lemma zero_steps_move_relative (distance : Q) (wait : bool) (timeout : nat) :
  zero_steps (KIM101.move_relative distance wait timeout).
Proof.
  unfold KIM101.move_relative, Base.InertialController_move_relative.
  auto 12 with steps.
Qed.

Lemma zero_steps_move_absolute (position : Q) (wait : bool) (timeout : nat) :
  zero_steps (KIM101.move_absolute position wait timeout).
Proof.
  unfold KIM101.move_absolute, Base.InertialController_move_absolute,
    Base.InertialController_get_position.
  apply zero_steps_bind; [auto with steps|]. intros current.
  apply (zero_steps_move_relative (position - current)%Q wait timeout).
Qed.

End InertialSteps.

(** The methods of a KIM101 controller object that are modelled, as a
    client calls them one after another. *)
Inductive operation : Type :=
| Configure (stage : Stages.StageInfo)
| SetCallbacks (observer : option Base.Observer)
| Disconnect
| Stop
| Jog (direction : Z)
| JogContinuous (direction : Z)
| MoveToLimit (direction : Z) (timeout : nat)
| Home (wait : bool) (timeout : nat)
| GetPosition
| MoveRelative (distance : Q) (wait : bool) (timeout : nat)
| MoveAbsolute (position : Q) (wait : bool) (timeout : nat)
| ResetStepCount.

(** The session after one call, whether it returned or raised. *)
Definition perform {D} `{KIM101.KCubeInertialMotor D} (s : Base.Session D)
    (op : operation) : Base.Session D :=
  match op with
  | Configure stage => Base.configure_stage stage s
  | SetCallbacks observer => Base.set_callbacks observer s
  | Disconnect => (KIM101.disconnect s).2
  | Stop => (KIM101.stop s).2
  | Jog direction => (KIM101.jog direction s).2
  | JogContinuous direction => (KIM101.jog_continuous direction s).2
  | MoveToLimit direction timeout => (KIM101.move_to_limit direction timeout s).2
  | Home wait timeout => (KIM101.home wait timeout s).2
  | GetPosition => (KIM101.get_position s).2
  | MoveRelative distance wait timeout =>
      (KIM101.move_relative distance wait timeout s).2
  | MoveAbsolute position wait timeout =>
      (KIM101.move_absolute position wait timeout s).2
  | ResetStepCount => (Inertial.reset_step_count s).2
  end.



(** ** The piezo variant (base.py, kinesis/kpz101.py, apt/piezo.py) *)

Lemma clamp_idempotent (lo hi v : Q) :
  Piezo.py_max lo (Piezo.py_min hi (Piezo.py_max lo (Piezo.py_min hi v)))
  = Piezo.py_max lo (Piezo.py_min hi v).
Proof.
  unfold Piezo.py_max, Piezo.py_min.
  repeat (destruct (Qlt_le_dec _ _); try reflexivity); exfalso; lra.
Qed.

Lemma clamp_bounds (lo hi v : Q) :
  (lo <= Piezo.py_max lo (Piezo.py_min hi v))%Q
  /\ ((lo <= hi)%Q -> (Piezo.py_max lo (Piezo.py_min hi v) <= hi)%Q)
  /\ ((lo <= v <= hi)%Q -> (Piezo.py_max lo (Piezo.py_min hi v) == v)%Q)
  /\ ((hi < lo)%Q -> Piezo.py_max lo (Piezo.py_min hi v) = lo).
Proof.
  unfold Piezo.py_max, Piezo.py_min.
  repeat split; intros; repeat (destruct (Qlt_le_dec _ _); try reflexivity); lra.
Qed.

(** X17. The "safe" setter of the piezo base class adds nothing to the
    setters of the two implementations: these clamp the voltage to the
    range themselves, and clamping twice is clamping once, so
    [set_voltage_safe(v)] and [set_voltage(v)] are the same call in every
    session and with every backend. *)
Theorem set_voltage_safe_is_set_voltage :
  (forall (D : Type) (backend : Piezo.KCubePiezo D) (voltage : Q)
          (s : Piezo.Session D),
      Piezo.set_voltage_safe Piezo.KPZ101.set_voltage voltage s
      = Piezo.KPZ101.set_voltage voltage s)
  /\ (forall (D : Type) (backend : Piezo.APTPiezo D) (voltage : Q)
             (s : Piezo.Session D),
         Piezo.set_voltage_safe Piezo.APT.set_voltage voltage s
         = Piezo.APT.set_voltage voltage s).
Proof.
  split; intros D backend voltage s;
    unfold Piezo.set_voltage_safe, Piezo.KPZ101.set_voltage, Piezo.APT.set_voltage,
      Py.bind, Py.try_except, Piezo.has_device, Py.gets;
    destruct (negb _); try reflexivity;
    unfold Piezo.clamp; now rewrite clamp_idempotent.
Qed.

(** What one [set_voltage] does on a session with a handle: the device
    is handed the clamped voltage; the observer is told only if the device
    accepted it; the result is [True] only if both went through. *)
Definition voltage_set {D} (set_output : Q -> Py.M D unit)
    (r : Py.outcome bool) (s s' : Piezo.Session D) (voltage : Q) (d : D) : Prop :=
  let applied := Piezo.clamp s voltage in
  let '(accepted, d') := set_output applied d in
  Piezo._device s' = Some d'
  /\ match accepted with
     | Py.Raise _ => r = Py.Return false /\ Piezo.voltages s' = Piezo.voltages s
     | Py.Return _ =>
         match Piezo._on_voltage_change s with
         | None => r = Py.Return true /\ Piezo.voltages s' = Piezo.voltages s
         | Some observer =>
             Piezo.voltages s' = applied :: Piezo.voltages s
             /\ r = Py.Return (bool_decide (observer applied = None))
         end
     end.

(** X18. [set_voltage] of both piezo implementations never raises.
    Without a handle it returns [False] and does nothing.  With a handle
    the device receives the voltage clamped into the range (within the
    bounds when the range is a proper interval, unchanged when it already
    lies in it); a device that rejects it gives [False] and the observer
    is not told; an observer that raises gives [False] although the device
    has taken the voltage. *)
Theorem set_voltage_clamps_and_never_raises :
  forall (D : Type) (voltage : Q) (s : Piezo.Session D),
    ((Piezo.voltage_min s <= Piezo.voltage_max s)%Q ->
     (Piezo.voltage_min s <= Piezo.clamp s voltage <= Piezo.voltage_max s)%Q)
    /\ ((Piezo.voltage_min s <= voltage <= Piezo.voltage_max s)%Q ->
        (Piezo.clamp s voltage == voltage)%Q)
    /\ (forall (backend : Piezo.KCubePiezo D),
           (Piezo._device s = None ->
            Piezo.KPZ101.set_voltage voltage s = (Py.Return false, s))
           /\ forall d, Piezo._device s = Some d ->
                voltage_set Piezo.SetOutputVoltage
                  (Piezo.KPZ101.set_voltage voltage s).1
                  s (Piezo.KPZ101.set_voltage voltage s).2 voltage d)
    /\ (forall (backend : Piezo.APTPiezo D),
           (Piezo._device s = None ->
            Piezo.APT.set_voltage voltage s = (Py.Return false, s))
           /\ forall d, Piezo._device s = Some d ->
                voltage_set Piezo.piezo_set_voltage
                  (Piezo.APT.set_voltage voltage s).1
                  s (Piezo.APT.set_voltage voltage s).2 voltage d).
Proof.
  intros D voltage s.
  destruct (clamp_bounds (Piezo.voltage_min s) (Piezo.voltage_max s) voltage)
    as (Hlo & Hhi & Hin & _).
  split; [intros Hrange; split; [exact Hlo|exact (Hhi Hrange)]|].
  split; [exact Hin|].
  split; intros backend; (split; [intros Hnone|intros d Hd]);
    unfold Piezo.KPZ101.set_voltage, Piezo.APT.set_voltage, Py.bind, Py.try_except,
      Piezo.has_device, Py.gets, Piezo.call, Piezo.notify_voltage, voltage_set.
  - rewrite Hnone. rewrite bool_decide_eq_false_2; [reflexivity|intros [? [=]]].
  - rewrite Hd. rewrite bool_decide_eq_true_2 by (eexists; reflexivity). cbn [negb].
    rewrite Hd.
    destruct (Piezo.SetOutputVoltage (Piezo.clamp s voltage) d) as [[[]|e] d'];
      cbn [Piezo._on_voltage_change Piezo.with_device]; [|now split].
    destruct (Piezo._on_voltage_change s) as [observer|]; [|now split].
    destruct (observer (Piezo.clamp s voltage)); now split.
  - rewrite Hnone. rewrite bool_decide_eq_false_2; [reflexivity|intros [? [=]]].
  - rewrite Hd. rewrite bool_decide_eq_true_2 by (eexists; reflexivity). cbn [negb].
    rewrite Hd.
    destruct (Piezo.piezo_set_voltage (Piezo.clamp s voltage) d) as [[[]|e] d'];
      cbn [Piezo._on_voltage_change Piezo.with_device]; [|now split].
    destruct (Piezo._on_voltage_change s) as [observer|]; [|now split].
    destruct (observer (Piezo.clamp s voltage)); now split.
Qed.

(** A piezo device that records the voltages it was given. *)
#[local] Instance recording_kpz101 : Piezo.KCubePiezo (list Q) := {
  Piezo.Connect := fun _ d => (Py.Return tt, d);
  Piezo.IsSettingsInitialized := fun d => (Py.Return true, d);
  Piezo.WaitForSettingsInitialized := fun _ d => (Py.Return tt, d);
  Piezo.StartPolling := fun _ d => (Py.Return tt, d);
  Piezo.GetMaxOutputVoltage := fun d => (Py.Return 75%Q, d);
  Piezo.StopPolling := fun d => (Py.Return tt, d);
  Piezo.Disconnect := fun d => (Py.Return tt, d);
  Piezo.SetOutputVoltage := fun v d => (Py.Return tt, v :: d);
  Piezo.GetOutputVoltage := fun d => (Py.Return (hd 0%Q d), d);
  Piezo.SetPosition := fun _ d => (Py.Return tt, d);
  Piezo.GetPosition := fun d => (Py.Return 0%Q, d);
  Piezo.sleep := fun d => d;
}.

(** A connected KPZ101 whose voltage observer raises. *)
Definition watched_piezo : Piezo.Session (list Q) :=
  Piezo.set_callbacks None (Some (fun _ => Some Py.ValueError))
    (Piezo.with_device (Some []) (Piezo.init 29000001 1)).

Lemma set_voltage_clamps_and_never_raises_witness :
  (@Piezo.KPZ101.set_voltage (list Q) recording_kpz101 100 watched_piezo).1
  = Py.Return false
  /\ Piezo._device
       (@Piezo.KPZ101.set_voltage (list Q) recording_kpz101 100 watched_piezo).2
     = Some [75%Q].
Proof.
  destruct (set_voltage_clamps_and_never_raises (list Q) 100 watched_piezo)
    as (_ & _ & Hkpz & _).
  destruct (Hkpz recording_kpz101) as [_ Hset]. specialize (Hset [] eq_refl).
  unfold voltage_set in Hset. cbn in Hset. destruct Hset as (Hdev & _ & Hr).
  split; [exact Hr|exact Hdev].
Defined.

(** *** Pre- and postconditions of method bodies *)

(** From a state in [P], [m] either returns [a] in a state with [Q a] or
    raises [e] in a state with [E e]. *)
Definition triple {S A} (P : S -> Prop) (m : Py.M S A)
    (Q : A -> S -> Prop) (E : Py.exc -> S -> Prop) : Prop :=
  forall s, P s ->
    match m s with
    | (Py.Return a, s') => Q a s'
    | (Py.Raise e, s') => E e s'
    end.

Section Triples.
Context {S : Type}.

Lemma triple_bind {A B} (P : S -> Prop) (m : Py.M S A) (k : A -> Py.M S B)
    (Q : A -> S -> Prop) (R : B -> S -> Prop) (E : Py.exc -> S -> Prop) :
  triple P m Q E -> (forall a, triple (Q a) (k a) R E) -> triple P (Py.bind m k) R E.
Proof.
  intros Hm Hk s Hs. unfold Py.bind. specialize (Hm s Hs).
  destruct (m s) as [[a|e] s1]; [exact (Hk a s1 Hm)|exact Hm].
Qed.

Lemma triple_try {A} (P : S -> Prop) (body : Py.M S A)
    (handler : Py.exc -> Py.M S A) (Q : A -> S -> Prop)
    (E E' : Py.exc -> S -> Prop) :
  triple P body Q E -> (forall e, triple (E e) (handler e) Q E') ->
  triple P (Py.try_except body handler) Q E'.
Proof.
  intros Hb Hh s Hs. unfold Py.try_except. specialize (Hb s Hs).
  destruct (body s) as [[a|e] s1]; [exact Hb|exact (Hh e s1 Hb)].
Qed.

Lemma triple_weaken {A} (P P' : S -> Prop) (m : Py.M S A) (Q Q' : A -> S -> Prop)
    (E E' : Py.exc -> S -> Prop) :
  triple P m Q E -> (forall s, P' s -> P s) -> (forall a s, Q a s -> Q' a s) ->
  (forall e s, E e s -> E' e s) -> triple P' m Q' E'.
Proof.
  intros Hm HP HQ HE s Hs. specialize (Hm s (HP s Hs)).
  destruct (m s) as [[a|e] s1]; [now apply HQ|now apply HE].
Qed.

End Triples.

(** *** Connecting a piezo controller *)

(** The state observer, if any, returns on every state. *)
Definition piezo_quiet {D} (s : Piezo.Session D) : Prop :=
  forall st,
    match Piezo._on_state_change s with
    | Some observer => observer st = None
    | None => True
    end.

Section PiezoConnect.
Context {D : Type}.
Variable s0 : Piezo.Session D.

(** What [connect] keeps until it succeeds, and with a handle bound. *)
Definition pending (s : Piezo.Session D) : Prop :=
  piezo_quiet s /\ Piezo._voltage_range s = Piezo._voltage_range s0.

Definition bound (s : Piezo.Session D) : Prop :=
  pending s /\ is_Some (Piezo._device s).

Definition failed (e : Py.exc) (s : Piezo.Session D) : Prop := pending s.

Lemma pending_attempt (failure : option Py.exc) :
  triple pending (Piezo.attempt failure) (fun _ => pending) failed.
Proof. intros s Hs. destruct failure; exact Hs. Qed.

Lemma pending_set_state (st : Base.ControllerState) :
  triple pending (Piezo._set_state st)
    (fun _ s => pending s /\ Piezo.state s = st) (fun _ _ => False).
Proof.
  intros s [Hquiet Hrange]. specialize (Hquiet st) as Hst. unfold Piezo._set_state.
  cbn [Piezo._on_state_change Piezo.with_state].
  destruct (Piezo._on_state_change s) as [observer|] eqn:Hobs.
  - rewrite Hst. repeat split; [|exact Hrange].
    intros st'. cbn. rewrite Hobs. specialize (Hquiet st'). now rewrite Hobs in Hquiet.
  - repeat split; [|exact Hrange]. intros st'. cbn. now rewrite Hobs.
Qed.

Lemma pending_set_state' (st : Base.ControllerState) :
  triple pending (Piezo._set_state st) (fun _ => pending) failed.
Proof.
  eapply triple_weaken; [apply pending_set_state|auto|now intros _ s [Hs _]|contradiction].
Qed.

Lemma pending_gets {A} (f : Piezo.Session D -> A) :
  triple pending (Py.gets f) (fun _ => pending) failed.
Proof. intros s Hs. exact Hs. Qed.

Lemma pending_lift {A} (o : Py.outcome A) :
  triple pending (Py.lift o) (fun _ => pending) failed.
Proof. intros s Hs. destruct o; exact Hs. Qed.

Lemma pending_bind_device (d : D) :
  triple pending (Py.modify (Piezo.with_device (Some d))) (fun _ => bound) failed.
Proof. intros s Hs. split; [exact Hs|eexists; reflexivity]. Qed.

Lemma pending_drop_device :
  triple pending (Py.modify (Piezo.with_device None)) (fun _ => pending) failed.
Proof. intros s Hs. exact Hs. Qed.

Lemma pending_raise {A} (e : Py.exc) (Q : A -> Piezo.Session D -> Prop) :
  triple pending (Py.raise e) Q failed.
Proof. intros s Hs. exact Hs. Qed.

Lemma bound_call {A} (op : Py.M D A) :
  triple bound (Piezo.call op)
    (fun a s => bound s /\ exists d d', op d = (Py.Return a, d')) failed.
Proof.
  intros s [Hs [d Hd]]. unfold Piezo.call. rewrite Hd.
  destruct (op d) as [[a|e] d'] eqn:Hop; [|exact Hs].
  split; [split; [exact Hs|eexists; reflexivity]|]. now exists d, d'.
Qed.

Lemma bound_call' {A} (op : Py.M D A) :
  triple bound (Piezo.call op) (fun _ => bound) failed.
Proof. eapply triple_weaken; [apply bound_call|auto|now intros a s [Hs _]|auto]. Qed.

Lemma bound_ret {A} (a : A) : triple bound (Py.ret a) (fun _ => bound) failed.
Proof. intros s Hs. exact Hs. Qed.

End PiezoConnect.

Lemma bound_sleep {D} `{Piezo.KCubePiezo D} (s0 : Piezo.Session D) :
  triple (bound s0) Piezo.KPZ101.time_sleep (fun _ => bound s0) (failed s0).
Proof.
  intros s [Hs [d Hd]]. unfold Piezo.KPZ101.time_sleep, Py.modify.
  split; [exact Hs|]. cbn [Piezo._device Piezo.with_device]. rewrite Hd.
  eexists; reflexivity.
Qed.

(** What a successful KPZ101 [connect] leaves. *)
Definition kpz101_connected {D} `{Piezo.KCubePiezo D} (r : bool) (s : Piezo.Session D)
  : Prop :=
  r = true /\ Piezo.state s = Base.CONNECTED /\ is_Some (Piezo._device s)
  /\ exists max_voltage d d',
       Piezo.GetMaxOutputVoltage d = (Py.Return max_voltage, d')
       /\ Piezo._voltage_range s = (0%Q, max_voltage).

(** What a failed [connect] leaves. *)
Definition connect_failed {D} (s0 : Piezo.Session D) (e : Py.exc)
    (s : Piezo.Session D) : Prop :=
  e = Py.ConnectionError /\ Piezo.state s = Base.ERROR
  /\ Piezo._voltage_range s = Piezo._voltage_range s0
  /\ Piezo.is_connected s = true.

Lemma connect_handler {D} (s0 : Piezo.Session D) (Q : bool -> Piezo.Session D -> Prop)
    (e : Py.exc) :
  triple (failed s0 e)
    (Py.bind (Piezo._set_state Base.ERROR) (fun _ => Py.raise Py.ConnectionError))
    Q (connect_failed s0).
Proof.
  intros s Hs. unfold Py.bind. pose proof (pending_set_state s0 Base.ERROR s Hs) as Hset.
  destruct (Piezo._set_state Base.ERROR s) as [[[]|e'] s1]; [|contradiction].
  destruct Hset as [[_ Hrange] Hst].
  unfold connect_failed, Piezo.is_connected. cbn. rewrite Hst. repeat split. exact Hrange.
Qed.

Lemma kpz101_connect_body {D} `{Piezo.KCubePiezo D} (host : Piezo.Kinesis D)
    (s0 : Piezo.Session D) :
  triple (pending s0)
    (Py.bind (Piezo.attempt (Piezo.modules_import host)) (fun _ =>
     Py.bind (Piezo._set_state Base.CONNECTING) (fun _ =>
     Py.bind (Piezo.attempt (Piezo.BuildDeviceList host)) (fun _ =>
     Py.bind (Py.gets Piezo.serial_number) (fun serial =>
     Py.bind (Py.lift (Piezo.CreateKCubePiezo host serial)) (fun device =>
     Py.bind (Py.modify (Piezo.with_device device)) (fun _ =>
     match device with
     | None => Py.raise Py.ConnectionError
     | Some _ =>
         Py.bind (Piezo.call (Piezo.Connect serial)) (fun _ =>
         Py.bind (Piezo.call Piezo.IsSettingsInitialized) (fun settled =>
         Py.bind (if negb settled
                  then Piezo.call (Piezo.WaitForSettingsInitialized 5000)
                  else Py.ret tt) (fun _ =>
         Py.bind (Piezo.call (Piezo.StartPolling 250)) (fun _ =>
         Py.bind Piezo.KPZ101.time_sleep (fun _ =>
         Py.bind (Piezo.call Piezo.GetMaxOutputVoltage) (fun max_voltage =>
         Py.bind (Py.modify (Piezo.with_voltage_range (0%Q, max_voltage))) (fun _ =>
         Py.bind (Piezo._set_state Base.CONNECTED) (fun _ =>
         Py.ret true))))))))
     end)))))))
    kpz101_connected (failed s0).
Proof.
  eapply triple_bind; [apply pending_attempt|intros ?; cbv beta].
  eapply triple_bind; [apply pending_set_state'|intros ?; cbv beta].
  eapply triple_bind; [apply pending_attempt|intros ?; cbv beta].
  eapply triple_bind; [apply pending_gets|intros serial].
  eapply triple_bind; [apply pending_lift|intros [d|]].
  - eapply triple_bind; [apply pending_bind_device|intros ?; cbv beta].
    eapply triple_bind; [apply bound_call'|intros ?; cbv beta].
    eapply triple_bind; [apply bound_call'|intros settled].
    eapply triple_bind;
      [destruct settled; cbn [negb]; [apply bound_ret|apply bound_call']|intros ?; cbv beta].
    eapply triple_bind; [apply bound_call'|intros ?; cbv beta].
    eapply triple_bind; [apply bound_sleep|intros ?; cbv beta].
    eapply triple_bind; [apply bound_call|intros max_voltage].
    intros s [[[Hquiet _] Hdev] (d1 & d2 & Hmax)].
    unfold Py.bind, Py.modify, Py.ret.
    pose proof (pending_set_state
                  (Piezo.with_voltage_range (0%Q, max_voltage) s)
                  Base.CONNECTED
                  (Piezo.with_voltage_range (0%Q, max_voltage) s)) as Hset.
    destruct (Piezo._set_state Base.CONNECTED _) as [[[]|e] s1] eqn:Hrun.
    + destruct Hset as [[_ Hrange] Hst]; [split; [exact Hquiet|reflexivity]|].
      split; [reflexivity|]. split; [exact Hst|]. split.
      * pose proof (f_equal snd Hrun) as Hs1. cbn [snd] in Hs1.
        unfold Piezo._set_state in Hs1.
        destruct (Piezo._on_state_change _) in Hs1; cbn [snd] in Hs1; subst s1;
          exact Hdev.
      * exists max_voltage, d1, d2. split; [exact Hmax|exact Hrange].
    + destruct Hset. split; [exact Hquiet|reflexivity].
  - eapply triple_bind; [apply pending_drop_device|intros ?; cbv beta]. apply pending_raise.
Qed.

Lemma kpz101_load_assemblies {D} `{Piezo.KCubePiezo D} (host : Piezo.Kinesis D)
    (s : Piezo.Session D) :
  piezo_quiet s ->
  (Piezo.KPZ101._load_assemblies host s = (Py.Return false, s)
   /\ Piezo._is_initialized s = false /\ Piezo.assemblies_load host = false)
  \/ exists s1, Piezo.KPZ101._load_assemblies host s = (Py.Return true, s1)
                /\ pending s s1.
Proof.
  intros Hquiet. unfold Piezo.KPZ101._load_assemblies, Py.bind, Py.gets.
  destruct (Piezo._is_initialized s) eqn:Hinit.
  - right. exists s. now repeat split.
  - destruct (Piezo.assemblies_load host) eqn:Hload.
    + right. eexists. split; [reflexivity|]. now repeat split.
    + left. now repeat split.
Qed.

Lemma apt_piezo_connect_body {D} `{Piezo.APTPiezo D} (new_piezo : Z -> Py.outcome D)
    (s0 : Piezo.Session D) :
  triple (pending s0)
    (Py.bind (Piezo._set_state Base.CONNECTING) (fun _ =>
     Py.bind (Py.gets Piezo.serial_number) (fun serial =>
     Py.bind (Py.lift (new_piezo serial)) (fun piezo =>
     Py.bind (Py.modify (Piezo.with_device (Some piezo))) (fun _ =>
     Py.bind (Piezo.call Piezo.start) (fun _ =>
     Py.bind (Piezo._set_state Base.CONNECTED) (fun _ =>
     Py.ret true)))))))
    (fun r s => r = true /\ Piezo.state s = Base.CONNECTED
                /\ is_Some (Piezo._device s)
                /\ Piezo._voltage_range s = Piezo._voltage_range s0)
    (failed s0).
Proof.
  eapply triple_bind; [apply pending_set_state'|intros ?; cbv beta].
  eapply triple_bind; [apply pending_gets|intros serial].
  eapply triple_bind; [apply pending_lift|intros piezo].
  eapply triple_bind; [apply pending_bind_device|intros ?; cbv beta].
  eapply triple_bind; [apply bound_call'|intros ?; cbv beta].
  intros s [Hs Hdev]. unfold Py.bind, Py.ret.
  pose proof (pending_set_state s0 Base.CONNECTED s Hs) as Hset.
  destruct (Piezo._set_state Base.CONNECTED s) as [[[]|e] s1] eqn:Hrun; [|contradiction].
  destruct Hset as [[_ Hrange] Hst]. repeat split; try assumption.
  pose proof (f_equal snd Hrun) as Hs1. cbn [snd] in Hs1. unfold Piezo._set_state in Hs1.
  destruct (Piezo._on_state_change _) in Hs1; cbn [snd] in Hs1; subst s1; exact Hdev.
Qed.

(** X19. The connection state machine of the two piezo implementations,
    for a state observer that returns.  [connect] either returns [True]
    in state Connected with a handle bound, or raises [ConnectionError] in
    state Error with the voltage range as before; in state Error the
    controller still counts as connected.  The KPZ101 has a third
    outcome: if the assemblies cannot be loaded it raises
    [ConnectionError] and the object is untouched (the state is not
    Error).  A successful KPZ101 connect replaces the voltage range, a
    configured one included, by [0 .. GetMaxOutputVoltage()]; the APT
    adapter keeps the range. *)
Theorem piezo_connect_contract :
  (forall (D : Type) (backend : Piezo.KCubePiezo D) (host : Piezo.Kinesis D)
          (s s' : Piezo.Session D) (r : Py.outcome bool),
      piezo_quiet s ->
      Piezo.KPZ101.connect host s = (r, s') ->
      (r = Py.Raise Py.ConnectionError /\ s' = s
       /\ Piezo._is_initialized s = false /\ Piezo.assemblies_load host = false)
      \/ (r = Py.Return true /\ Piezo.state s' = Base.CONNECTED
          /\ is_Some (Piezo._device s')
          /\ exists max_voltage d d',
               Piezo.GetMaxOutputVoltage d = (Py.Return max_voltage, d')
               /\ Piezo._voltage_range s' = (0%Q, max_voltage))
      \/ (r = Py.Raise Py.ConnectionError /\ Piezo.state s' = Base.ERROR
          /\ Piezo._voltage_range s' = Piezo._voltage_range s
          /\ Piezo.is_connected s' = true))
  /\ (forall (D : Type) (backend : Piezo.APTPiezo D) (new_piezo : Z -> Py.outcome D)
             (s s' : Piezo.Session D) (r : Py.outcome bool),
         piezo_quiet s ->
         Piezo.APT.connect new_piezo s = (r, s') ->
         (r = Py.Return true /\ Piezo.state s' = Base.CONNECTED
          /\ is_Some (Piezo._device s')
          /\ Piezo._voltage_range s' = Piezo._voltage_range s)
         \/ (r = Py.Raise Py.ConnectionError /\ Piezo.state s' = Base.ERROR
             /\ Piezo._voltage_range s' = Piezo._voltage_range s
             /\ Piezo.is_connected s' = true)).
Proof.
  split.
  - intros D backend host s s' r Hquiet Hrun. unfold Piezo.KPZ101.connect in Hrun.
    destruct (kpz101_load_assemblies host s Hquiet)
      as [(Hload & Hinit & Hhost) | (s1 & Hload & Hpending)];
      rewrite (bind_Return _ _ _ _ _ Hload) in Hrun; cbn [negb] in Hrun.
    + left. injection Hrun as <- <-. now repeat split.
    + right.
      pose proof (triple_try _ _ _ _ _ _
                    (kpz101_connect_body host s)
                    (connect_handler s kpz101_connected) s1 Hpending) as Hspec.
      rewrite Hrun in Hspec. destruct r as [b|e].
      * left. destruct Hspec as (-> & Hst & Hdev & Hmax). now repeat split.
      * right. destruct Hspec as (-> & Hst & Hrange & Hconn). now repeat split.
  - intros D backend new_piezo s s' r Hquiet Hrun. unfold Piezo.APT.connect in Hrun.
    pose proof (triple_try _ _ _ _ _ _
                  (apt_piezo_connect_body new_piezo s)
                  (connect_handler s _) s (conj Hquiet eq_refl)) as Hspec.
    rewrite Hrun in Hspec. destruct r as [b|e].
    + left. destruct Hspec as (-> & Hst & Hdev & Hrange). now repeat split.
    + right. destruct Hspec as (-> & Hst & Hrange & Hconn). now repeat split.
Qed.

(** A KPZ101 configured for a 150 V actuator, on a host where the
    device reports 75 V. *)
Definition paz015_piezo : Piezo.Session (list Q) :=
  Piezo.configure_stage (Some (0, 150)%Q) (Piezo.init 29000001 1).

Definition kpz101_host : Piezo.Kinesis (list Q) :=
  {| Piezo.assemblies_load := true; Piezo.modules_import := None;
     Piezo.BuildDeviceList := None;
     Piezo.CreateKCubePiezo := fun _ => Py.Return (Some []) |}.

Lemma piezo_connect_contract_witness :
  Piezo._voltage_range paz015_piezo = (0, 150)%Q
  /\ exists s',
       @Piezo.KPZ101.connect (list Q) recording_kpz101 kpz101_host paz015_piezo
       = (Py.Return true, s')
       /\ Piezo._voltage_range s' = (0, 75)%Q.
Proof.
  split; [reflexivity|].
  destruct (proj1 piezo_connect_contract (list Q) recording_kpz101 kpz101_host
              paz015_piezo
              (@Piezo.KPZ101.connect (list Q) recording_kpz101 kpz101_host
                 paz015_piezo).2
              (@Piezo.KPZ101.connect (list Q) recording_kpz101 kpz101_host
                 paz015_piezo).1)
    as [(Hr & _) | [(Hr & _ & _ & mv & d & d' & Hmax & Hrange) | (Hr & _)]].
  - intros st. exact I.
  - reflexivity.
  - discriminate Hr.
  - eexists. split; [reflexivity|]. reflexivity.
  - discriminate Hr.
Defined.

(** ** The queries of the stage database (stages.py, device_manager.py) *)

(** A list comprehension over [STAGES.items()] selects the names of the
    entries with the property: the keys of the dict literal are distinct. *)
Lemma stage_comprehension (P : Stages.StageInfo -> Prop) `{forall info, Decision (P info)}
    (name : string) :
  name ∈ (filter (fun item => P item.2) Stages.STAGES_items).*1
  <-> exists info, Stages.get_stage_info name = Some info /\ P info.
Proof.
  unfold Stages.get_stage_info. rewrite list_elem_of_fmap. split.
  - intros ([name' info] & -> & Hin). apply list_elem_of_filter in Hin as [HP Hin].
    exists info. split; [now apply STAGES_lookup|exact HP].
  - intros (info & Hlookup & HP). exists (name, info). split; [reflexivity|].
    apply list_elem_of_filter. split; [exact HP|now apply STAGES_lookup].
Qed.

Lemma compatible_stage_iff (controller_type name : string) :
  name ∈ Stages.get_compatible_stages controller_type
  <-> exists info, Stages.get_stage_info name = Some info
                   /\ controller_type ∈ Stages.compatible_controllers info.
Proof.
  exact (stage_comprehension
           (fun info => controller_type ∈ Stages.compatible_controllers info) name).
Qed.

Lemma stage_by_units_iff (units name : string) :
  name ∈ Registry.get_stages_by_units units
  <-> exists info, Stages.get_stage_info name = Some info /\ Stages.units info = units.
Proof. exact (stage_comprehension (fun info => Stages.units info = units) name). Qed.

(** X20. The list queries and the per-stage predicates of the stage
    database answer the same questions, and agree with the validator of the
    device manager: a stage is in [get_compatible_stages(T)] exactly when
    [validate_stage_compatibility] accepts it for [T]; [is_inertial_stage]
    is membership in [get_compatible_stages("KIM101")]; [is_rotation_stage]
    is membership in [get_stages_by_units("deg")]; and
    [get_all_stage_names] lists exactly the names [get_stage_info] knows. *)
Theorem stage_queries_agree :
  forall (stage_name controller_type : string),
    (stage_name ∈ Stages.get_compatible_stages controller_type
     <-> (DeviceManager.validate_stage_compatibility stage_name controller_type).1
         = true)
    /\ (Registry.is_inertial_stage stage_name = true
        <-> stage_name ∈ Stages.get_compatible_stages "KIM101")
    /\ (Registry.is_rotation_stage stage_name = true
        <-> stage_name ∈ Registry.get_stages_by_units "deg")
    /\ (stage_name ∈ Registry.get_all_stage_names
        <-> is_Some (Stages.get_stage_info stage_name)).
Proof.
  intros stage_name controller_type.
  rewrite !compatible_stage_iff, stage_by_units_iff.
  unfold DeviceManager.validate_stage_compatibility, Registry.is_inertial_stage,
    Registry.is_rotation_stage, Registry.get_all_stage_names, Stages.get_stage_info.
  repeat split.
  - intros (info & -> & Hin). now rewrite bool_decide_eq_true_2.
  - destruct (Stages.STAGES !! stage_name) as [info|]; [|discriminate].
    case_bool_decide as Hin; [|discriminate]. intros _. now exists info.
  - destruct (Stages.STAGES !! stage_name) as [info|]; [|discriminate].
    intros Hin. apply bool_decide_eq_true in Hin. now exists info.
  - intros (info & -> & Hin). now apply bool_decide_eq_true.
  - destruct (Stages.STAGES !! stage_name) as [info|]; [|discriminate].
    intros Hdeg. apply String.eqb_eq in Hdeg. now exists info.
  - intros (info & -> & Hdeg). now apply String.eqb_eq.
  - intros Hin. apply list_elem_of_fmap in Hin as ([name info] & -> & Hin).
    exists info. now apply STAGES_lookup.
  - intros [info Hinfo]. apply list_elem_of_fmap. exists (stage_name, info).
    split; [reflexivity|now apply STAGES_lookup].
Qed.

(** ** Steps per unit of the inertial variant (base.py, stages.py) *)

(** X21. The step conversion of [InertialController.move_relative] does
    not depend on the stage: with no stage bound or with any stage of the
    database bound, the step size in effect is 0.00002, so the method never
    divides by zero and ends in the call
    [self.jog(direction, int(|distance| * 50000))], direction [1] for a
    positive distance and [-1] otherwise. *)
Theorem inertial_steps_per_unit :
  forall (D : Type) (jog : Base.method (Base.Session D) bool)
         (distance : Q) (wait : bool) (timeout : nat) (s : Base.Session D),
    (Base._stage_config s = None
     \/ exists stage_name, Stages.get_stage_info stage_name = Base._stage_config s) ->
    (Base.step_size_of s == 2 # 100000)%Q
    /\ exists steps : Z,
         Base.InertialController_move_relative jog distance wait timeout s
         = jog [if Qlt_le_dec 0 distance then 1 else -1; steps] s
         /\ steps = Qfloor (Qabs distance * 50000).
Proof.
  intros D jog distance wait timeout s Hstage.
  assert (Hstep : Base.step_size_of s = (2 # 100000)%Q).
  { unfold Base.step_size_of. destruct Hstage as [-> | [stage_name Hinfo]]; [reflexivity|].
    destruct (Base._stage_config s) as [info|]; [|reflexivity].
    apply STAGES_lookup in Hinfo. unfold Stages.STAGES_items in Hinfo.
    repeat (apply elem_of_cons in Hinfo as [Hinfo|Hinfo]; [injection Hinfo as -> ->; reflexivity|]).
    now apply elem_of_nil in Hinfo. }
  split; [now rewrite Hstep|].
  eexists. split.
  - apply InertialController_move_relative_conversion. now rewrite Hstep.
  - rewrite Hstep. apply Qfloor_comp. field.
Qed.

Lemma inertial_steps_per_unit_witness :
  exists steps : Z,
    Base.InertialController_move_relative
      (Base.def2 1 (fun direction steps s =>
                      (Py.Return true, Base.with_step_count (direction * steps) s)))
      (1 # 1000) true 600 pia13_session
    = (Py.Return true, Base.with_step_count steps pia13_session)
    /\ steps = 50.
Proof.
  destruct (inertial_steps_per_unit Sim.Inertial
              (Base.def2 1 (fun direction steps s =>
                      (Py.Return true, Base.with_step_count (direction * steps) s)))
              (1 # 1000) true 600 pia13_session) as (_ & steps & Hrun & Hsteps).
  - right. exists "PIA13". reflexivity.
  - exists steps. split; [|rewrite Hsteps; reflexivity].
    rewrite Hrun. cbn. now destruct steps.
Defined.

(** ** Homing and absolute moves (kinesis/kdc101.py, apt/motor.py) *)

Lemma keeps_observer_if {D A} (b : bool) (m1 m2 : Py.M (Base.Session D) A) :
  keeps_observer m1 -> keeps_observer m2 -> keeps_observer (if b then m1 else m2).
Proof. now destruct b. Qed.

Lemma keeps_observer_homing {D} `{KDC101.KCubeDCServo D}
    `{Motion.KCubeDCServoMotion D} (remaining : nat) :
  keeps_observer (Motion.Servo.wait_while_homing (D := D) remaining).
Proof.
  induction remaining as [|r IH]; cbn [Motion.Servo.wait_while_homing];
    (apply keeps_observer_bind; [apply keeps_observer_call|]);
    intros [|]; try apply keeps_observer_ret; try apply keeps_observer_raise.
  apply keeps_observer_bind; [intros s; reflexivity|intros _; exact IH].
Qed.

(** A motion command: the handle test, then a guarded body that ends with
    [_set_state(CONNECTED); return True]. *)
Definition motion_command {D} (body : Py.M (Base.Session D) unit)
  : Py.M (Base.Session D) bool :=
  (let* present := Base.has_device in
   if negb present then Py.ret false
   else
     Py.try_except
       (body ;; Base._set_state Base.CONNECTED ;; Py.ret true)
       (fun _ => (Base._set_state Base.ERROR ;; Py.raise Py.MovementError)))%py.

Lemma motion_command_contract {D} (body : Py.M (Base.Session D) unit)
    (s s' : Base.Session D) (r : Py.outcome bool) :
  keeps_observer body -> quiet s ->
  motion_command body s = (r, s') -> move_contract s s' r.
Proof.
  intros Hbody Hquiet.
  unfold motion_command, Py.bind at 1, Base.has_device, Py.gets, move_contract.
  destruct (Base._device s) as [d|] eqn:Hd.
  - change (negb (bool_decide (is_Some (Some d)))) with false. cbn iota.
    intros Hrun. split; [discriminate|intros _].
    exact (guarded_move_outcome body s s' r Hbody Hquiet Hrun).
  - change (negb (bool_decide (is_Some (@None D)))) with true. cbn iota.
    unfold Py.ret. intros [= <- <-]. split; [now split|congruence].
Qed.

Lemma motion_command_ext {D} (m : Py.M (Base.Session D) bool)
    (body : Py.M (Base.Session D) unit) (s s' : Base.Session D)
    (r : Py.outcome bool) :
  (forall s0, m s0 = motion_command body s0) ->
  keeps_observer body -> quiet s -> m s = (r, s') -> move_contract s s' r.
Proof.
  intros Heq Hbody Hquiet. rewrite Heq. now apply motion_command_contract.
Qed.

Ltac same_run :=
  unfold motion_command, Py.bind, Py.try_except, Base.has_device, Py.gets;
  match goal with
  | |- context [Base._device ?s] => destruct (Base._device s) as [?|]
  end;
  [change (negb (bool_decide (is_Some (Some ?d)))) with false
  |reflexivity];
  cbv beta iota;
  repeat match goal with
         | |- context [match ?m ?s with _ => _ end] =>
             destruct (m s) as [[[]|?] ?]; try reflexivity
         | |- context [if ?b then _ else _] => destruct b; try reflexivity
         end.

Lemma Servo_home_command {D} `{KDC101.KCubeDCServo D}
    `{Motion.KCubeDCServoMotion D} (wait : bool) (timeout : nat)
    (s : Base.Session D) :
  Motion.Servo.home wait timeout s
  = motion_command
      (Base._set_state Base.HOMING ;;
       Base.call (Motion.Home (if wait then 100 * Z.of_nat timeout else 0)) ;;
       (if wait then Motion.Servo.wait_while_homing (S timeout) else Py.ret tt))%py s.
Proof. unfold Motion.Servo.home. same_run. Qed.

Lemma Servo_move_absolute_command {D} `{KDC101.KCubeDCServo D}
    `{Motion.KCubeDCServoMotion D} (position : Q) (wait : bool) (timeout : nat)
    (s : Base.Session D) :
  Motion.Servo.move_absolute position wait timeout s
  = motion_command
      (Base._set_state Base.MOVING ;;
       Base.call (Motion.MoveTo position
                    (if wait then 100 * Z.of_nat timeout else 0)) ;;
       (if wait then KDC101.wait_while_moving (S timeout) else Py.ret tt))%py s.
Proof. unfold Motion.Servo.move_absolute. same_run. Qed.

Lemma Adapter_home_command {D} `{Motion.APTMotorMotion D}
    (wait : bool) (timeout : nat) (s : Base.Session D) :
  Motion.Adapter.home wait timeout s
  = motion_command
      (Base._set_state Base.HOMING ;;
       Base.call (Motion.motor_home wait timeout))%py s.
Proof. unfold Motion.Adapter.home. same_run. Qed.

Lemma Adapter_move_absolute_command {D} `{Motion.APTMotorMotion D}
    (position : Q) (wait : bool) (timeout : nat) (s : Base.Session D) :
  Motion.Adapter.move_absolute position wait timeout s
  = motion_command
      (Base._set_state Base.MOVING ;;
       Base.call (Motion.motor_move_absolute position wait timeout))%py s.
Proof. unfold Motion.Adapter.move_absolute. same_run. Qed.

Lemma Servo_home_body_keeps {D} `{KDC101.KCubeDCServo D}
    `{Motion.KCubeDCServoMotion D} (wait : bool) (timeout : nat) :
  keeps_observer
    (Base._set_state (D := D) Base.HOMING ;;
     Base.call (Motion.Home (if wait then 100 * Z.of_nat timeout else 0)) ;;
     (if wait then Motion.Servo.wait_while_homing (S timeout) else Py.ret tt))%py.
Proof.
  apply keeps_observer_bind; [apply keeps_observer_set_state|intros _].
  apply keeps_observer_bind; [apply keeps_observer_call|intros _].
  apply keeps_observer_if; [apply keeps_observer_homing|apply keeps_observer_ret].
Qed.

Lemma Servo_move_absolute_body_keeps {D} `{KDC101.KCubeDCServo D}
    `{Motion.KCubeDCServoMotion D} (position : Q) (wait : bool) (timeout : nat) :
  keeps_observer
    (Base._set_state (D := D) Base.MOVING ;;
     Base.call (Motion.MoveTo position
                  (if wait then 100 * Z.of_nat timeout else 0)) ;;
     (if wait then KDC101.wait_while_moving (S timeout) else Py.ret tt))%py.
Proof.
  apply keeps_observer_bind; [apply keeps_observer_set_state|intros _].
  apply keeps_observer_bind; [apply keeps_observer_call|intros _].
  apply keeps_observer_if; [apply keeps_observer_wait|apply keeps_observer_ret].
Qed.

Lemma Adapter_body_keeps {D} (st : Base.ControllerState) (op : Py.M D unit) :
  keeps_observer (Base._set_state (D := D) st ;; Base.call op)%py.
Proof.
  apply keeps_observer_bind; [apply keeps_observer_set_state|intros _].
  apply keeps_observer_call.
Qed.

(** X22. [home] and [move_absolute] of the KDC101 controller and of the
    APT motor adapter follow the contract of [move_relative], for either
    value of [wait]: without a handle they return [False] and change
    nothing; with a handle they either return [True] with the state
    Connected or raise [MovementError] with the state Error, whatever the
    backend does and however the wait ends.  (Observers are taken to
    return.) *)
Theorem home_and_move_absolute_complete_raise_or_decline :
  forall (wait : bool) (timeout : nat),
    (forall (D : Type) (servo : KDC101.KCubeDCServo D)
            (motion : Motion.KCubeDCServoMotion D)
            (s s' : Base.Session D) (r : Py.outcome bool),
        quiet s ->
        (Motion.Servo.home wait timeout s = (r, s') -> move_contract s s' r)
        /\ (forall position : Q,
               Motion.Servo.move_absolute position wait timeout s = (r, s') ->
               move_contract s s' r))
    /\ (forall (D : Type) (motor : Motion.APTMotorMotion D)
               (s s' : Base.Session D) (r : Py.outcome bool),
           quiet s ->
           (Motion.Adapter.home wait timeout s = (r, s') -> move_contract s s' r)
           /\ (forall position : Q,
                  Motion.Adapter.move_absolute position wait timeout s = (r, s') ->
                  move_contract s s' r)).
Proof.
  intros wait timeout. split.
  - intros D servo motion s s' r Hquiet. split; [|intros position].
    + apply (motion_command_ext _ _ s s' r (Servo_home_command wait timeout));
        [apply Servo_home_body_keeps|exact Hquiet].
    + apply (motion_command_ext _ _ s s' r
               (Servo_move_absolute_command position wait timeout));
        [apply Servo_move_absolute_body_keeps|exact Hquiet].
  - intros D motor s s' r Hquiet. split; [|intros position].
    + apply (motion_command_ext _ _ s s' r (Adapter_home_command wait timeout));
        [apply Adapter_body_keeps|exact Hquiet].
    + apply (motion_command_ext _ _ s s' r
               (Adapter_move_absolute_command position wait timeout));
        [apply Adapter_body_keeps|exact Hquiet].
Qed.

(** *** On the simulated servo *)

#[local] Instance servo_motion : Motion.KCubeDCServoMotion Sim.Servo := {
  Motion.Connect := fun _ d => (Py.Return tt, d);
  Motion.IsSettingsInitialized := fun d => (Py.Return true, d);
  Motion.WaitForSettingsInitialized := fun _ d => (Py.Return tt, d);
  Motion.StartPolling := fun _ d => (Py.Return tt, d);
  Motion.EnableDevice := fun d => (Py.Return tt, d);
  Motion.LoadMotorConfiguration := fun _ d => (Py.Return tt, d);
  Motion.Home := fun _ d =>
    if Sim.refuses_moves d then (Py.Raise Py.BackendError, d)
    else (Py.Return tt, servo_at 0 (Sim.lag d) (Sim.lag d));
  Motion.MoveTo := fun p _ d =>
    if Sim.refuses_moves d then (Py.Raise Py.BackendError, d)
    else (Py.Return tt, servo_at p (Sim.lag d) (Sim.lag d));
  Motion.Status_IsHoming := fun d => (Py.Return (negb (Nat.eqb (Sim.busy d) 0)), d);
  Motion.Status_IsHomed := fun d => (Py.Return true, d);
}.

#[local] Instance servo_apt_motion : Motion.APTMotorMotion Sim.Servo := {
  Motion.start := fun d => (Py.Return tt, d);
  Motion.motor_home := fun _ _ d =>
    if Sim.refuses_moves d then (Py.Raise Py.BackendError, d)
    else (Py.Return tt, servo_at 0 0 (Sim.lag d));
  Motion.motor_move_absolute := fun p _ _ d =>
    if Sim.refuses_moves d then (Py.Raise Py.BackendError, d)
    else (Py.Return tt, servo_at p 0 (Sim.lag d));
  Motion.stop_move := fun d => (Py.Return tt, d);
  Motion.get_status_bits := fun d => (Py.Return 1024, d);
}.

(** Homing a servo that settles after three polls, and an absolute move
    asked of an adapter that was never connected. *)
Definition sample_homing : Py.outcome bool * Base.Session Sim.Servo :=
  @Motion.Servo.home Sim.Servo Sim.servo_kdc101 servo_motion true 5
    (servo_session Base.CONNECTED (servo_at (5 # 2) 0 3)).

Definition declined_absolute_move : Py.outcome bool * Base.Session Sim.Servo :=
  @Motion.Adapter.move_absolute Sim.Servo servo_apt_motion (7 # 2) false 600
    never_connected.

Lemma home_and_move_absolute_complete_raise_or_decline_witness :
  ((sample_homing.1 = Py.Return true
    /\ Base.state sample_homing.2 = Base.CONNECTED)
   \/ (sample_homing.1 = Py.Raise Py.MovementError
       /\ Base.state sample_homing.2 = Base.ERROR))
  /\ (declined_absolute_move.1 = Py.Return false
      /\ declined_absolute_move.2 = never_connected).
Proof.
  split.
  - refine (proj2 (proj1 (proj1 (home_and_move_absolute_complete_raise_or_decline
                                   true 5)
                            Sim.Servo Sim.servo_kdc101 servo_motion
                            (servo_session Base.CONNECTED (servo_at (5 # 2) 0 3))
                            sample_homing.2 sample_homing.1 _) _) _).
    + apply quiet_without_observer. reflexivity.
    + unfold sample_homing. apply surjective_pairing.
    + discriminate.
  - refine (proj1 (proj2 (proj2 (home_and_move_absolute_complete_raise_or_decline
                                   false 600)
                            Sim.Servo servo_apt_motion never_connected
                            declined_absolute_move.2 declined_absolute_move.1 _)
                     (7 # 2) _) _).
    + apply quiet_without_observer. reflexivity.
    + unfold declined_absolute_move. apply surjective_pairing.
    + reflexivity.
Defined.

Example homing_times_out :
  (@Motion.Servo.home Sim.Servo Sim.servo_kdc101 servo_motion true 5
     (servo_session Base.CONNECTED (servo_at (5 # 2) 0 7))).1
  = Py.Raise Py.MovementError.
Proof. vm_compute. reflexivity. Qed.

Example homing_without_wait_returns_while_busy :
  let run := @Motion.Servo.home Sim.Servo Sim.servo_kdc101 servo_motion false 5
               (servo_session Base.CONNECTED (servo_at (5 # 2) 0 7)) in
  run.1 = Py.Return true
  /\ Base.state run.2 = Base.CONNECTED
  /\ (Sim.busy <$> Base._device run.2) = Some 7%nat.
Proof. vm_compute. repeat split. Qed.

(** ** Connecting a motor controller (kinesis/kdc101.py, apt/motor.py) *)

(** How a [connect] that got past the assemblies ends. *)
Definition connect_outcome {D} (r : Py.outcome bool) (s' : Base.Session D) : Prop :=
  (r = Py.Return true /\ Base.state s' = Base.CONNECTED
   /\ is_Some (Base._device s'))
  \/ (r = Py.Raise Py.ConnectionError /\ Base.state s' = Base.ERROR).

Section MotorConnect.
Context {D : Type}.

Lemma quiet_set_state (st : Base.ControllerState) :
  triple quiet (Base._set_state (D := D) st)
    (fun _ s => quiet s /\ Base.state s = st) (fun _ _ => False).
Proof.
  intros s Hs. destruct (_set_state_spec st s) as (Hst & _ & Hobs & Hret).
  specialize (Hret (Hs st)).
  assert (Hq : quiet (Base._set_state st s).2).
  { intros st'. unfold observer_returns. rewrite Hobs. exact (Hs st'). }
  destruct (Base._set_state st s) as [[[]|e] s2]; cbn [fst snd] in *;
    [now split|discriminate Hret].
Qed.

Lemma quiet_set_state' (st : Base.ControllerState) :
  triple quiet (Base._set_state (D := D) st) (fun _ => quiet) (fun _ => quiet).
Proof.
  eapply triple_weaken; [apply quiet_set_state|auto|now intros _ s [Hs _]|contradiction].
Qed.

Lemma live_set_state (st : Base.ControllerState) :
  triple live (Base._set_state (D := D) st)
    (fun _ s => live s /\ Base.state s = st) (fun _ _ => False).
Proof.
  intros s Hs. destruct (_set_state_live st s Hs) as (s' & -> & Hc & Hst).
  split; [apply Hc|exact Hst].
Qed.

Lemma live_call {A} (op : Py.M D A) :
  triple live (Base.call op) (fun _ => live) (fun _ => quiet).
Proof.
  intros s Hs. destruct (call_live op s Hs) as (r & s' & -> & Hc & _).
  destruct r; apply Hc.
Qed.

Lemma quiet_attempt (failure : option Py.exc) :
  triple quiet (Motion.attempt (S := Base.Session D) failure)
    (fun _ => quiet) (fun _ => quiet).
Proof. intros s Hs. destruct failure; exact Hs. Qed.

Lemma quiet_bind_device (d : D) :
  triple quiet (Py.modify (Base.with_device (Some d))) (fun _ => live) (fun _ => quiet).
Proof.
  intros s Hs. split; [eexists; reflexivity|].
  intros st. exact (Hs st).
Qed.

(** The handler shared by both [connect] methods. *)
Lemma connect_handler_outcome (Q : bool -> Base.Session D -> Prop) :
  triple quiet
    (Base._set_state (D := D) Base.ERROR ;; Py.raise (A := bool) Py.ConnectionError)%py
    Q (fun e s => e = Py.ConnectionError /\ Base.state s = Base.ERROR).
Proof.
  eapply triple_bind.
  - eapply triple_weaken; [apply (quiet_set_state Base.ERROR)|auto|
      intros a s Hs; exact Hs|contradiction].
  - intros _ s [_ Hst]. now split.
Qed.

Lemma guarded_connect_outcome (body : Py.M (Base.Session D) bool) :
  triple quiet body
    (fun r s => r = true /\ Base.state s = Base.CONNECTED
                /\ is_Some (Base._device s))
    (fun _ => quiet) ->
  forall s, quiet s ->
    connect_outcome
      (Py.try_except body
         (fun _ => (Base._set_state Base.ERROR ;; Py.raise Py.ConnectionError)%py) s).1
      (Py.try_except body
         (fun _ => (Base._set_state Base.ERROR ;; Py.raise Py.ConnectionError)%py) s).2.
Proof.
  intros Hbody s Hs.
  pose proof (triple_try quiet body
                (fun _ => (Base._set_state Base.ERROR ;; Py.raise Py.ConnectionError)%py)
                _ _ _ Hbody (fun _ => connect_handler_outcome _) s Hs) as Hrun.
  cbv beta in Hrun.
  destruct (Py.try_except body _ s) as [[r|e] s']; cbn [fst snd].
  - left. destruct Hrun as (-> & Hst & Hdev). auto.
  - right. destruct Hrun as [-> Hst]. auto.
Qed.

End MotorConnect.

Lemma live_settle {D} `{KDC101.KCubeDCServo D} :
  triple live (Motion.Servo.settle (D := D)) (fun _ => live) (fun _ => quiet).
Proof.
  intros s [[d Hd] Hq]. unfold Motion.Servo.settle, Py.modify.
  split; [|intros st; exact (Hq st)].
  cbn [Base._device Base.with_device]. rewrite Hd. eexists; reflexivity.
Qed.


Lemma Servo_connect_body {D} `{KDC101.KCubeDCServo D}
    `{Motion.KCubeDCServoMotion D} (host : Motion.Kinesis D) :
  triple quiet
    (Motion.attempt (Motion.modules_import host) ;;
     Base._set_state Base.CONNECTING ;;
     Motion.attempt (Motion.BuildDeviceList host) ;;
     let* serial := Py.gets Base.serial_number in
     let* device := Py.lift (Motion.CreateKCubeDCServo host serial) in
     Py.modify (Base.with_device device) ;;
     match device with
     | None => Py.raise Py.ConnectionError
     | Some _ =>
         Base.call (Motion.Connect serial) ;;
         let* settled := Base.call Motion.IsSettingsInitialized in
         (if negb settled then Base.call (Motion.WaitForSettingsInitialized 5000)
          else Py.ret tt) ;;
         Base.call (Motion.StartPolling 250) ;;
         Motion.Servo.settle ;;
         Base.call Motion.EnableDevice ;;
         Motion.Servo.settle ;;
         Base.call (Motion.LoadMotorConfiguration serial) ;;
         Base._set_state Base.CONNECTED ;;
         Py.ret true
     end)%py
    (fun r s => r = true /\ Base.state s = Base.CONNECTED
                /\ is_Some (Base._device s))
    (fun _ => quiet).
Proof.
  eapply triple_bind; [apply quiet_attempt|intros ?; cbv beta].
  eapply triple_bind; [apply quiet_set_state'|intros ?; cbv beta].
  eapply triple_bind; [apply quiet_attempt|intros ?; cbv beta].
  eapply triple_bind with (Q := fun _ => quiet); [intros s Hs; exact Hs|intros serial].
  eapply triple_bind with (Q := fun _ => quiet);
    [intros s Hs; destruct (Motion.CreateKCubeDCServo host serial); exact Hs|].
  intros [d|].
  - eapply triple_bind; [apply quiet_bind_device|intros ?; cbv beta].
    eapply triple_bind; [apply live_call|intros ?; cbv beta].
    eapply triple_bind; [apply live_call|intros ?; cbv beta].
    eapply triple_bind with (Q := fun _ => live).
    { destruct (negb _); [apply live_call|intros s Hs; exact Hs]. }
    intros ?. cbv beta.
    eapply triple_bind; [apply live_call|intros ?; cbv beta].
    eapply triple_bind; [apply live_settle|intros ?; cbv beta].
    eapply triple_bind; [apply live_call|intros ?; cbv beta].
    eapply triple_bind; [apply live_settle|intros ?; cbv beta].
    eapply triple_bind; [apply live_call|intros ?; cbv beta].
    eapply triple_bind.
    + eapply triple_weaken; [apply (live_set_state Base.CONNECTED)|auto|
        intros ? s Hs; exact Hs|contradiction].
    + intros ? s [[Hdev _] Hst]. cbn. auto.
  - eapply triple_bind with (Q := fun _ => quiet).
    + intros s Hs st. exact (Hs st).
    + intros ? s Hs. exact Hs.
Qed.

Lemma Adapter_connect_body {D} `{Motion.APTMotorMotion D}
    (new_motor : Z -> Py.outcome D) :
  triple quiet
    (Base._set_state Base.CONNECTING ;;
     let* serial := Py.gets Base.serial_number in
     let* motor := Py.lift (new_motor serial) in
     Py.modify (Base.with_device (Some motor)) ;;
     Base.call Motion.start ;;
     Base._set_state Base.CONNECTED ;;
     Py.ret true)%py
    (fun r s => r = true /\ Base.state s = Base.CONNECTED
                /\ is_Some (Base._device s))
    (fun _ => quiet).
Proof.
  eapply triple_bind; [apply quiet_set_state'|intros ?; cbv beta].
  eapply triple_bind with (Q := fun _ => quiet); [intros s Hs; exact Hs|intros serial].
  eapply triple_bind with (Q := fun _ => quiet);
    [intros s Hs; destruct (new_motor serial); exact Hs|].
  intros d.
  eapply triple_bind; [apply quiet_bind_device|intros ?; cbv beta].
  eapply triple_bind; [apply live_call|intros ?; cbv beta].
  eapply triple_bind.
  - eapply triple_weaken; [apply (live_set_state Base.CONNECTED)|auto|
      intros ? s Hs; exact Hs|contradiction].
  - intros ? s [[Hdev _] Hst]. cbn. auto.
Qed.

(** X23. [connect] of the KDC101 controller and of the APT motor adapter.
    When the Kinesis assemblies cannot be loaded the KDC101 controller
    raises [ConnectionError] and is left as it was.  Otherwise, and always
    for the adapter, the call either returns [True] in state Connected
    with a handle bound, or raises [ConnectionError] in state Error,
    whichever step fails and with whatever exception; the KDC101 object
    then remembers that the assemblies are loaded.  (Observers are taken
    to return.) *)
Theorem motor_connect_connects_or_reports_error :
  (forall (D : Type) (servo : KDC101.KCubeDCServo D)
          (motion : Motion.KCubeDCServoMotion D) (host : Motion.Kinesis D)
          (o o' : Motion.Object D) (r : Py.outcome bool),
      quiet (Motion.session o) ->
      Motion.Servo.connect host o = (r, o') ->
      if Motion._is_initialized o || Motion.assemblies_load host
      then Motion._is_initialized o' = true /\ connect_outcome r (Motion.session o')
      else r = Py.Raise Py.ConnectionError /\ o' = o)
  /\ (forall (D : Type) (motor : Motion.APTMotorMotion D)
             (new_motor : Z -> Py.outcome D)
             (s s' : Base.Session D) (r : Py.outcome bool),
         quiet s ->
         Motion.Adapter.connect new_motor s = (r, s') ->
         connect_outcome r s').
Proof.
  split.
  - intros D servo motion host o o' r Hquiet.
    pose proof (guarded_connect_outcome _ (Servo_connect_body host)
                  (Motion.session o) Hquiet) as Hrun.
    fold (Motion.Servo.connect_guarded host) in Hrun.
    unfold Motion.Servo.connect, Py.bind, Motion.Servo._load_assemblies,
      Motion.on_session.
    destruct (Motion._is_initialized o) eqn:Hinit; cbn [orb negb].
    + rewrite Hinit.
      destruct (Motion.Servo.connect_guarded host (Motion.session o)) as [r0 s0].
      intros [= <- <-]. split; [reflexivity|exact Hrun].
    + destruct (Motion.assemblies_load host); cbn [negb Motion.session
        Motion._is_initialized].
      * destruct (Motion.Servo.connect_guarded host (Motion.session o)) as [r0 s0].
        intros [= <- <-]. split; [reflexivity|exact Hrun].
      * unfold Py.raise. intros [= <- <-]. now split.
  - intros D motor new_motor s s' r Hquiet Hrun.
    pose proof (guarded_connect_outcome _ (Adapter_connect_body new_motor) s Hquiet)
      as Hout.
    fold (Motion.Adapter.connect new_motor) in Hout.
    now rewrite Hrun in Hout.
Qed.

(** *** On the simulated servo *)

(** A host whose device manager knows one controller. *)
Definition bench (assemblies : bool) : Motion.Kinesis Sim.Servo :=
  {| Motion.assemblies_load := assemblies;
     Motion.modules_import := None;
     Motion.BuildDeviceList := None;
     Motion.CreateKCubeDCServo := fun serial =>
       Py.Return (if serial =? 27123456 then Some (servo_at 0 0 0) else None) |}.

Definition sample_connect : Py.outcome bool * Motion.Object Sim.Servo :=
  @Motion.Servo.connect Sim.Servo Sim.servo_kdc101 servo_motion (bench true)
    (Motion.Servo.init 27123456 1).

Definition connect_without_assemblies : Py.outcome bool * Motion.Object Sim.Servo :=
  @Motion.Servo.connect Sim.Servo Sim.servo_kdc101 servo_motion (bench false)
    (Motion.Servo.init 27123456 1).

Definition sample_adapter_connect : Py.outcome bool * Base.Session Sim.Servo :=
  @Motion.Adapter.connect Sim.Servo servo_apt_motion
    (fun _ => Py.Raise Py.BackendError) never_connected.

Lemma motor_connect_connects_or_reports_error_witness :
  (Motion._is_initialized sample_connect.2 = true
   /\ connect_outcome sample_connect.1 (Motion.session sample_connect.2))
  /\ (connect_without_assemblies.1 = Py.Raise Py.ConnectionError
      /\ connect_without_assemblies.2 = Motion.Servo.init 27123456 1)
  /\ connect_outcome sample_adapter_connect.1 sample_adapter_connect.2.
Proof.
  split; [|split].
  - refine (proj1 motor_connect_connects_or_reports_error
              Sim.Servo Sim.servo_kdc101 servo_motion (bench true)
              (Motion.Servo.init 27123456 1) sample_connect.2 sample_connect.1 _ _).
    + apply quiet_without_observer. reflexivity.
    + unfold sample_connect. apply surjective_pairing.
  - refine (proj1 motor_connect_connects_or_reports_error
              Sim.Servo Sim.servo_kdc101 servo_motion (bench false)
              (Motion.Servo.init 27123456 1)
              connect_without_assemblies.2 connect_without_assemblies.1 _ _).
    + apply quiet_without_observer. reflexivity.
    + unfold connect_without_assemblies. apply surjective_pairing.
  - refine (proj2 motor_connect_connects_or_reports_error
              Sim.Servo servo_apt_motion (fun _ => Py.Raise Py.BackendError)
              never_connected sample_adapter_connect.2 sample_adapter_connect.1 _ _).
    + apply quiet_without_observer. reflexivity.
    + unfold sample_adapter_connect. apply surjective_pairing.
Defined.

Example connect_to_unknown_serial_fails :
  let run := @Motion.Servo.connect Sim.Servo Sim.servo_kdc101 servo_motion (bench true)
               (Motion.Servo.init 27000001 1) in
  run.1 = Py.Raise Py.ConnectionError
  /\ Base.state (Motion.session run.2) = Base.ERROR
  /\ Base.MotorController_is_connected (Base.state (Motion.session run.2)) = false.
Proof. vm_compute. repeat split. Qed.

(** ** Asking whether the stage is homed (kinesis/kdc101.py, apt/motor.py) *)

Lemma homed_bit (bits : Z) :
  negb (Z.land bits 1024 =? 0) = Z.testbit bits 10.
Proof.
  assert (Hland : Z.land bits 1024 = if Z.testbit bits 10 then 1024 else 0).
  { apply Z.bits_inj'. intros n Hn. rewrite Z.land_spec.
    change 1024 with (2 ^ 10). rewrite Z.pow2_bits_eqb by lia.
    destruct (Z.eqb_spec 10 n) as [<-|Hne].
    - rewrite andb_true_r. destruct (Z.testbit bits 10).
      + now rewrite Z.pow2_bits_eqb, Z.eqb_refl by lia.
      + now rewrite Z.bits_0.
    - rewrite andb_false_r. destruct (Z.testbit bits 10).
      + rewrite Z.pow2_bits_eqb by lia. symmetry. now apply Z.eqb_neq.
      + now rewrite Z.bits_0. }
  rewrite Hland. now destruct (Z.testbit bits 10).
Qed.

(** X24. [is_homed] of the APT motor adapter always returns: [False]
    without a handle or when the status query raises, and otherwise bit 10
    (mask 0x0400) of the status word; the state is never changed.  The
    KDC101 controller's [is_homed] has no such guard: an exception of the
    status query reaches the caller. *)
Theorem apt_is_homed_reads_bit_10_and_never_raises :
  (forall (D : Type) (motor : Motion.APTMotorMotion D) (s : Base.Session D),
      exists (homed : bool) (s' : Base.Session D),
        Motion.Adapter.is_homed s = (Py.Return homed, s')
        /\ Base.state s' = Base.state s
        /\ (Base._device s = None -> homed = false /\ s' = s)
        /\ (forall (d d' : D) (bits : Z),
               Base._device s = Some d ->
               Motion.get_status_bits d = (Py.Return bits, d') ->
               homed = Z.testbit bits 10)
        /\ (forall (d d' : D) (e : Py.exc),
               Base._device s = Some d ->
               Motion.get_status_bits d = (Py.Raise e, d') ->
               homed = false))
  /\ (forall (D : Type) (motion : Motion.KCubeDCServoMotion D)
             (s : Base.Session D)
             (d d' : D) (e : Py.exc),
         Base._device s = Some d ->
         Motion.Status_IsHomed d = (Py.Raise e, d') ->
         (Motion.Servo.is_homed s).1 = Py.Raise e).
Proof.
  split.
  - intros D motor s.
    unfold Motion.Adapter.is_homed, Py.bind at 1, Base.has_device, Py.gets.
    destruct (Base._device s) as [d|] eqn:Hd.
    + change (negb (bool_decide (is_Some (Some d)))) with false. cbv beta iota.
      unfold Py.try_except, Py.bind, Base.call. rewrite Hd.
      destruct (Motion.get_status_bits d) as [[bits|e] d1] eqn:Hbits.
      * eexists _, _. split; [reflexivity|].
        split; [reflexivity|split; [discriminate|split]].
        -- intros d0 d' bits' [= <-]. rewrite Hbits. intros [= <- _].
           apply homed_bit.
        -- intros d0 d' e' [= <-]. rewrite Hbits. discriminate.
      * eexists _, _. split; [reflexivity|].
        split; [reflexivity|split; [discriminate|split]].
        -- intros d0 d' bits [= <-]. rewrite Hbits. discriminate.
        -- reflexivity.
    + change (negb (bool_decide (is_Some (@None D)))) with true. cbv beta iota.
      eexists _, _. split; [reflexivity|].
      split; [reflexivity|split; [now split|split; discriminate]].
  - intros D motion s d d' e Hd Hq.
    unfold Motion.Servo.is_homed, Py.bind, Base.has_device, Py.gets, Base.call.
    rewrite Hd. change (negb (bool_decide (is_Some (Some d)))) with false.
    cbv beta iota. rewrite ?Hd. now rewrite Hq.
Qed.

#[local] Instance unreadable_servo : Motion.KCubeDCServoMotion Sim.Servo := {
  Motion.Connect := fun _ d => (Py.Return tt, d);
  Motion.IsSettingsInitialized := fun d => (Py.Return true, d);
  Motion.WaitForSettingsInitialized := fun _ d => (Py.Return tt, d);
  Motion.StartPolling := fun _ d => (Py.Return tt, d);
  Motion.EnableDevice := fun d => (Py.Return tt, d);
  Motion.LoadMotorConfiguration := fun _ d => (Py.Return tt, d);
  Motion.Home := fun _ d => (Py.Return tt, d);
  Motion.MoveTo := fun _ _ d => (Py.Return tt, d);
  Motion.Status_IsHoming := fun d => (Py.Raise Py.BackendError, d);
  Motion.Status_IsHomed := fun d => (Py.Raise Py.BackendError, d);
}.

Lemma apt_is_homed_reads_bit_10_and_never_raises_witness :
  (@Motion.Servo.is_homed Sim.Servo unreadable_servo
     (servo_session Base.CONNECTED (servo_at 0 0 0))).1
  = Py.Raise Py.BackendError.
Proof.
  apply (proj2 apt_is_homed_reads_bit_10_and_never_raises
           Sim.Servo unreadable_servo
           (servo_session Base.CONNECTED (servo_at 0 0 0))
           (servo_at 0 0 0) (servo_at 0 0 0) Py.BackendError);
    reflexivity.
Defined.

Example apt_is_homed_on_the_simulated_servo :
  (@Motion.Adapter.is_homed Sim.Servo servo_apt_motion
     (servo_session Base.MOVING (servo_at 0 0 0))).1 = Py.Return true
  /\ (@Motion.Adapter.is_homed Sim.Servo servo_apt_motion never_connected)
     = (Py.Return false, never_connected).
Proof. vm_compute. split; reflexivity. Qed.

(** ** Disconnecting and reading a piezo controller (kinesis/kpz101.py,
    apt/piezo.py) *)

(** What one call of a piezo [disconnect] achieves. *)
Definition piezo_disconnects {D} (method : Py.M (Piezo.Session D) unit) : Prop :=
  forall s : Piezo.Session D,
    Piezo.state (method s).2 = Base.DISCONNECTED
    /\ Piezo.is_connected (method s).2 = false
    /\ Piezo._device (method s).2 = None
    /\ Piezo._voltage_range (method s).2 = Piezo._voltage_range s
    /\ Piezo._is_initialized (method s).2 = Piezo._is_initialized s
    /\ Piezo.voltages (method s).2 = Piezo.voltages s
    /\ (match Piezo._on_state_change s with
        | Some observer => observer Base.DISCONNECTED = None
        | None => True
        end -> (method s).1 = Py.Return tt).

(** The shape shared by both methods: a teardown whose exceptions are
    dropped, the handle cleared, the state set. *)
Definition piezo_teardown {D} (teardown : Py.M D unit) : Py.M (Piezo.Session D) unit :=
  (let* present := Piezo.has_device in
   (if present : bool then
      (Py.try_except (Piezo.call teardown) (fun _ => Py.ret tt) ;;
       Py.modify (Piezo.with_device None))
    else Py.ret tt) ;;
   Piezo._set_state Base.DISCONNECTED)%py.

Lemma piezo_set_state_disconnected {D} (s : Piezo.Session D) :
  let run := Piezo._set_state Base.DISCONNECTED s in
  run.2 = Piezo.with_state Base.DISCONNECTED s
  /\ (match Piezo._on_state_change s with
      | Some observer => observer Base.DISCONNECTED = None
      | None => True
      end -> run.1 = Py.Return tt).
Proof.
  unfold Piezo._set_state. cbn [Piezo._on_state_change Piezo.with_state].
  destruct (Piezo._on_state_change s) as [observer|]; cbn [fst snd];
    (split; [reflexivity|]); [now intros ->|reflexivity].
Qed.

Lemma piezo_teardown_disconnects {D} (teardown : Py.M D unit) :
  piezo_disconnects (piezo_teardown teardown).
Proof.
  intros s.
  assert (Hrun : exists d', piezo_teardown teardown s
                 = Piezo._set_state Base.DISCONNECTED (Piezo.with_device None s)
                   /\ (d' = Piezo._device s)).
  { exists (Piezo._device s). split; [|reflexivity].
    unfold piezo_teardown, Py.bind at 1 2, Piezo.has_device, Py.gets.
    destruct (Piezo._device s) as [d|] eqn:Hd.
    - change (bool_decide (is_Some (Some d))) with true. cbv beta iota.
      unfold Py.bind, Py.try_except, Piezo.call, Py.modify, Py.ret. rewrite Hd.
      destruct (teardown d) as [[[]|e] d1]; reflexivity.
    - change (bool_decide (is_Some (@None D))) with false. cbv beta iota.
      unfold Py.ret. do 2 f_equal. destruct s; cbn in *. now subst. }
  destruct Hrun as (_ & -> & _).
  destruct (piezo_set_state_disconnected (Piezo.with_device None s)) as [Hs Hr].
  cbv zeta in Hs, Hr. rewrite Hs. repeat (split; [reflexivity|]). exact Hr.
Qed.

Lemma KPZ101_disconnect_teardown {D} `{Piezo.KCubePiezo D} (s : Piezo.Session D) :
  Piezo.KPZ101.disconnect s
  = piezo_teardown (Piezo.StopPolling ;; Piezo.Disconnect)%py s.
Proof.
  unfold Piezo.KPZ101.disconnect, piezo_teardown, Py.bind, Piezo.has_device,
    Py.gets, Py.try_except, Piezo.call.
  destruct (Piezo._device s) as [d|] eqn:Hd; [|reflexivity].
  change (bool_decide (is_Some (Some d))) with true. cbv beta iota.
  rewrite Hd.
  destruct (Piezo.StopPolling d) as [[[]|e] d1]; cbn [Piezo._device Piezo.with_device];
    [|reflexivity].
  destruct (Piezo.Disconnect d1) as [[[]|e] d2]; reflexivity.
Qed.

(** X25. [disconnect] of the KPZ101 controller and of the APT piezo
    adapter always ends with the state Disconnected, [is_connected] false
    and no handle, whatever the backend's teardown does; it keeps the
    voltage range read at connect time, and it returns normally whenever
    the state observer does. *)
Theorem piezo_disconnect_always_disconnects :
  (forall (D : Type) (backend : Piezo.KCubePiezo D),
      piezo_disconnects (Piezo.KPZ101.disconnect (D := D)))
  /\ (forall (D : Type) (backend : Piezo.APTPiezo D),
         piezo_disconnects (Piezo.APT.disconnect (D := D))).
Proof.
  split; intros D backend s.
  - rewrite KPZ101_disconnect_teardown. apply piezo_teardown_disconnects.
  - apply (piezo_teardown_disconnects Piezo.stop_ctrl).
Qed.

(** A query that answers [default] without a handle or when the backend
    raises, and never raises itself nor touches anything but the backend. *)
Definition guarded_query {D A} (method : Py.M (Piezo.Session D) A)
    (op : Py.M D A) (default : A) : Prop :=
  forall s : Piezo.Session D,
    exists (a : A) (d' : option D),
      method s = (Py.Return a, Piezo.with_device d' s)
      /\ match Piezo._device s with
         | None => a = default /\ d' = None
         | Some d =>
             a = match (op d).1 with
                 | Py.Return x => x
                 | Py.Raise _ => default
                 end
             /\ d' = Some (op d).2
         end.

Lemma guarded_query_shape {D A} (op : Py.M D A) (default : A) :
  guarded_query
    (let* present := Piezo.has_device in
     if negb present then Py.ret default
     else Py.try_except (Piezo.call op) (fun _ => Py.ret default))%py
    op default.
Proof.
  intros s. unfold Py.bind, Piezo.has_device, Py.gets, Py.try_except, Piezo.call,
    Py.ret.
  destruct (Piezo._device s) as [d|] eqn:Hd.
  - change (negb (bool_decide (is_Some (Some d)))) with false. cbv beta iota.
    rewrite Hd. destruct (op d) as [[a|e] d1]; cbn [fst snd];
      eexists _, _; (split; [reflexivity|now split]).
  - change (negb (bool_decide (is_Some (@None D)))) with true. cbv beta iota.
    exists default, None. split; [|now split].
    f_equal. destruct s; cbn in *. now subst.
Qed.

(** X26. The queries of the piezo controllers never raise and change
    nothing but the backend: [get_voltage] and [get_position] answer 0.0,
    [get_max_voltage] 75.0 and [set_position] [False] when there is no
    handle or the backend raises; otherwise they answer what the backend
    returned ([True] for [set_position]). *)
Theorem piezo_queries_fall_back_to_defaults :
  (forall (D : Type) (backend : Piezo.KCubePiezo D),
      guarded_query Piezo.KPZ101.get_voltage Piezo.GetOutputVoltage 0%Q
      /\ guarded_query Piezo.KPZ101.get_position Piezo.GetPosition 0%Q
      /\ guarded_query Piezo.KPZ101.get_max_voltage Piezo.GetMaxOutputVoltage 75%Q
      /\ forall position : Q,
           guarded_query (Piezo.KPZ101.set_position position)
             (Piezo.SetPosition position ;; Py.ret true)%py false)
  /\ (forall (D : Type) (backend : Piezo.APTPiezo D),
         guarded_query Piezo.APT.get_voltage Piezo.piezo_get_voltage 0%Q).
Proof.
  split; intros D backend; [split; [|split; [|split]]|];
    try apply guarded_query_shape.
  intros position s.
  destruct (guarded_query_shape (Piezo.SetPosition position ;; Py.ret true)%py
              false s) as (a & d' & Hrun & Hspec).
  exists a, d'. split; [|exact Hspec]. rewrite <- Hrun.
  unfold Piezo.KPZ101.set_position, Py.bind, Piezo.has_device, Py.gets,
    Py.try_except, Piezo.call, Py.ret.
  destruct (Piezo._device s) as [d|] eqn:Hd; [|reflexivity].
  change (negb (bool_decide (is_Some (Some d)))) with false. cbv beta iota.
  rewrite Hd.
  destruct (Piezo.SetPosition position d) as [[[]|e] d1]; reflexivity.
Qed.

(** ** The two registries together (controllers.py, stages.py) *)

(** What holds of every entry of the stage database. *)
Definition sound_stage (info : Stages.StageInfo) : Prop :=
  (exists (motor_type : string) (controller_type : string),
      Stages.compatible_controllers info
      = Registry.get_controllers_by_motor_type motor_type
      /\ controller_type ∈ Stages.compatible_controllers info)
  /\ (0 < Stages.jog_step_default info)%Q
  /\ (forall t : Q, Stages.travel info = Some t -> (0 < t)%Q).

Lemma sound_stages : Forall (fun item => sound_stage item.2) Stages.STAGES_items.
Proof.
  unfold Stages.STAGES_items.
  repeat (apply Forall_cons; split;
          [split;
           [first [exists "dc_servo", "KDC101"; split; [reflexivity|set_solver]
                  |exists "brushless", "KBD101"; split; [reflexivity|set_solver]
                  |exists "inertial", "KIM101"; split; [reflexivity|set_solver]
                  |exists "piezo", "KPZ101"; split; [reflexivity|set_solver]]
           |split; [reflexivity|intros t [= <-]; reflexivity]]
          |]).
  constructor.
Qed.

Lemma motor_type_members (motor_type controller_type : string) :
  controller_type ∈ Registry.get_controllers_by_motor_type motor_type
  <-> exists info, Controllers.get_controller_info controller_type = Some info
                   /\ Controllers.motor_type info = motor_type.
Proof.
  unfold Registry.get_controllers_by_motor_type, Controllers.get_controller_info.
  rewrite list_elem_of_fmap. split.
  - intros ([name info] & -> & Hin). apply list_elem_of_filter in Hin as [Hm Hin].
    exists info. split; [now apply CONTROLLERS_lookup|exact Hm].
  - intros (info & Hinfo & Hm). exists (controller_type, info).
    split; [reflexivity|]. apply list_elem_of_filter.
    split; [exact Hm|now apply CONTROLLERS_lookup].
Qed.

(** X27. Stage compatibility goes by motor family.  For every stage of the
    database: its compatible controllers are exactly
    [get_controllers_by_motor_type] of one motor type, so that two
    registered controllers of the same motor type accept the same stages,
    and every controller a stage names is registered; there is at least
    one; [get_default_jog_step] is positive, and so is [get_stage_travel]
    when the stage has a travel. *)
Theorem stage_compatibility_goes_by_motor_type :
  forall (stage_name : string) (info : Stages.StageInfo),
    Stages.get_stage_info stage_name = Some info ->
    (exists controller_type, controller_type ∈ Stages.compatible_controllers info)
    /\ (forall controller_type,
           controller_type ∈ Stages.compatible_controllers info ->
           controller_type ∈ Registry.get_all_controller_types)
    /\ (forall (c1 c2 : string) (i1 i2 : Controllers.ControllerInfo),
           Controllers.get_controller_info c1 = Some i1 ->
           Controllers.get_controller_info c2 = Some i2 ->
           Controllers.motor_type i1 = Controllers.motor_type i2 ->
           (stage_name ∈ Stages.get_compatible_stages c1
            <-> stage_name ∈ Stages.get_compatible_stages c2))
    /\ (0 < Registry.get_default_jog_step stage_name)%Q
    /\ (forall t : Q, Registry.get_stage_travel stage_name = Some t -> (0 < t)%Q).
Proof.
  intros stage_name info Hinfo.
  assert (Hsound : sound_stage info).
  { apply STAGES_lookup in Hinfo.
    exact (proj1 (Forall_forall _ _) sound_stages _ Hinfo). }
  destruct Hsound as ((m & c & Hcc & Hc) & Hjog & Htravel).
  split; [now exists c|]. split; [|split; [|split]].
  - intros controller_type Hin. rewrite Hcc in Hin.
    apply motor_type_members in Hin as (i & Hi & _).
    unfold Registry.get_all_controller_types. apply list_elem_of_fmap.
    exists (controller_type, i). split; [reflexivity|now apply CONTROLLERS_lookup].
  - intros c1 c2 i1 i2 H1 H2 Hsame. rewrite !compatible_stage_iff.
    assert (Hmove : forall a b ia ib,
               Controllers.get_controller_info a = Some ia ->
               Controllers.get_controller_info b = Some ib ->
               Controllers.motor_type ia = Controllers.motor_type ib ->
               (exists info0, Stages.get_stage_info stage_name = Some info0
                              /\ a ∈ Stages.compatible_controllers info0) ->
               exists info0, Stages.get_stage_info stage_name = Some info0
                             /\ b ∈ Stages.compatible_controllers info0).
    { intros a b ia ib Ha Hb Hab (info0 & Hinfo0 & Hin).
      rewrite Hinfo in Hinfo0. injection Hinfo0 as <-.
      exists info. split; [exact Hinfo|]. rewrite Hcc in Hin |- *.
      apply motor_type_members in Hin as (ia' & Hia' & Hm).
      rewrite Ha in Hia'. injection Hia' as <-.
      apply motor_type_members. exists ib. split; [exact Hb|congruence]. }
    split; [apply (Hmove c1 c2 i1 i2)|apply (Hmove c2 c1 i2 i1)]; auto.
  - unfold Registry.get_default_jog_step. unfold Stages.get_stage_info in Hinfo.
    now rewrite Hinfo.
  - unfold Registry.get_stage_travel. unfold Stages.get_stage_info in Hinfo.
    rewrite Hinfo. exact Htravel.
Qed.

Lemma stage_compatibility_goes_by_motor_type_witness :
  ("Z825B" ∈ Stages.get_compatible_stages "KDC101"
   <-> "Z825B" ∈ Stages.get_compatible_stages "TDC001")
  /\ (0 < Registry.get_default_jog_step "Z825B")%Q.
Proof.
  destruct (Stages.get_stage_info "Z825B") as [info|] eqn:Hinfo;
    [|vm_compute in Hinfo; discriminate].
  destruct (stage_compatibility_goes_by_motor_type "Z825B" info Hinfo)
    as (_ & _ & Hsame & Hjog & _).
  split; [|exact Hjog].
  destruct (Controllers.get_controller_info "KDC101") as [i1|] eqn:H1;
    [|vm_compute in H1; discriminate].
  destruct (Controllers.get_controller_info "TDC001") as [i2|] eqn:H2;
    [|vm_compute in H2; discriminate].
  apply (Hsame "KDC101" "TDC001" i1 i2 H1 H2).
  vm_compute in H1, H2. injection H1 as <-. injection H2 as <-. reflexivity.
Defined.

(** ** Matching a reported stage name (gui.py) *)

(** [settings_name.upper().replace("/M", "").replace("-M", "")]. *)
Definition normalised (settings_name : string) : string :=
  Py.replace "-M" EmptyString (Py.replace "/M" EmptyString (Py.upper settings_name)).

Lemma contains_empty (big : string) : Json.contains big EmptyString = true.
Proof. destruct big; reflexivity. Qed.

(** X28. The stage the auto-detection derives from a reported name is
    always an entry of the stage database.  A reported name that is itself
    an entry is taken as it is.  Any other name is matched by containment,
    in database order; a name that is empty once upper-cased and stripped
    of [/M] and [-M] is contained in every entry and so yields the first
    stage of the database. *)
Theorem detected_stage_is_registered :
  forall settings_name : string,
    (forall stage_name,
        Gui.match_stage settings_name = Some stage_name ->
        is_Some (Stages.get_stage_info stage_name))
    /\ (is_Some (Stages.get_stage_info settings_name) ->
        Gui.match_stage settings_name = Some settings_name)
    /\ (Stages.get_stage_info settings_name = None ->
        normalised settings_name = EmptyString ->
        Gui.match_stage settings_name = head Registry.get_all_stage_names).
Proof.
  intros settings_name. unfold Gui.match_stage, Stages.get_stage_info.
  fold (normalised settings_name). split; [|split].
  - intros stage_name. case_bool_decide as Hexact.
    + intros [= <-]. exact Hexact.
    + intros Hfind. apply find_some in Hfind as [Hin _].
      unfold Stages.STAGES_names in Hin. apply list_elem_of_In in Hin.
      apply list_elem_of_fmap in Hin as ([name info] & -> & Hin).
      exists info. now apply STAGES_lookup.
  - intros Hexact. now rewrite bool_decide_eq_true_2.
  - intros Hnone ->. rewrite bool_decide_eq_false_2 by (rewrite Hnone; intros [? [=]]).
    reflexivity.
Qed.

Example suffix_only_name_yields_first_stage :
  Gui.match_stage "/m" = Some "PRM1Z8"
  /\ Gui.match_stage "mts50/m-z8" = Some "MTS50-Z8"
  /\ Gui.match_stage "no such stage" = None.
Proof. vm_compute. repeat split. Qed.

(** ** All linked groups (device_manager.py) *)

(** [member] stands in the list of a key equal to [key]. *)
Definition grouped (groups : Groups.t) (key : Json.t) (member : Z * Z) : Prop :=
  exists k members,
    (k, members) ∈ groups /\ Groups.key_eqb k key = true /\ member ∈ members.

Lemma key_eqb_sym (a b : Json.t) : Groups.key_eqb a b = Groups.key_eqb b a.
Proof.
  destruct a as [|[|]|n|s| |], b as [|[|]|m|s'| |]; cbn [Groups.key_eqb Bool.eqb];
    try reflexivity; try apply Z.eqb_sym; apply String.eqb_sym.
Qed.

Lemma key_eqb_trans (a b c : Json.t) :
  Groups.key_eqb a b = true -> Groups.key_eqb b c = true -> Groups.key_eqb a c = true.
Proof.
  destruct a as [|[|]|n|s| |], b as [|[|]|m|s'| |], c as [|[|]|p|s''| |];
    cbn [Groups.key_eqb Bool.eqb]; try discriminate; try reflexivity;
    rewrite ?Z.eqb_eq, ?String.eqb_eq; congruence.
Qed.

Lemma key_eqb_str (k : Json.t) (g : string) :
  Groups.key_eqb k (Json.Str g) = true <-> k = Json.Str g.
Proof.
  destruct k as [|[|]|n|s| |]; cbn [Groups.key_eqb]; try (split; discriminate).
  rewrite String.eqb_eq. split; congruence.
Qed.

Lemma grouped_setdefault_append (groups : Groups.t) (group key : Json.t)
    (member x : Z * Z) :
  grouped (Groups.setdefault_append groups group member) key x
  <-> grouped groups key x \/ (Groups.key_eqb group key = true /\ x = member).
Proof.
  unfold grouped. induction groups as [|[k members] rest IH];
    cbn [Groups.setdefault_append].
  - split.
    + intros (k & ms & Hin & Hk & Hx). apply list_elem_of_singleton in Hin.
      injection Hin as -> ->. apply list_elem_of_singleton in Hx. now right.
    + intros [(k & ms & Hin & _)|[Hk ->]]; [now apply elem_of_nil in Hin|].
      exists group, [member]. split; [left|]. split; [exact Hk|left].
  - destruct (Groups.key_eqb k group) eqn:Hkg.
    + split.
      * intros (k' & ms & Hin & Hk & Hx). apply elem_of_cons in Hin as [[= -> ->]|Hin].
        -- apply elem_of_app in Hx as [Hx|Hx].
           ++ left. exists k, members. split; [left|now split].
           ++ apply list_elem_of_singleton in Hx. right. split; [|exact Hx].
              rewrite key_eqb_sym in Hkg. exact (key_eqb_trans _ _ _ Hkg Hk).
        -- left. exists k', ms. split; [now right|now split].
      * intros [(k' & ms & Hin & Hk & Hx)|[Hk ->]].
        -- apply elem_of_cons in Hin as [[= -> ->]|Hin].
           ++ exists k, (members ++ [member]). split; [left|].
              split; [exact Hk|]. apply elem_of_app. now left.
           ++ exists k', ms. split; [now right|now split].
        -- exists k, (members ++ [member]). split; [left|].
           split; [exact (key_eqb_trans _ _ _ Hkg Hk)|].
           apply elem_of_app. right. left.
    + split.
      * intros (k' & ms & Hin & Hk & Hx). apply elem_of_cons in Hin as [[= -> ->]|Hin].
        -- left. exists k, members. split; [left|now split].
        -- destruct (proj1 IH) as [(k2 & m2 & Hin2 & H2)|H2];
             [now exists k', ms| |now right].
           left. exists k2, m2. split; [now right|exact H2].
      * intros [(k' & ms & Hin & Hk & Hx)|H].
        -- apply elem_of_cons in Hin as [[= -> ->]|Hin].
           ++ exists k, members. split; [left|now split].
           ++ destruct (proj2 IH) as (k2 & m2 & Hin2 & H2);
                [left; now exists k', ms|].
              exists k2, m2. split; [now right|exact H2].
        -- destruct (proj2 IH (or_intror H)) as (k2 & m2 & Hin2 & H2).
           exists k2, m2. split; [now right|exact H2].
Qed.

(** A channel entry that the inner loop files under [key]. *)
Definition files_under (key : Json.t) (ch_config : Json.t) : Prop :=
  Json.truthy ch_config = true
  /\ exists group,
       Json.get ch_config "linked_group" Json.Null = Py.Return group
       /\ Json.truthy group = true
       /\ Groups.key_eqb group key = true.

Lemma channels_loop_members (serial : Z) (ch_items : list (string * Json.t)) :
  forall groups groups',
    Groups.channels_loop serial ch_items groups = Py.Return groups' ->
    forall key x,
      grouped groups' key x
      <-> grouped groups key x
          \/ exists ch_str ch_config,
               (ch_str, ch_config) ∈ ch_items
               /\ Py.int ch_str = Py.Return x.2 /\ x.1 = serial
               /\ files_under key ch_config.
Proof.
  induction ch_items as [|[ch_str ch_config] rest IH]; intros groups groups' Hloop key x.
  - injection Hloop as <-. split; [now left|].
    intros [H|(? & ? & H & _)]; [exact H|now apply elem_of_nil in H].
  - cbn [Groups.channels_loop] in Hloop.
    assert (Hskip : ~ files_under key ch_config ->
                    Groups.channels_loop serial rest groups = Py.Return groups' ->
                    grouped groups' key x
                    <-> grouped groups key x
                        \/ exists k v, (k, v) ∈ (ch_str, ch_config) :: rest
                                       /\ Py.int k = Py.Return x.2 /\ x.1 = serial
                                       /\ files_under key v).
    { intros Hnot Hrest. rewrite (IH _ _ Hrest key x). split.
      - intros [H|(k & v & Hin & H)]; [now left|].
        right. exists k, v. split; [now right|exact H].
      - intros [H|(k & v & Hin & Hint & Hser & Hgrp)]; [now left|].
        apply elem_of_cons in Hin as [[= -> ->]|Hin]; [contradiction|].
        right. now exists k, v. }
    destruct (Json.truthy ch_config) eqn:Htruthy;
      [|apply Hskip; [intros [H _]; congruence|exact Hloop]].
    destruct (Json.get ch_config "linked_group" Json.Null) as [group|] eqn:Hget;
      [|discriminate].
    cbn [Py.obind] in Hloop.
    destruct (Json.truthy group) eqn:Hgroup;
      [|apply Hskip; [|exact Hloop]; intros (_ & g & Hg & Hgt & _); rewrite Hget in Hg;
       injection Hg as <-; congruence].
    destruct (Groups.hashable group); [|discriminate].
    destruct (Py.int ch_str) as [ch|] eqn:Hint; [|discriminate].
    cbn [Py.obind] in Hloop.
    rewrite (IH _ _ Hloop key x), grouped_setdefault_append. split.
    + intros [[H|[Hk ->]]|(k & v & Hin & H)].
      * now left.
      * right. exists ch_str, ch_config. split; [left|]. split; [exact Hint|].
        split; [reflexivity|]. split; [exact Htruthy|]. now exists group.
      * right. exists k, v. split; [now right|exact H].
    + intros [H|(k & v & Hin & Hk & Hser & Hgrp)]; [now left; left|].
      apply elem_of_cons in Hin as [[= -> ->]|Hin].
      * left. right. destruct Hgrp as (_ & g & Hg & _ & Hkey).
        rewrite Hget in Hg. injection Hg as <-. split; [exact Hkey|].
        destruct x as [x1 x2]. cbn [fst snd] in *. congruence.
      * right. now exists k, v.
Qed.

Lemma devices_loop_members (items : list (string * Json.t)) :
  forall groups groups',
    Groups.devices_loop items groups = Py.Return groups' ->
    forall key x,
      grouped groups' key x
      <-> grouped groups key x
          \/ exists serial_str device_config ch_items ch_str ch_config,
               (serial_str, device_config) ∈ items
               /\ Py.int serial_str = Py.Return x.1
               /\ Json.get device_config "channels" (Json.Dict [])
                  = Py.Return (Json.Dict ch_items)
               /\ (ch_str, ch_config) ∈ ch_items
               /\ Py.int ch_str = Py.Return x.2
               /\ files_under key ch_config.
Proof.
  induction items as [|[serial_str device_config] rest IH];
    intros groups groups' Hloop key x.
  - injection Hloop as <-. split; [now left|].
    intros [H|(? & ? & ? & ? & ? & H & _)]; [exact H|now apply elem_of_nil in H].
  - cbn [Groups.devices_loop] in Hloop.
    destruct (Py.int serial_str) as [serial|] eqn:Hserial; [|discriminate].
    cbn [Py.obind] in Hloop.
    destruct (Json.get device_config "channels" (Json.Dict [])) as [channels|] eqn:Hch;
      [|discriminate].
    cbn [Py.obind] in Hloop.
    destruct channels as [| | | | |ch_items]; try discriminate.
    cbn [Store.items Py.obind] in Hloop.
    destruct (Groups.channels_loop serial ch_items groups) as [groups1|] eqn:Hinner;
      [|discriminate].
    cbn [Py.obind] in Hloop.
    rewrite (IH _ _ Hloop key x), (channels_loop_members _ _ _ _ Hinner key x). split.
    + intros [[H|(ch_str & ch_config & Hin & Hint & Hser & Hgrp)]|
              (s & dc & cs & k & v & Hin & H)].
      * now left.
      * right. exists serial_str, device_config, ch_items, ch_str, ch_config.
        split; [left|]. split; [congruence|]. split; [exact Hch|].
        split; [exact Hin|]. split; [exact Hint|exact Hgrp].
      * right. exists s, dc, cs, k, v. split; [now right|exact H].
    + intros [H|(s & dc & cs & k & v & Hin & Hs & Hcs & Hkv & Hk & Hgrp)];
        [now left; left|].
      apply elem_of_cons in Hin as [[= -> ->]|Hin].
      * left. right. rewrite Hch in Hcs. injection Hcs as <-.
        exists k, v. split; [exact Hkv|]. split; [exact Hk|].
        split; [congruence|exact Hgrp].
      * right. now exists s, dc, cs, k, v.
Qed.

(** X29. What [get_all_linked_groups] returns.  A tuple
    [(serial, channel)] stands under a group key exactly when some
    controller entry whose key reads as [serial] has a channel entry whose
    key reads as [channel], that is truthy and whose [linked_group] is
    truthy and equal to the key.  It therefore covers the per-device query:
    every channel [get_linked_channels] reports for a device and a
    non-empty group name stands, with that device's serial number, under
    that name. *)
Theorem get_all_linked_groups_covers_linked_channels :
  forall (env : DeviceManager.Env) (f : DeviceManager.File) (groups : Groups.t),
    Groups.get_all_linked_groups env f = Py.Return groups ->
    (exists items,
        Json.get (DeviceManager.load_device_config env f) "controllers" (Json.Dict [])
        = Py.Return (Json.Dict items)
        /\ forall (key : Json.t) (serial channel : Z),
             grouped groups key (serial, channel)
             <-> exists serial_str device_config ch_items ch_str ch_config,
                   (serial_str, device_config) ∈ items
                   /\ Py.int serial_str = Py.Return serial
                   /\ Json.get device_config "channels" (Json.Dict [])
                      = Py.Return (Json.Dict ch_items)
                   /\ (ch_str, ch_config) ∈ ch_items
                   /\ Py.int ch_str = Py.Return channel
                   /\ files_under key ch_config)
    /\ forall (serial channel : Z) (linked_group : string) (l : list Z),
         linked_group <> EmptyString ->
         Store.get_linked_channels env f serial linked_group = Py.Return l ->
         channel ∈ l ->
         exists members,
           (Json.Str linked_group, members) ∈ groups /\ (serial, channel) ∈ members.
Proof.
  intros env f groups. unfold Groups.get_all_linked_groups.
  destruct (Json.get (DeviceManager.load_device_config env f) "controllers" (Json.Dict []))
    as [controllers|] eqn:Hcontrollers; [|discriminate].
  cbn [Py.obind]. destruct controllers as [| | | | |items]; try discriminate.
  cbn [Store.items Py.obind]. intros Hloop.
  assert (Hmembers : forall key serial channel,
             grouped groups key (serial, channel)
             <-> exists serial_str device_config ch_items ch_str ch_config,
                   (serial_str, device_config) ∈ items
                   /\ Py.int serial_str = Py.Return serial
                   /\ Json.get device_config "channels" (Json.Dict [])
                      = Py.Return (Json.Dict ch_items)
                   /\ (ch_str, ch_config) ∈ ch_items
                   /\ Py.int ch_str = Py.Return channel
                   /\ files_under key ch_config).
  { intros key serial channel.
    rewrite (devices_loop_members _ _ _ Hloop key (serial, channel)). cbn [fst snd].
    split; [|intros H; now right].
    intros [(k & ms & Hin & _)|H]; [now apply elem_of_nil in Hin|exact H]. }
  split; [exists items; split; [reflexivity|exact Hmembers]|].
  intros serial channel linked_group l Hname Hget Hin.
  unfold Store.get_linked_channels in Hget. rewrite Hcontrollers in Hget.
  cbn [Py.obind Json.get] in Hget.
  destruct (Json.assoc_get items (Py.str serial)) as [device_config|] eqn:Hdev.
  - cbn [default from_option id] in Hget.
    destruct (Json.get device_config "channels" (Json.Dict [])) as [channels|] eqn:Hch;
      [|discriminate].
    cbn [Py.obind] in Hget. destruct channels as [| | | | |ch_items]; try discriminate.
    cbn [Store.items Py.obind] in Hget.
    destruct (Store.linked_loop linked_group ch_items []) as [result|] eqn:Hlinked;
      [|discriminate].
    cbn [Py.obind] in Hget. injection Hget as <-.
    unfold Store.sorted in Hin. rewrite merge_sort_Permutation in Hin.
    apply (linked_loop_members _ _ _ _ Hlinked channel) in Hin
      as [Hin|(ch_str & ch_config & Hitem & Hint & Htruthy & Hgroup)];
      [now apply elem_of_nil in Hin|].
    destruct (proj2 (Hmembers (Json.Str linked_group) serial channel))
      as (k & members & Hk & Heq & Hmember).
    + exists (Py.str serial), device_config, ch_items, ch_str, ch_config.
      split; [now apply assoc_get_elem|]. split; [apply int_str|].
      split; [exact Hch|]. split; [exact Hitem|]. split; [exact Hint|].
      split; [exact Htruthy|]. exists (Json.Str linked_group).
      split; [exact Hgroup|]. cbn [Json.truthy Groups.key_eqb].
      split; [|apply String.eqb_refl].
      destruct (String.eqb_spec linked_group EmptyString); [contradiction|reflexivity].
    + apply key_eqb_str in Heq as ->. now exists members.
  - cbn [default from_option id Json.get Json.assoc_get Py.obind Store.items
         Store.linked_loop] in Hget.
    injection Hget as <-. vm_compute in Hin. now apply elem_of_nil in Hin.
Qed.

Lemma get_all_linked_groups_covers_linked_channels_witness :
  exists members,
    (Json.Str "xy", members) ∈ [(Json.Str "xy", [(97000001, 3)])]
    /\ (97000001, 3) ∈ members.
Proof.
  apply (proj2 (get_all_linked_groups_covers_linked_channels healthy_env linked_file
                  [(Json.Str "xy", [(97000001, 3)])]
                  ltac:(vm_compute; reflexivity))
           97000001 3 "xy" [3]).
  - discriminate.
  - vm_compute. reflexivity.
  - left.
Defined.
